(** * OCI machine driver: shallow embedding of [Driver] and [Client]

    The Go sources modelled here are the driver facade
    (pkg/drivers/oci/oci.go) and the client that wraps the OCI SDK
    (compute, virtual network and identity clients).

    Conventions of the embedding.
    - A Go [string] is a [string]; a [*string] is an [option string]
      ([None] is the nil pointer); dereferencing nil panics.
    - A Go [error] is an [option string] holding the message ([None] is
      nil).  A Go multiple return [(T, error)] is a pair.
    - The SDK clients and the file system are the environment: a record
      of operations ([Cloud]) over an abstract world [W].  Every call the
      client issues is also appended to a call log, so that "no request
      is issued" is a statement about that log.
    - Calls to the logger have no effect on results and are left out. *)

From Stdlib Require Import String Ascii List ZArith NArith Lia Bool Sorted.
From Stdlib Require Import DecimalString.
Import ListNotations.
Local Open Scope string_scope.
Local Open Scope Z_scope.

(** ** Go standard library functions used by the driver *)

(** Package [strings], on byte strings.  ASCII letters are mapped as Go
    maps them; bytes from 128 up are left alone (Go decodes those as
    UTF-8 runes). *)
Module strings.

Definition upperByte (c : ascii) : ascii :=
  let n := nat_of_ascii c in
  if (Nat.leb 97 n && Nat.leb n 122)%bool then ascii_of_nat (n - 32) else c.

Fixpoint ToUpper (s : string) : string :=
  match s with
  | EmptyString => EmptyString
  | String c r => String (upperByte c) (ToUpper r)
  end.

Fixpoint HasPrefix (s pfx : string) : bool :=
  match pfx, s with
  | EmptyString, _ => true
  | String _ _, EmptyString => false
  | String p pfx', String c s' => (Ascii.eqb c p && HasPrefix s' pfx')%bool
  end.

Fixpoint Contains (s substr : string) : bool :=
  (HasPrefix s substr ||
   match s with
   | EmptyString => false
   | String _ s' => Contains s' substr
   end)%bool.

Fixpoint EqualFold (s t : string) : bool :=
  match s, t with
  | EmptyString, EmptyString => true
  | String a s', String b t' =>
      (Ascii.eqb (upperByte a) (upperByte b) && EqualFold s' t')%bool
  | _, _ => false
  end.

Fixpoint Join (elems : list string) (sep : string) : string :=
  match elems with
  | [] => ""
  | [e] => e
  | e :: rest => e ++ sep ++ Join rest sep
  end.

End strings.

(** [base64.StdEncoding.EncodeToString]: the standard alphabet with
    [=] padding. *)
Module base64.

Definition alphabet : string :=
  "ABCDEFGHIJKLMNOPQRSTUVWXYZabcdefghijklmnopqrstuvwxyz0123456789+/".

Definition digit (n : N) : ascii :=
  match String.get (N.to_nat n) alphabet with
  | Some c => c
  | None => "="%char
  end.

Definition byte (c : ascii) : N := N_of_ascii c.

Fixpoint EncodeToString (src : string) : string :=
  match src with
  | EmptyString => EmptyString
  | String a EmptyString =>
      let v := N.shiftl (byte a) 16 in
      String (digit (N.land (N.shiftr v 18) 63))
        (String (digit (N.land (N.shiftr v 12) 63)) "==")
  | String a (String b EmptyString) =>
      let v := N.lor (N.shiftl (byte a) 16) (N.shiftl (byte b) 8) in
      String (digit (N.land (N.shiftr v 18) 63))
        (String (digit (N.land (N.shiftr v 12) 63))
           (String (digit (N.land (N.shiftr v 6) 63)) "="))
  | String a (String b (String c rest)) =>
      let v := N.lor (N.lor (N.shiftl (byte a) 16) (N.shiftl (byte b) 8))
                 (byte c) in
      String (digit (N.land (N.shiftr v 18) 63))
        (String (digit (N.land (N.shiftr v 12) 63))
           (String (digit (N.land (N.shiftr v 6) 63))
              (String (digit (N.land v 63)) (EncodeToString rest))))
  end.

End base64.

(** [fmt]: the two verbs the driver uses, [%s] and [%d]. *)
Module fmt.

Definition d (n : Z) : string := NilZero.string_of_int (Z.to_int n).

End fmt.

(** A Go [error]: nil or a message. *)
Definition error : Type := option string.

Definition errors_New (msg : string) : error := Some msg.

Definition isNil {A : Type} (p : option A) : bool :=
  match p with
  | None => true
  | Some _ => false
  end.

Definition string_isEmpty (s : string) : bool :=
  match s with
  | EmptyString => true
  | String _ _ => false
  end.

(** ** The SDK's data, as far as the driver reads or writes it *)

(** [state.State] of libmachine. *)
Module state.
Inductive State : Type :=
| None | Running | Paused | Saved | Stopped | Stopping | Starting
| Error | Timeout.
End state.

(** Package [core] of the SDK. *)
Module core.

(** [InstanceLifecycleStateEnum] is a string type; these are the SDK's
    constants. *)
Definition InstanceLifecycleStateEnum : Type := string.
Definition InstanceLifecycleStateProvisioning : InstanceLifecycleStateEnum := "PROVISIONING".
Definition InstanceLifecycleStateRunning : InstanceLifecycleStateEnum := "RUNNING".
Definition InstanceLifecycleStateStarting : InstanceLifecycleStateEnum := "STARTING".
Definition InstanceLifecycleStateStopping : InstanceLifecycleStateEnum := "STOPPING".
Definition InstanceLifecycleStateStopped : InstanceLifecycleStateEnum := "STOPPED".
Definition InstanceLifecycleStateCreatingImage : InstanceLifecycleStateEnum := "CREATING_IMAGE".
Definition InstanceLifecycleStateTerminating : InstanceLifecycleStateEnum := "TERMINATING".
Definition InstanceLifecycleStateTerminated : InstanceLifecycleStateEnum := "TERMINATED".

Record Instance : Type := mkInstance {
  Instance_Id : option string;
  Instance_LifecycleState : InstanceLifecycleStateEnum
}.

(** [core.Instance{}] *)
Definition Instance_zero : Instance := mkInstance None "".

Record Image : Type := mkImage {
  Image_Id : option string;
  Image_DisplayName : option string;
  (** creation time, as a number that grows with time *)
  Image_TimeCreated : Z
}.

Record Vnic : Type := mkVnic {
  Vnic_PublicIp : option string;
  Vnic_PrivateIp : option string
}.

Record VnicAttachment : Type := mkVnicAttachment {
  VnicAttachment_VnicId : option string
}.

Record GetInstanceResponse : Type := mkGetInstanceResponse {
  GetResp_Instance : Instance
}.

End core.

(** Package [common] of the SDK. *)
Module common.

(** What a retry predicate is shown: the response when it is a
    [core.GetInstanceResponse], the HTTP status and the error. *)
Record OCIOperationResponse : Type := mkOCIOperationResponse {
  Response_GetInstance : option core.GetInstanceResponse;
  Response_StatusCode : Z;
  Response_Error : error
}.

Inductive RequestMetadata : Type :=
| NoRetryPolicy
| RetryPolicy (MaximumNumberAttempts : Z)
              (ShouldRetryOperation : OCIOperationResponse -> bool)
              (NextDurationSeconds : OCIOperationResponse -> Z)
(** [helpers.GetRequestMetadataWithCustomizedRetryPolicy fn] *)
| CustomizedRetryPolicy (fn : OCIOperationResponse -> bool).

(** [NewRawConfigurationProvider]'s six arguments. *)
Record ConfigurationProvider : Type := mkConfigurationProvider {
  Config_tenancy : string;
  Config_user : string;
  Config_region : string;
  Config_fingerprint : string;
  Config_privateKey : string;
  Config_privateKeyPassphrase : string
}.

(** An SDK service client: its endpoint, whether its dispatcher is an
    [*http.Client], and the trust roots patched into its transport. *)
Record ServiceClient : Type := mkServiceClient {
  Host : string;
  HTTPClient_isHTTPClient : bool;
  Transport_RootCAs : option string
}.

Definition ServiceClient_zero : ServiceClient := mkServiceClient "" false None.

Definition set_Host (c : ServiceClient) (h : string) : ServiceClient :=
  mkServiceClient h (HTTPClient_isHTTPClient c) (Transport_RootCAs c).

Definition set_Transport (c : ServiceClient) (pem : string) : ServiceClient :=
  mkServiceClient (Host c) (HTTPClient_isHTTPClient c) (Some pem).

End common.

Module identity.

Record AvailabilityDomain : Type := mkAvailabilityDomain {
  AvailabilityDomain_Name : option string
}.

Record ListAvailabilityDomainsRequest : Type := mkListAvailabilityDomainsRequest {
  ListADs_CompartmentId : option string
}.

Record ListAvailabilityDomainsResponse : Type := mkListAvailabilityDomainsResponse {
  ListADs_Items : list AvailabilityDomain
}.

End identity.

(** Requests and responses of the compute and network services. *)
Inductive ListImagesSortBy : Type := ListImagesSortByTimecreated | ListImagesSortByDisplayname.
Inductive ListImagesSortOrder : Type := ListImagesSortOrderAsc | ListImagesSortOrderDesc.
Inductive ImageLifecycleState : Type := ImageLifecycleStateAvailable | ImageLifecycleStateOther.

Record ListImagesRequest : Type := mkListImagesRequest {
  ListImages_CompartmentId : option string;
  ListImages_SortBy : ListImagesSortBy;
  ListImages_SortOrder : ListImagesSortOrder;
  ListImages_LifecycleState : ImageLifecycleState;
  ListImages_RequestMetadata : common.RequestMetadata;
  ListImages_Page : option string
}.

Record ListImagesResponse : Type := mkListImagesResponse {
  ListImages_Items : list core.Image;
  ListImages_OpcNextPage : option string
}.

Record CreateVnicDetails : Type := mkCreateVnicDetails {
  CreateVnic_SubnetId : option string;
  CreateVnic_AssignPublicIp : option bool
}.

Record InstanceSourceViaImageDetails : Type := mkInstanceSourceViaImageDetails {
  Source_ImageId : option string;
  Source_BootVolumeSizeInGBs : option Z
}.

Record LaunchInstanceAgentConfigDetails : Type := mkLaunchInstanceAgentConfigDetails {
  Agent_IsMonitoringDisabled : option bool
}.

Record LaunchInstanceDetails : Type := mkLaunchInstanceDetails {
  Launch_AvailabilityDomain : option string;
  Launch_CompartmentId : option string;
  Launch_Shape : option string;
  Launch_CreateVnicDetails : option CreateVnicDetails;
  Launch_FaultDomain : option string;
  Launch_DisplayName : option string;
  (** a Go map literal with two distinct keys *)
  Launch_Metadata : list (string * string);
  Launch_SourceDetails : option InstanceSourceViaImageDetails;
  Launch_AgentConfig : option LaunchInstanceAgentConfigDetails
}.

Record LaunchInstanceRequest : Type := mkLaunchInstanceRequest {
  LaunchInstanceDetails_ : LaunchInstanceDetails
}.

(** [core.LaunchInstanceRequest{}], the zero value. *)
Definition LaunchInstanceRequest_zero : LaunchInstanceRequest :=
  mkLaunchInstanceRequest
    (mkLaunchInstanceDetails None None None None None None [] None None).

Record LaunchInstanceResponse : Type := mkLaunchInstanceResponse {
  LaunchResp_Instance : core.Instance
}.

Record GetInstanceRequest : Type := mkGetInstanceRequest {
  GetInstance_InstanceId : option string;
  GetInstance_RequestMetadata : common.RequestMetadata
}.

Inductive InstanceActionAction : Type :=
| InstanceActionActionStop
| InstanceActionActionStart.

Record InstanceActionRequest : Type := mkInstanceActionRequest {
  Action_InstanceId : option string;
  Action_Action : InstanceActionAction
}.

Record InstanceActionResponse : Type := mkInstanceActionResponse {
  ActionResp_Instance : core.Instance
}.

Record ListVnicAttachmentsRequest : Type := mkListVnicAttachmentsRequest {
  ListVnics_InstanceId : option string;
  ListVnics_CompartmentId : option string
}.

Record GetVnicRequest : Type := mkGetVnicRequest {
  GetVnic_VnicId : option string
}.

(** Client defines / contains the OCI/Identity clients and operations. *)
Record Client : Type := mkClient {
  configuration : common.ConfigurationProvider;
  computeClient : common.ServiceClient;
  virtualNetworkClient : common.ServiceClient;
  identityClient : common.ServiceClient;
  sleepDuration : Z
}.

(** [Client{}] *)
Definition Client_zero : Client :=
  mkClient (common.mkConfigurationProvider "" "" "" "" "" "")
    common.ServiceClient_zero common.ServiceClient_zero common.ServiceClient_zero 0.

(** ** The driver's data *)

Definition defaultNodeNamePfx : string := "oci-node-driver-".
Definition defaultSSHPort : Z := 22.
Definition defaultSSHUser : string := "opc".
Definition defaultImage : string := "Oracle-Linux-7.7".
Definition defaultDockerPort : Z := 2376.
Definition sshBitLen : Z := 4096.

(** [drivers.BaseDriver] of libmachine, embedded in [Driver]. *)
Record BaseDriver : Type := mkBaseDriver {
  IPAddress : string;
  MachineName : string;
  SSHUser : string;
  SSHPort : Z;
  SSHKeyPath : string;
  StorePath : string
}.

(** Driver is the implementation of BaseDriver interface *)
Record Driver : Type := mkDriver {
  BaseDriver_ : BaseDriver;
  AvailabilityDomain : string;
  DockerPort : Z;
  Fingerprint : string;
  Image : string;
  NodeCompartmentID : string;
  PrivateKeyContents : string;
  PrivateKeyPassphrase : string;
  PrivateKeyPath : string;
  Region : string;
  Shape : string;
  SubnetID : string;
  TenancyID : string;
  UserID : string;
  VCNCompartmentID : string;
  VCNID : string;
  IsRover : bool;
  RoverComputeEndpoint : string;
  RoverNetworkEndpoint : string;
  RoverCertPath : string;
  RoverCertContent : string;
  InstanceID : string
}.

(** Field assignments [b.F = v] and [d.F = v]. *)
Definition BaseDriver_set_IPAddress (b : BaseDriver) (v : string) : BaseDriver :=
  mkBaseDriver v (MachineName b) (SSHUser b) (SSHPort b) (SSHKeyPath b)
    (StorePath b).

Definition BaseDriver_set_SSHUser (b : BaseDriver) (v : string) : BaseDriver :=
  mkBaseDriver (IPAddress b) (MachineName b) v (SSHPort b) (SSHKeyPath b)
    (StorePath b).

Definition BaseDriver_set_SSHPort (b : BaseDriver) (v : Z) : BaseDriver :=
  mkBaseDriver (IPAddress b) (MachineName b) (SSHUser b) v (SSHKeyPath b)
    (StorePath b).

Definition set_BaseDriver (d : Driver) (v : BaseDriver) : Driver :=
  mkDriver v (AvailabilityDomain d) (DockerPort d) (Fingerprint d) (Image d)
    (NodeCompartmentID d) (PrivateKeyContents d) (PrivateKeyPassphrase d)
    (PrivateKeyPath d) (Region d) (Shape d) (SubnetID d) (TenancyID d)
    (UserID d) (VCNCompartmentID d) (VCNID d) (IsRover d)
    (RoverComputeEndpoint d) (RoverNetworkEndpoint d) (RoverCertPath d)
    (RoverCertContent d) (InstanceID d).

Definition set_AvailabilityDomain (d : Driver) (v : string) : Driver :=
  mkDriver (BaseDriver_ d) v (DockerPort d) (Fingerprint d) (Image d)
    (NodeCompartmentID d) (PrivateKeyContents d) (PrivateKeyPassphrase d)
    (PrivateKeyPath d) (Region d) (Shape d) (SubnetID d) (TenancyID d)
    (UserID d) (VCNCompartmentID d) (VCNID d) (IsRover d)
    (RoverComputeEndpoint d) (RoverNetworkEndpoint d) (RoverCertPath d)
    (RoverCertContent d) (InstanceID d).

Definition set_DockerPort (d : Driver) (v : Z) : Driver :=
  mkDriver (BaseDriver_ d) (AvailabilityDomain d) v (Fingerprint d) (Image d)
    (NodeCompartmentID d) (PrivateKeyContents d) (PrivateKeyPassphrase d)
    (PrivateKeyPath d) (Region d) (Shape d) (SubnetID d) (TenancyID d)
    (UserID d) (VCNCompartmentID d) (VCNID d) (IsRover d)
    (RoverComputeEndpoint d) (RoverNetworkEndpoint d) (RoverCertPath d)
    (RoverCertContent d) (InstanceID d).

Definition set_Fingerprint (d : Driver) (v : string) : Driver :=
  mkDriver (BaseDriver_ d) (AvailabilityDomain d) (DockerPort d) v (Image d)
    (NodeCompartmentID d) (PrivateKeyContents d) (PrivateKeyPassphrase d)
    (PrivateKeyPath d) (Region d) (Shape d) (SubnetID d) (TenancyID d)
    (UserID d) (VCNCompartmentID d) (VCNID d) (IsRover d)
    (RoverComputeEndpoint d) (RoverNetworkEndpoint d) (RoverCertPath d)
    (RoverCertContent d) (InstanceID d).

Definition set_Image (d : Driver) (v : string) : Driver :=
  mkDriver (BaseDriver_ d) (AvailabilityDomain d) (DockerPort d)
    (Fingerprint d) v (NodeCompartmentID d) (PrivateKeyContents d)
    (PrivateKeyPassphrase d) (PrivateKeyPath d) (Region d) (Shape d)
    (SubnetID d) (TenancyID d) (UserID d) (VCNCompartmentID d) (VCNID d)
    (IsRover d) (RoverComputeEndpoint d) (RoverNetworkEndpoint d)
    (RoverCertPath d) (RoverCertContent d) (InstanceID d).

Definition set_NodeCompartmentID (d : Driver) (v : string) : Driver :=
  mkDriver (BaseDriver_ d) (AvailabilityDomain d) (DockerPort d)
    (Fingerprint d) (Image d) v (PrivateKeyContents d)
    (PrivateKeyPassphrase d) (PrivateKeyPath d) (Region d) (Shape d)
    (SubnetID d) (TenancyID d) (UserID d) (VCNCompartmentID d) (VCNID d)
    (IsRover d) (RoverComputeEndpoint d) (RoverNetworkEndpoint d)
    (RoverCertPath d) (RoverCertContent d) (InstanceID d).

Definition set_PrivateKeyContents (d : Driver) (v : string) : Driver :=
  mkDriver (BaseDriver_ d) (AvailabilityDomain d) (DockerPort d)
    (Fingerprint d) (Image d) (NodeCompartmentID d) v
    (PrivateKeyPassphrase d) (PrivateKeyPath d) (Region d) (Shape d)
    (SubnetID d) (TenancyID d) (UserID d) (VCNCompartmentID d) (VCNID d)
    (IsRover d) (RoverComputeEndpoint d) (RoverNetworkEndpoint d)
    (RoverCertPath d) (RoverCertContent d) (InstanceID d).

Definition set_PrivateKeyPath (d : Driver) (v : string) : Driver :=
  mkDriver (BaseDriver_ d) (AvailabilityDomain d) (DockerPort d)
    (Fingerprint d) (Image d) (NodeCompartmentID d) (PrivateKeyContents d)
    (PrivateKeyPassphrase d) v (Region d) (Shape d) (SubnetID d)
    (TenancyID d) (UserID d) (VCNCompartmentID d) (VCNID d) (IsRover d)
    (RoverComputeEndpoint d) (RoverNetworkEndpoint d) (RoverCertPath d)
    (RoverCertContent d) (InstanceID d).

Definition set_Region (d : Driver) (v : string) : Driver :=
  mkDriver (BaseDriver_ d) (AvailabilityDomain d) (DockerPort d)
    (Fingerprint d) (Image d) (NodeCompartmentID d) (PrivateKeyContents d)
    (PrivateKeyPassphrase d) (PrivateKeyPath d) v (Shape d) (SubnetID d)
    (TenancyID d) (UserID d) (VCNCompartmentID d) (VCNID d) (IsRover d)
    (RoverComputeEndpoint d) (RoverNetworkEndpoint d) (RoverCertPath d)
    (RoverCertContent d) (InstanceID d).

Definition set_Shape (d : Driver) (v : string) : Driver :=
  mkDriver (BaseDriver_ d) (AvailabilityDomain d) (DockerPort d)
    (Fingerprint d) (Image d) (NodeCompartmentID d) (PrivateKeyContents d)
    (PrivateKeyPassphrase d) (PrivateKeyPath d) (Region d) v (SubnetID d)
    (TenancyID d) (UserID d) (VCNCompartmentID d) (VCNID d) (IsRover d)
    (RoverComputeEndpoint d) (RoverNetworkEndpoint d) (RoverCertPath d)
    (RoverCertContent d) (InstanceID d).

Definition set_SubnetID (d : Driver) (v : string) : Driver :=
  mkDriver (BaseDriver_ d) (AvailabilityDomain d) (DockerPort d)
    (Fingerprint d) (Image d) (NodeCompartmentID d) (PrivateKeyContents d)
    (PrivateKeyPassphrase d) (PrivateKeyPath d) (Region d) (Shape d) v
    (TenancyID d) (UserID d) (VCNCompartmentID d) (VCNID d) (IsRover d)
    (RoverComputeEndpoint d) (RoverNetworkEndpoint d) (RoverCertPath d)
    (RoverCertContent d) (InstanceID d).

Definition set_TenancyID (d : Driver) (v : string) : Driver :=
  mkDriver (BaseDriver_ d) (AvailabilityDomain d) (DockerPort d)
    (Fingerprint d) (Image d) (NodeCompartmentID d) (PrivateKeyContents d)
    (PrivateKeyPassphrase d) (PrivateKeyPath d) (Region d) (Shape d)
    (SubnetID d) v (UserID d) (VCNCompartmentID d) (VCNID d) (IsRover d)
    (RoverComputeEndpoint d) (RoverNetworkEndpoint d) (RoverCertPath d)
    (RoverCertContent d) (InstanceID d).

Definition set_UserID (d : Driver) (v : string) : Driver :=
  mkDriver (BaseDriver_ d) (AvailabilityDomain d) (DockerPort d)
    (Fingerprint d) (Image d) (NodeCompartmentID d) (PrivateKeyContents d)
    (PrivateKeyPassphrase d) (PrivateKeyPath d) (Region d) (Shape d)
    (SubnetID d) (TenancyID d) v (VCNCompartmentID d) (VCNID d) (IsRover d)
    (RoverComputeEndpoint d) (RoverNetworkEndpoint d) (RoverCertPath d)
    (RoverCertContent d) (InstanceID d).

Definition set_VCNCompartmentID (d : Driver) (v : string) : Driver :=
  mkDriver (BaseDriver_ d) (AvailabilityDomain d) (DockerPort d)
    (Fingerprint d) (Image d) (NodeCompartmentID d) (PrivateKeyContents d)
    (PrivateKeyPassphrase d) (PrivateKeyPath d) (Region d) (Shape d)
    (SubnetID d) (TenancyID d) (UserID d) v (VCNID d) (IsRover d)
    (RoverComputeEndpoint d) (RoverNetworkEndpoint d) (RoverCertPath d)
    (RoverCertContent d) (InstanceID d).

Definition set_VCNID (d : Driver) (v : string) : Driver :=
  mkDriver (BaseDriver_ d) (AvailabilityDomain d) (DockerPort d)
    (Fingerprint d) (Image d) (NodeCompartmentID d) (PrivateKeyContents d)
    (PrivateKeyPassphrase d) (PrivateKeyPath d) (Region d) (Shape d)
    (SubnetID d) (TenancyID d) (UserID d) (VCNCompartmentID d) v (IsRover d)
    (RoverComputeEndpoint d) (RoverNetworkEndpoint d) (RoverCertPath d)
    (RoverCertContent d) (InstanceID d).

Definition set_IsRover (d : Driver) (v : bool) : Driver :=
  mkDriver (BaseDriver_ d) (AvailabilityDomain d) (DockerPort d)
    (Fingerprint d) (Image d) (NodeCompartmentID d) (PrivateKeyContents d)
    (PrivateKeyPassphrase d) (PrivateKeyPath d) (Region d) (Shape d)
    (SubnetID d) (TenancyID d) (UserID d) (VCNCompartmentID d) (VCNID d) v
    (RoverComputeEndpoint d) (RoverNetworkEndpoint d) (RoverCertPath d)
    (RoverCertContent d) (InstanceID d).

Definition set_RoverComputeEndpoint (d : Driver) (v : string) : Driver :=
  mkDriver (BaseDriver_ d) (AvailabilityDomain d) (DockerPort d)
    (Fingerprint d) (Image d) (NodeCompartmentID d) (PrivateKeyContents d)
    (PrivateKeyPassphrase d) (PrivateKeyPath d) (Region d) (Shape d)
    (SubnetID d) (TenancyID d) (UserID d) (VCNCompartmentID d) (VCNID d)
    (IsRover d) v (RoverNetworkEndpoint d) (RoverCertPath d)
    (RoverCertContent d) (InstanceID d).

Definition set_RoverNetworkEndpoint (d : Driver) (v : string) : Driver :=
  mkDriver (BaseDriver_ d) (AvailabilityDomain d) (DockerPort d)
    (Fingerprint d) (Image d) (NodeCompartmentID d) (PrivateKeyContents d)
    (PrivateKeyPassphrase d) (PrivateKeyPath d) (Region d) (Shape d)
    (SubnetID d) (TenancyID d) (UserID d) (VCNCompartmentID d) (VCNID d)
    (IsRover d) (RoverComputeEndpoint d) v (RoverCertPath d)
    (RoverCertContent d) (InstanceID d).

Definition set_RoverCertPath (d : Driver) (v : string) : Driver :=
  mkDriver (BaseDriver_ d) (AvailabilityDomain d) (DockerPort d)
    (Fingerprint d) (Image d) (NodeCompartmentID d) (PrivateKeyContents d)
    (PrivateKeyPassphrase d) (PrivateKeyPath d) (Region d) (Shape d)
    (SubnetID d) (TenancyID d) (UserID d) (VCNCompartmentID d) (VCNID d)
    (IsRover d) (RoverComputeEndpoint d) (RoverNetworkEndpoint d) v
    (RoverCertContent d) (InstanceID d).

Definition set_RoverCertContent (d : Driver) (v : string) : Driver :=
  mkDriver (BaseDriver_ d) (AvailabilityDomain d) (DockerPort d)
    (Fingerprint d) (Image d) (NodeCompartmentID d) (PrivateKeyContents d)
    (PrivateKeyPassphrase d) (PrivateKeyPath d) (Region d) (Shape d)
    (SubnetID d) (TenancyID d) (UserID d) (VCNCompartmentID d) (VCNID d)
    (IsRover d) (RoverComputeEndpoint d) (RoverNetworkEndpoint d)
    (RoverCertPath d) v (InstanceID d).

Definition set_InstanceID (d : Driver) (v : string) : Driver :=
  mkDriver (BaseDriver_ d) (AvailabilityDomain d) (DockerPort d)
    (Fingerprint d) (Image d) (NodeCompartmentID d) (PrivateKeyContents d)
    (PrivateKeyPassphrase d) (PrivateKeyPath d) (Region d) (Shape d)
    (SubnetID d) (TenancyID d) (UserID d) (VCNCompartmentID d) (VCNID d)
    (IsRover d) (RoverComputeEndpoint d) (RoverNetworkEndpoint d)
    (RoverCertPath d) (RoverCertContent d) v.

(** Fields promoted from the embedded [BaseDriver]. *)
Definition IPAddress_of (d : Driver) : string := IPAddress (BaseDriver_ d).
Definition MachineName_of (d : Driver) : string := MachineName (BaseDriver_ d).

Definition set_IPAddress (d : Driver) (v : string) : Driver :=
  set_BaseDriver d (BaseDriver_set_IPAddress (BaseDriver_ d) v).

Definition set_SSHUser (d : Driver) (v : string) : Driver :=
  set_BaseDriver d (BaseDriver_set_SSHUser (BaseDriver_ d) v).

Definition set_SSHPort (d : Driver) (v : Z) : Driver :=
  set_BaseDriver d (BaseDriver_set_SSHPort (BaseDriver_ d) v).

(** [drivers.DriverOptions]: the parsed flags. *)
Record DriverOptions : Type := mkDriverOptions {
  flags_String : string -> string;
  flags_Int : string -> Z;
  flags_Bool : string -> bool
}.

(** The calls that reach the environment, in the order they are made. *)
Inductive Call : Type :=
| CallReadFile (path : string)
| CallLaunchInstance (r : LaunchInstanceRequest)
| CallGetInstance (r : GetInstanceRequest)
| CallInstanceAction (r : InstanceActionRequest)
| CallListImages (r : ListImagesRequest)
| CallListAvailabilityDomains (r : identity.ListAvailabilityDomainsRequest)
| CallListVnicAttachments (r : ListVnicAttachmentsRequest)
| CallGetVnic (r : GetVnicRequest).

(** The environment: SDK constructors, the service operations (each
    takes the service client it is invoked on and may change the world)
    and [ioutil.ReadFile]. *)
Record Cloud (W : Type) : Type := mkCloud {
  NewComputeClientWithConfigurationProvider :
    common.ConfigurationProvider -> common.ServiceClient * error;
  NewVirtualNetworkClientWithConfigurationProvider :
    common.ConfigurationProvider -> common.ServiceClient * error;
  NewIdentityClientWithConfigurationProvider :
    common.ConfigurationProvider -> common.ServiceClient * error;
  ReadFile : string -> W -> (string * error) * W;
  LaunchInstance :
    common.ServiceClient -> LaunchInstanceRequest -> W -> (LaunchInstanceResponse * error) * W;
  GetInstance_op :
    common.ServiceClient -> GetInstanceRequest -> W -> (core.GetInstanceResponse * error) * W;
  InstanceAction :
    common.ServiceClient -> InstanceActionRequest -> W -> (InstanceActionResponse * error) * W;
  ListImages :
    common.ServiceClient -> ListImagesRequest -> W -> (ListImagesResponse * error) * W;
  ListAvailabilityDomains :
    common.ServiceClient -> identity.ListAvailabilityDomainsRequest -> W ->
    (identity.ListAvailabilityDomainsResponse * error) * W;
  ListVnicAttachments :
    common.ServiceClient -> ListVnicAttachmentsRequest -> W -> (list core.VnicAttachment * error) * W;
  GetVnic :
    common.ServiceClient -> GetVnicRequest -> W -> (core.Vnic * error) * W
}.

Arguments NewComputeClientWithConfigurationProvider {W}.
Arguments NewVirtualNetworkClientWithConfigurationProvider {W}.
Arguments NewIdentityClientWithConfigurationProvider {W}.
Arguments ReadFile {W}.
Arguments LaunchInstance {W}.
Arguments GetInstance_op {W}.
Arguments InstanceAction {W}.
Arguments ListImages {W}.
Arguments ListAvailabilityDomains {W}.
Arguments ListVnicAttachments {W}.
Arguments GetVnic {W}.

(** ** The monad of client code: world and call log, panics, fuel *)

Record St (W : Type) : Type := mkSt {
  world : W;
  calls : list Call
}.
Arguments mkSt {W}.
Arguments world {W}.
Arguments calls {W}.

Inductive outcome (W A : Type) : Type :=
| Done (a : A) (s : St W)
| Panicked (msg : string) (s : St W)
| OutOfFuel.
Arguments Done {W A}.
Arguments Panicked {W A}.
Arguments OutOfFuel {W A}.

Definition M (W A : Type) : Type := St W -> outcome W A.

Definition ret {W A : Type} (a : A) : M W A := fun s => Done a s.

Definition bind {W A B : Type} (m : M W A) (k : A -> M W B) : M W B :=
  fun s =>
    match m s with
    | Done a s' => k a s'
    | Panicked msg s' => Panicked msg s'
    | OutOfFuel => OutOfFuel
    end.

Definition panic {W A : Type} (msg : string) : M W A := fun s => Panicked msg s.

Definition outOfFuel {W A : Type} : M W A := fun _ => OutOfFuel.

(** One call to the environment: run it on the world and log it. *)
Definition call {W A : Type} (what : Call) (op : W -> A * W) : M W A :=
  fun s =>
    let (a, w') := op (world s) in
    Done a (mkSt w' (calls s ++ [what])).

(** [*p] for a pointer [p]. *)
Definition deref {W A : Type} (p : option A) : M W A :=
  match p with
  | Some a => ret a
  | None => panic "invalid memory address or nil pointer dereference"
  end.

Declare Scope go_scope.
Delimit Scope go_scope with go.
Notation "x <- m ;; k" := (bind m (fun x => k))
  (at level 61, m at next level, right associativity) : go_scope.
Notation "' pat <- m ;; k" := (bind m (fun x => match x with pat => k end))
  (at level 61, pat pattern, m at next level, right associativity) : go_scope.
Local Open Scope go_scope.

(** ** The client *)

Definition dquote : string := String (ascii_of_nat 34) EmptyString.
Definition newline : string := String (ascii_of_nat 10) EmptyString.

(** Create the cloud init script *)
Definition createCloudInitScript : string :=
  let cloudInit := [
    "#!/bin/sh";
    "#echo " ++ dquote ++ "Disabling OS firewall..." ++ dquote;
    "sudo /usr/sbin/ethtool --offload $(/usr/sbin/ip -o -4 route show to default | awk '{print $5}') tx off";
    "sudo iptables -F";
    "";
    "# Update to sellinux that fixes write permission error";
    "sudo yum install -y http://mirror.centos.org/centos/7/extras/x86_64/Packages/container-selinux-2.99-1.el7_6.noarch.rpm";
    "#sudo sed -i  s/SELINUX=enforcing/SELINUX=permissive/ /etc/selinux/config";
    "sudo setenforce 0";
    "sudo systemctl stop firewalld.service";
    "sudo systemctl disable firewalld.service";
    "";
    "echo " ++ dquote ++ "Installing Docker..." ++ dquote;
    "curl https://releases.rancher.com/install-docker/18.09.9.sh | sh";
    "sudo usermod -aG docker opc";
    "sudo systemctl enable docker";
    "";
    "# Elasticsearch requirement";
    "sudo sysctl -w vm.max_map_count=262144"
  ] in
  strings.Join cloudInit newline.

(** The retry predicates handed to the SDK. *)
Definition pollUntilRunning (r : common.OCIOperationResponse) : bool :=
  match common.Response_GetInstance r with
  | Some converted =>
      negb (String.eqb (core.Instance_LifecycleState (core.GetResp_Instance converted))
              core.InstanceLifecycleStateRunning)
  | None => true
  end.

Definition pollUntilStopped (r : common.OCIOperationResponse) : bool :=
  match common.Response_GetInstance r with
  | Some converted =>
      negb (String.eqb (core.Instance_LifecycleState (core.GetResp_Instance converted))
              core.InstanceLifecycleStateStopped)
  | None => true
  end.

(** The request [getImageID] issues for the page [page]. *)
Definition listImagesRequest (compartmentID : string) (page : option string)
  : ListImagesRequest :=
  mkListImagesRequest (Some compartmentID)
    ListImagesSortByTimecreated ListImagesSortOrderDesc
    ImageLifecycleStateAvailable
    (common.RetryPolicy 3
       (fun r => negb (isNil (common.Response_Error r)
                       && (Z.quot (common.Response_StatusCode r) 100 =? 2))%bool)
       (fun _ => 3))
    page.

Section ClientOps.

Context {W : Type} (cloud : Cloud W).

(** The inner loop of [getImageID]: the first item of the page whose
    display name folds to the requested name. *)
Fixpoint getImageID_items (items : list core.Image) (nodeImageName : string)
  : M W (option (option string)) :=
  match items with
  | [] => ret None
  | image :: rest =>
      name <- deref (core.Image_DisplayName image);;
      if strings.EqualFold name nodeImageName
      then ret (Some (core.Image_Id image))
      else getImageID_items rest nodeImageName
  end.

(** The outer loop of [getImageID], one page per iteration. *)
Fixpoint getImageID_pages (fuel : nat) (c : Client)
    (compartmentID nodeImageName : string) (page : option string)
  : M W (option string * error) :=
  match fuel with
  | O => outOfFuel
  | S fuel' =>
      let request := listImagesRequest compartmentID page in
      '(r, err) <- call (CallListImages request)
                        (ListImages cloud (computeClient c) request);;
      match err with
      | Some _ => ret (None, err)
      | None =>
          found <- getImageID_items (ListImages_Items r) nodeImageName;;
          match found with
          | Some id => ret (id, None)
          | None =>
              match ListImages_OpcNextPage r with
              | None =>
                  ret (None,
                       Some ("could not retrieve image id for an image named "
                             ++ nodeImageName))
              | Some next =>
                  getImageID_pages fuel' c compartmentID nodeImageName (Some next)
              end
          end
      end
  end.

(** getImageID gets the most recent ImageId for the node image name *)
Definition getImageID (fuel : nat) (c : Client)
    (compartmentID nodeImageName : string) : M W (option string * error) :=
  if (string_isEmpty nodeImageName || string_isEmpty compartmentID)%bool
  then ret (None,
            errors_New "cannot retrieve image ID without a compartment and image name")
  else getImageID_pages fuel c compartmentID nodeImageName None.

(** The loop of [createReqForOCi] over [ads.Items]; the variable
    [availabilityDomain] is both tested and assigned in it. *)
Fixpoint resolveAvailabilityDomain (items : list identity.AvailabilityDomain)
    (availabilityDomain : string) : M W string :=
  match items with
  | [] => ret availabilityDomain
  | ad :: rest =>
      name <- deref (identity.AvailabilityDomain_Name ad);;
      if strings.Contains name (strings.ToUpper availabilityDomain)
      then resolveAvailabilityDomain rest name
      else resolveAvailabilityDomain rest availabilityDomain
  end.

Definition createReqForOCi (fuel : nat) (c : Client)
    (displayName availabilityDomain compartmentID nodeShape nodeImageName
       nodeSubnetID authorizedKeys : string)
  : M W (error * LaunchInstanceRequest) :=
  let req := identity.mkListAvailabilityDomainsRequest (Some compartmentID) in
  '(ads, err) <- call (CallListAvailabilityDomains req)
                      (ListAvailabilityDomains cloud (identityClient c) req);;
  match err with
  | Some _ => ret (None, LaunchInstanceRequest_zero)
  | None =>
      availabilityDomain <-
        resolveAvailabilityDomain (identity.ListADs_Items ads) availabilityDomain;;
      '(imageID, err) <- getImageID fuel c compartmentID nodeImageName;;
      match err with
      | Some _ => ret (None, LaunchInstanceRequest_zero)
      | None =>
          let request := mkLaunchInstanceRequest
            (mkLaunchInstanceDetails
               (Some availabilityDomain)
               (Some compartmentID)
               (Some nodeShape)
               (Some (mkCreateVnicDetails (Some nodeSubnetID) None))
               None
               (Some displayName)
               [("ssh_authorized_keys", authorizedKeys);
                ("user_data", base64.EncodeToString createCloudInitScript)]
               (Some (mkInstanceSourceViaImageDetails imageID None))
               None) in
          ret (err, request)
      end
  end.

Definition createReqForRover (fuel : nat) (c : Client)
    (displayName availabilityDomain compartmentID nodeShape nodeImageName
       nodeSubnetID authorizedKeys : string)
  : M W (error * LaunchInstanceRequest) :=
  '(imageID, err) <- getImageID fuel c compartmentID nodeImageName;;
  match err with
  | Some _ => ret (None, LaunchInstanceRequest_zero)
  | None =>
      let request := mkLaunchInstanceRequest
        (mkLaunchInstanceDetails
           (Some "OREI-1-AD-1")
           (Some compartmentID)
           (Some nodeShape)
           (Some (mkCreateVnicDetails (Some nodeSubnetID) (Some true)))
           (Some "FAULT-DOMAIN-1")
           (Some displayName)
           [("ssh_authorized_keys", authorizedKeys);
            ("user_data", base64.EncodeToString createCloudInitScript)]
           (Some (mkInstanceSourceViaImageDetails imageID (Some 50)))
           (Some (mkLaunchInstanceAgentConfigDetails (Some true)))) in
      ret (err, request)
  end.

(** CreateInstance creates a new compute instance. *)
Definition CreateInstance (fuel : nat) (c : Client) (d : Driver)
    (authorizedKeys : string) : M W (string * error) :=
  let displayName := defaultNodeNamePfx ++ MachineName_of d in
  let availabilityDomain := AvailabilityDomain d in
  let compartmentID := NodeCompartmentID d in
  let nodeShape := Shape d in
  let nodeImageName := Image d in
  let nodeSubnetID := SubnetID d in
  '(err, request) <-
    (if IsRover d
     then createReqForRover fuel c displayName availabilityDomain compartmentID
            nodeShape nodeImageName nodeSubnetID authorizedKeys
     else createReqForOCi fuel c displayName availabilityDomain compartmentID
            nodeShape nodeImageName nodeSubnetID authorizedKeys);;
  match err with
  | Some _ => ret ("", err)
  | None =>
      '(createResp, err) <- call (CallLaunchInstance request)
                                 (LaunchInstance cloud (computeClient c) request);;
      match err with
      | Some _ => ret ("", err)
      | None =>
          (* wait until lifecycle status is Running *)
          let pollingGetRequest := mkGetInstanceRequest
            (core.Instance_Id (LaunchResp_Instance createResp))
            (common.CustomizedRetryPolicy pollUntilRunning) in
          '(instance, pollError) <-
            call (CallGetInstance pollingGetRequest)
                 (GetInstance_op cloud (computeClient c) pollingGetRequest);;
          match pollError with
          | Some _ => ret ("", err)
          | None =>
              id <- deref (core.Instance_Id (core.GetResp_Instance instance));;
              ret (id, None)
          end
      end
  end.

(** GetInstance gets a compute instance by id. *)
Definition GetInstance (c : Client) (id : string) : M W (core.Instance * error) :=
  let req := mkGetInstanceRequest (Some id) common.NoRetryPolicy in
  '(instanceResp, err) <- call (CallGetInstance req)
                               (GetInstance_op cloud (computeClient c) req);;
  match err with
  | Some _ => ret (core.Instance_zero, err)
  | None => ret (core.GetResp_Instance instanceResp, err)
  end.

(** StopInstance stops a compute instance by id and waits for it to
    reach the Stopped state. *)
Definition StopInstance (c : Client) (id : string) : M W error :=
  let actionRequest := mkInstanceActionRequest (Some id) InstanceActionActionStop in
  '(stopResp, err) <- call (CallInstanceAction actionRequest)
                           (InstanceAction cloud (computeClient c) actionRequest);;
  match err with
  | Some _ => ret err
  | None =>
      let pollingGetRequest := mkGetInstanceRequest
        (core.Instance_Id (ActionResp_Instance stopResp))
        (common.CustomizedRetryPolicy pollUntilStopped) in
      '(_, err) <- call (CallGetInstance pollingGetRequest)
                        (GetInstance_op cloud (computeClient c) pollingGetRequest);;
      ret err
  end.

(** StartInstance starts a compute instance by id and waits for it to
    reach the Running state. *)
Definition StartInstance (c : Client) (id : string) : M W error :=
  let actionRequest := mkInstanceActionRequest (Some id) InstanceActionActionStart in
  '(startResp, err) <- call (CallInstanceAction actionRequest)
                            (InstanceAction cloud (computeClient c) actionRequest);;
  match err with
  | Some _ => ret err
  | None =>
      let pollingGetRequest := mkGetInstanceRequest
        (core.Instance_Id (ActionResp_Instance startResp))
        (common.CustomizedRetryPolicy pollUntilRunning) in
      '(_, err) <- call (CallGetInstance pollingGetRequest)
                        (GetInstance_op cloud (computeClient c) pollingGetRequest);;
      ret err
  end.

(** RestartInstance stops and starts a compute instance by id and waits
    for it to be running again *)
Definition RestartInstance (c : Client) (id : string) : M W error :=
  err <- StopInstance c id;;
  match err with
  | Some _ => ret err
  | None => StartInstance c id
  end.

(** GetInstanceIP returns the public IP (or private IP if that is what
    it has). *)
Definition GetInstanceIP (c : Client) (id compartmentID : string)
  : M W (string * error) :=
  let req := mkListVnicAttachmentsRequest (Some id) (Some compartmentID) in
  '(vnics, err) <- call (CallListVnicAttachments req)
                        (ListVnicAttachments cloud (computeClient c) req);;
  match err with
  | Some _ => ret ("", err)
  | None =>
      match vnics with
      | [] => ret ("", errors_New "instance does not have any configured VNICs")
      | first :: _ =>
          let vreq := mkGetVnicRequest (core.VnicAttachment_VnicId first) in
          '(vnic, err) <- call (CallGetVnic vreq)
                               (GetVnic cloud (virtualNetworkClient c) vreq);;
          match err with
          | Some _ => ret ("", err)
          | None =>
              match core.Vnic_PublicIp vnic with
              | None =>
                  ip <- deref (core.Vnic_PrivateIp vnic);;
                  ret (ip, None)
              | Some ip => ret (ip, None)
              end
          end
      end
  end.

End ClientOps.

(** ** The driver *)

Section DriverOps.

Context {W : Type} (cloud : Cloud W).

Definition newClient (configuration : common.ConfigurationProvider) (d : Driver)
  : M W (option Client * error) :=
  let '(computeClient, err) :=
    NewComputeClientWithConfigurationProvider cloud configuration in
  match err with
  | Some _ => ret (None, err)
  | None =>
      let '(vNetClient, err) :=
        NewVirtualNetworkClientWithConfigurationProvider cloud configuration in
      match err with
      | Some _ => ret (None, err)
      | None =>
          '(computeClient, vNetClient) <-
            (if IsRover d then
               let computeClient :=
                 common.set_Host computeClient (RoverComputeEndpoint d) in
               let vNetClient :=
                 common.set_Host vNetClient (RoverNetworkEndpoint d) in
               '(pem, err) <- call (CallReadFile (RoverCertPath d))
                                   (ReadFile cloud (RoverCertPath d));;
               match err with
               | Some msg => panic ("can not read cert " ++ msg)
               | None =>
                   if common.HTTPClient_isHTTPClient computeClient then
                     let computeClient := common.set_Transport computeClient pem in
                     if common.HTTPClient_isHTTPClient vNetClient then
                       ret (computeClient, common.set_Transport vNetClient pem)
                     else
                       panic "the client dispatcher is not of http.Client type. can not patch the tls config"
                   else
                     panic "the client dispatcher is not of http.Client type. can not patch the tls config"
               end
             else ret (computeClient, vNetClient));;
          let '(identityClient, err) :=
            NewIdentityClientWithConfigurationProvider cloud configuration in
          match err with
          | Some _ => ret (None, err)
          | None =>
              ret (Some (mkClient configuration computeClient vNetClient
                           identityClient 5),
                   None)
          end
      end
  end.

(** initOCIClient is a helper function that constructs a new
    oci.Client based on config values. *)
Definition initOCIClient (d : Driver) : M W (Client * error) :=
  let configurationProvider :=
    common.mkConfigurationProvider (TenancyID d) (UserID d) (Region d)
      (Fingerprint d) (PrivateKeyContents d) (PrivateKeyPassphrase d) in
  '(ociClient, err) <- newClient configurationProvider d;;
  match err with
  | Some _ => ret (Client_zero, err)
  | None =>
      c <- deref ociClient;;
      ret (c, None)
  end.

(** GetIP returns an IP or hostname that this host is available at.
    The driver is behind a pointer: the updated driver is returned
    with the result. *)
Definition GetIP (d : Driver) : M W (Driver * (string * error)) :=
  if string_isEmpty (IPAddress_of d) then
    '(oci, err) <- initOCIClient d;;
    match err with
    | Some _ => ret (d, ("", err))
    | None =>
        '(ip, err) <- GetInstanceIP cloud oci (InstanceID d) (NodeCompartmentID d);;
        match err with
        | Some _ => ret (d, ("", err))
        | None =>
            let d := set_IPAddress d ip in
            ret (d, (IPAddress_of d, None))
        end
    end
  else ret (d, (IPAddress_of d, None)).

(** GetSSHPort returns port for use with ssh *)
Definition GetSSHPort (d : Driver) : Z * error :=
  (defaultSSHPort, None).

(** GetSSHUsername returns username for use with ssh *)
Definition GetSSHUsername (d : Driver) : string :=
  defaultSSHUser.

(** GetURL returns a Docker compatible host URL for connecting to this
    host, e.g. tcp://1.2.3.4:2376 *)
Definition GetURL (d : Driver) : M W (Driver * (string * error)) :=
  '(d, (ip, err)) <- GetIP d;;
  match err with
  | Some _ => ret (d, ("", err))
  | None =>
      if string_isEmpty ip then ret (d, ("", None))
      else ret (d, ("tcp://" ++ ip ++ ":" ++ fmt.d defaultDockerPort, None))
  end.

(** GetState returns the state that the host is in (running, stopped,
    etc) *)
Definition GetState (d : Driver) : M W (state.State * error) :=
  '(oci, err) <- initOCIClient d;;
  match err with
  | Some _ => ret (state.None, err)
  | None =>
      '(instance, err) <- GetInstance cloud oci (InstanceID d);;
      match err with
      | Some _ => ret (state.None, err)
      | None =>
          let ls := core.Instance_LifecycleState instance in
          if String.eqb ls core.InstanceLifecycleStateRunning then
            ret (state.Running, None)
          else if (String.eqb ls core.InstanceLifecycleStateStopped
                   || String.eqb ls core.InstanceLifecycleStateTerminated)%bool then
            ret (state.Stopped, None)
          else if (String.eqb ls core.InstanceLifecycleStateStopping
                   || String.eqb ls core.InstanceLifecycleStateTerminating)%bool then
            ret (state.Stopping, None)
          else if (String.eqb ls core.InstanceLifecycleStateStarting
                   || String.eqb ls core.InstanceLifecycleStateProvisioning
                   || String.eqb ls core.InstanceLifecycleStateCreatingImage)%bool then
            ret (state.Starting, None)
          else
            (* deleting, migrating, rebuilding, cloning, restoring ... *)
            ret (state.None, None)
      end
  end.

(** PreCreateCheck allows for pre-create operations to make sure a
    driver is ready for creation *)
Definition PreCreateCheck (fuel : nat) (d : Driver) : M W error :=
  if IsRover d then ret None
  else
    (* Check that the node image exists, which will also validate the
       credentials. *)
    '(oci, err) <- initOCIClient d;;
    match err with
    | Some _ => ret err
    | None =>
        '(image, err) <- getImageID cloud fuel oci (NodeCompartmentID d) defaultImage;;
        match err with
        | Some _ => ret err
        | None =>
            image <- deref image;;
            if (Z.of_nat (String.length image) =? 0)
            then ret (Some "could not retrieve node image ID from OCI")
            else ret None
        end
    end.

(** SetConfigFromFlags configures the driver with the object that was
    returned by RegisterCreateFlags.  An early return leaves the fields
    assigned so far in the driver. *)
Definition SetConfigFromFlags (d : Driver) (flags : DriverOptions)
  : M W (Driver * error) :=
  let d := set_VCNID d (flags_String flags "oci-vcn-id") in
  if string_isEmpty (VCNID d) then
    ret (d, errors_New "no OCI VCNID specified (--oci-vcn-id)") else
  let d := set_SubnetID d (flags_String flags "oci-subnet-id") in
  if string_isEmpty (SubnetID d) then
    ret (d, errors_New "no OCI subnetId specified (--oci-subnet-id)") else
  let d := set_TenancyID d (flags_String flags "oci-tenancy-id") in
  if string_isEmpty (TenancyID d) then
    ret (d, errors_New "no OCI tenancy specified (--oci-tenancy-id)") else
  let d := set_NodeCompartmentID d (flags_String flags "oci-node-compartment-id") in
  if string_isEmpty (NodeCompartmentID d) then
    ret (d, errors_New "no OCI compartment specified for node (--oci-node-compartment-id)") else
  let d := set_VCNCompartmentID d (flags_String flags "oci-vcn-compartment-id") in
  if string_isEmpty (VCNCompartmentID d) then
    ret (d, errors_New "no OCI compartment specified for VCN (--oci-vcn-compartment-id)") else
  let d := set_UserID d (flags_String flags "oci-user-id") in
  if string_isEmpty (UserID d) then
    ret (d, errors_New "no OCI user id specified (--oci-user-id)") else
  let d := set_Region d (flags_String flags "oci-region") in
  if string_isEmpty (Region d) then
    ret (d, errors_New "no OCI oci-region specified (--oci-region)") else
  let d := set_AvailabilityDomain d (flags_String flags "oci-node-availability-domain") in
  if string_isEmpty (AvailabilityDomain d) then
    ret (d, errors_New "no OCI node availability domain specified (--oci-node-availability-domain)") else
  let d := set_Shape d (flags_String flags "oci-node-shape") in
  if string_isEmpty (Shape d) then
    ret (d, errors_New "no OCI node shape specified (--oci-node-shape)") else
  let d := set_Fingerprint d (flags_String flags "oci-fingerprint") in
  if string_isEmpty (Fingerprint d) then
    ret (d, errors_New "no OCI oci-fingerprint specified (--oci-fingerprint)") else
  let d := set_PrivateKeyPath d (flags_String flags "oci-private-key-path") in
  let d := set_PrivateKeyContents d (flags_String flags "oci-private-key-contents") in
  if (string_isEmpty (PrivateKeyPath d) && string_isEmpty (PrivateKeyContents d))%bool then
    ret (d, errors_New "no private key path or content specified (--oci-private-key-path || --oci-private-key-contents)") else
  d <- (if (string_isEmpty (PrivateKeyContents d)
            && negb (string_isEmpty (PrivateKeyPath d)))%bool then
          '(privateKeyBytes, err) <- call (CallReadFile (PrivateKeyPath d))
                                          (ReadFile cloud (PrivateKeyPath d));;
          match err with
          | None => ret (set_PrivateKeyContents d privateKeyBytes)
          | Some _ => ret d
          end
        else ret d);;
  let d := set_Image d (flags_String flags "oci-node-image") in
  let d := set_SSHUser d (flags_String flags "oci-ssh-user") in
  let d := set_SSHPort d (flags_Int flags "oci-ssh-port") in
  let d := set_IsRover d (flags_Bool flags "oci-is-rover") in
  let d := set_RoverComputeEndpoint d (flags_String flags "oci-rover-compute-endpoint") in
  let d := set_RoverNetworkEndpoint d (flags_String flags "oci-rover-network-endpoint") in
  let d := set_RoverCertPath d (flags_String flags "oci-rover-cert-path") in
  let d := set_RoverCertContent d (flags_String flags "oci-rover-cert-content") in
  d <- (if (IsRover d && string_isEmpty (RoverCertContent d)
            && negb (string_isEmpty (RoverCertPath d)))%bool then
          '(roverCertBytes, err) <- call (CallReadFile (RoverCertPath d))
                                         (ReadFile cloud (RoverCertPath d));;
          match err with
          | None => ret (set_RoverCertContent d roverCertBytes)
          | Some _ => ret d
          end
        else ret d);;
  ret (d, None).

End DriverOps.

(** ** Notions used to state the properties *)

(** The calls an outcome leaves in the log. *)
Definition finalCalls {W A : Type} (o : outcome W A) : list Call :=
  match o with
  | Done _ s => calls s
  | Panicked _ s => calls s
  | OutOfFuel => []
  end.

Definition isListImages (what : Call) : bool :=
  match what with
  | CallListImages _ => true
  | _ => false
  end.

Definition isLaunchInstance (what : Call) : bool :=
  match what with
  | CallLaunchInstance _ => true
  | _ => false
  end.

Definition isStartAction (what : Call) : bool :=
  match what with
  | CallInstanceAction r =>
      match Action_Action r with
      | InstanceActionActionStart => true
      | InstanceActionActionStop => false
      end
  | _ => false
  end.

Definition countCalls (p : Call -> bool) (log : list Call) : nat :=
  List.length (filter p log).

(** The test of [getImageID]'s inner loop, on an image that has a name. *)
Definition nameMatches (nodeImageName : string) (image : core.Image) : bool :=
  match core.Image_DisplayName image with
  | Some name => strings.EqualFold name nodeImageName
  | None => false
  end.

Definition hasDisplayName (image : core.Image) : Prop :=
  core.Image_DisplayName image <> None.


(** A listing served page by page.  [listing cloud c cid page w pages w']:
    from the world [w], asking for [page] and then for each next-page
    token in turn, the service answers without error with the pages
    [pages] (each with the token it was asked by), the last of them
    without a next-page token, and leaves the world [w']. *)
Inductive listing {W : Type} (cloud : Cloud W) (c : Client) (compartmentID : string)
  : option string -> W -> list (option string * list core.Image) -> W -> Prop :=
| listing_last page w items w' :
    ListImages cloud (computeClient c) (listImagesRequest compartmentID page) w
      = (mkListImagesResponse items None, None, w') ->
    listing cloud c compartmentID page w [(page, items)] w'
| listing_next page w items next w' pages w'' :
    ListImages cloud (computeClient c) (listImagesRequest compartmentID page) w
      = (mkListImagesResponse items (Some next), None, w') ->
    listing cloud c compartmentID (Some next) w' pages w'' ->
    listing cloud c compartmentID page w ((page, items) :: pages) w''.

(** The compartment's available images, all pages in order. *)
Definition imagesOf (pages : list (option string * list core.Image))
  : list core.Image :=
  flat_map snd pages.

(** The [ListImages] calls that fetch [pages]. *)
Definition listCalls (compartmentID : string)
    (pages : list (option string * list core.Image)) : list Call :=
  map (fun p => CallListImages (listImagesRequest compartmentID (fst p))) pages.

(** The listed domains that carry the names [names]. *)
Definition domainsNamed (names : list string) : list identity.AvailabilityDomain :=
  map (fun n => identity.mkAvailabilityDomain (Some n)) names.


(** Availability-domain resolution as the loop computes it: each listed
    name is tested against the uppercased current value, which is the
    request until a name has been chosen and that name afterwards. *)
Definition chainedMatch (names : list string) (requested : string) : string :=
  fold_left
    (fun current name =>
       if strings.Contains name (strings.ToUpper current) then name else current)
    names requested.

(** ** A concrete environment for examples

    A service without state whose answers are given as arguments. *)

Definition exampleServiceClient : common.ServiceClient :=
  common.mkServiceClient "https://iaas.example" true None.

Definition staticCloud
    (images : option string -> ListImagesResponse * error)
    (domains : identity.ListAvailabilityDomainsResponse * error)
    (launch : LaunchInstanceResponse * error)
    (get : GetInstanceRequest -> core.GetInstanceResponse * error)
    (action : InstanceActionRequest -> InstanceActionResponse * error)
  : Cloud unit :=
  mkCloud unit
    (fun _ => (exampleServiceClient, None))
    (fun _ => (exampleServiceClient, None))
    (fun _ => (exampleServiceClient, None))
    (fun _ w => (("-----BEGIN CERTIFICATE-----", None), w))
    (fun _ _ w => (launch, w))
    (fun _ r w => (get r, w))
    (fun _ r w => (action r, w))
    (fun _ r w => (images (ListImages_Page r), w))
    (fun _ _ w => (domains, w))
    (fun _ _ w => (([core.mkVnicAttachment (Some "ocid1.vnic.a")], None), w))
    (fun _ _ w => ((core.mkVnic (Some "203.0.113.7") (Some "10.0.0.7"), None), w)).

Definition exampleClient : Client :=
  mkClient (common.mkConfigurationProvider "ocid1.tenancy.t" "ocid1.user.u"
              "us-phoenix-1" "aa:bb" "key" "")
    exampleServiceClient exampleServiceClient exampleServiceClient 5.

Definition exampleDriver (image : string) (rover : bool) : Driver :=
  mkDriver (mkBaseDriver "" "node1" "opc" 22 "" "/tmp/store")
    "ad-1" 2376 "aa:bb" image "ocid1.compartment.c" "key" "" "" "us-phoenix-1"
    "VM.Standard2.1" "ocid1.subnet.s" "ocid1.tenancy.t" "ocid1.user.u"
    "ocid1.compartment.v" "ocid1.vcn.v" rover "" "" "" "" "ocid1.instance.i".

Definition s0 : St unit := mkSt tt [].

Definition imageOL77 : core.Image :=
  core.mkImage (Some "ocid1.image.new") (Some "Oracle-Linux-7.7") 30.
Definition imageOL77old : core.Image :=
  core.mkImage (Some "ocid1.image.old") (Some "oracle-linux-7.7") 10.
Definition imageUbuntu : core.Image :=
  core.mkImage (Some "ocid1.image.ubuntu") (Some "Canonical-Ubuntu-18.04") 20.

(** Two pages: the second is served for the token "p2". *)
Definition examplePages (page : option string) : ListImagesResponse * error :=
  match page with
  | None => (mkListImagesResponse [imageOL77; imageUbuntu] (Some "p2"), None)
  | Some _ => (mkListImagesResponse [imageOL77old] None, None)
  end.

Definition exampleDomains (names : list string)
  : identity.ListAvailabilityDomainsResponse * error :=
  (identity.mkListAvailabilityDomainsResponse (domainsNamed names), None).

Definition exampleLaunched : LaunchInstanceResponse * error :=
  (mkLaunchInstanceResponse (core.mkInstance (Some "ocid1.instance.n") "PROVISIONING"),
   None).

Definition exampleLaunchRejected : LaunchInstanceResponse * error :=
  (mkLaunchInstanceResponse core.Instance_zero, Some "400 InvalidParameter").

Definition exampleRunning (_ : GetInstanceRequest) : core.GetInstanceResponse * error :=
  (core.mkGetInstanceResponse (core.mkInstance (Some "ocid1.instance.n") "RUNNING"), None).

Definition exampleReadFails (_ : GetInstanceRequest) : core.GetInstanceResponse * error :=
  (core.mkGetInstanceResponse core.Instance_zero, Some "503 Service Unavailable").

Definition exampleActionOk (_ : InstanceActionRequest) : InstanceActionResponse * error :=
  (mkInstanceActionResponse (core.mkInstance (Some "ocid1.instance.i") "STOPPING"), None).

Definition exampleStopFails (r : InstanceActionRequest) : InstanceActionResponse * error :=
  match Action_Action r with
  | InstanceActionActionStop =>
      (mkInstanceActionResponse core.Instance_zero, Some "409 Conflict")
  | InstanceActionActionStart =>
      (mkInstanceActionResponse (core.mkInstance (Some "ocid1.instance.i") "STARTING"), None)
  end.

(** The usual environment: the two pages of images, two availability
    domains, a launch that is accepted and an instance that runs. *)
Definition exampleCloud : Cloud unit :=
  staticCloud examplePages (exampleDomains ["xx-region-AD-1"; "xx-region-AD-2"])
    exampleLaunched exampleRunning exampleActionOk.

(** ** The rest of the driver facade *)

(** NewDriver creates a new driver *)
Definition NewDriver (hostName storePath : string) : Driver :=
  mkDriver (mkBaseDriver "" hostName defaultSSHUser 0 "" storePath)
    "" 0 "" "" "" "" "" "" "" "" "" "" "" "" "" false "" "" "" "" "".

(** DriverName returns the name of the driver *)
Definition DriverName (d : Driver) : string := "oci".

(** GetMachineName returns the name of the machine *)
Definition GetMachineName (d : Driver) : string := MachineName_of d.

(** Package [mcnflag] of libmachine: the three kinds of flag the driver
    declares.  A field left out of a Go literal has its zero value. *)
Module mcnflag.

Inductive Flag : Type :=
| StringFlag (Name Usage EnvVar Value : string)
| IntFlag (Name Usage EnvVar : string) (Value : Z)
| BoolFlag (Name Usage EnvVar : string).

Inductive Kind : Type := KString | KInt | KBool.

Definition Name_of (f : Flag) : string :=
  match f with
  | StringFlag n _ _ _ => n
  | IntFlag n _ _ _ => n
  | BoolFlag n _ _ => n
  end.

Definition Kind_of (f : Flag) : Kind :=
  match f with
  | StringFlag _ _ _ _ => KString
  | IntFlag _ _ _ _ => KInt
  | BoolFlag _ _ _ => KBool
  end.

Definition Kind_eqb (a b : Kind) : bool :=
  match a, b with
  | KString, KString => true
  | KInt, KInt => true
  | KBool, KBool => true
  | _, _ => false
  end.

End mcnflag.

(** GetCreateFlags returns the mcnflag.Flag slice representing the flags
    that can be set, their descriptions and defaults. *)
Definition GetCreateFlags (d : Driver) : list mcnflag.Flag := [
  mcnflag.StringFlag "oci-node-availability-domain"
    "Specify availability domain the node(s) should use"
    "OCI_NODE_AVAILABILITY_DOMAIN" "";
  mcnflag.IntFlag "oci-node-docker-port"
    "Specify Docker port"
    "OCI_NODE_DOCKER_PORT" defaultDockerPort;
  mcnflag.StringFlag "oci-fingerprint"
    "Specify fingerprint corresponding to the specified user's private API Key"
    "OCI_FINGERPRINT" "";
  mcnflag.StringFlag "oci-node-image"
    "Specify image the node(s) should use"
    "OCI_NODE_IMAGE" defaultImage;
  mcnflag.StringFlag "oci-node-compartment-id"
    "Specify OCID of the compartment in which to create node(s)"
    "OCI_NODE_COMPARTMENT_ID" "";
  mcnflag.StringFlag "oci-node-public-key-contents"
    "Specify SSH public key content for the nodes"
    "OCI_NODE_PUBLIC_KEY_CONTENTS" "";
  mcnflag.StringFlag "oci-node-public-key-path"
    "Specify SSH public key path for the nodes"
    "OCI_NODE_PUBLIC_KEY_PATH" "";
  mcnflag.StringFlag "oci-private-key-contents"
    "Specify private API key contents for the specified OCI user, in PEM format"
    "OCI_PRIVATE_KEY_CONTENTS" "";
  mcnflag.StringFlag "oci-private-key-path"
    "Specify private API key path for the specified OCI user, in PEM format"
    "OCI_PRIVATE_KEY_PATH" "";
  mcnflag.StringFlag "oci-private-key-passphrase"
    "Specify passphrase (if any) that protects private key file the specified OCI user"
    "OCI_PRIVATE_KEY_PASSPHRASE" "";
  mcnflag.StringFlag "oci-region"
    "Specify region in which to create node(s)"
    "OCI_REGION" "";
  mcnflag.StringFlag "oci-node-shape"
    "Specify instance shape of the node(s)"
    "OCI_NODE_SHAPE" "";
  mcnflag.IntFlag "oci-ssh-port"
    "Specify SSH port for the node(s)"
    "OCI_SSH_PORT" defaultSSHPort;
  mcnflag.StringFlag "oci-ssh-user"
    "Specify SSH user for the node(s)"
    "OCI_SSH_USER" defaultSSHUser;
  mcnflag.StringFlag "oci-subnet-id"
    "Specify pre-existing subnet id in which you want to create the node(s)"
    "OCI_SUBNET_ID" "";
  mcnflag.StringFlag "oci-tenancy-id"
    "Specify OCID of the tenancy in which to create node(s)"
    "OCI_TENANCY_ID" "";
  mcnflag.StringFlag "oci-user-id"
    "Specify OCID of a user who has access to the specified tenancy/compartment"
    "OCI_USER_ID" "";
  mcnflag.StringFlag "oci-vcn-compartment-id"
    "Specify OCID of the compartment in which the VCN exists"
    "OCI_VCN_COMPARTMENT_ID" "";
  mcnflag.StringFlag "oci-vcn-id"
    "Specify pre-existing VCN id in which you want to create the node(s)"
    "OCI_VCN_ID" "";
  mcnflag.BoolFlag "oci-is-rover"
    "Specify if the plugin is used for a oci rover device"
    "OCI_IS_ROVER";
  mcnflag.StringFlag "oci-rover-compute-endpoint"
    "Specify compute endpoint for rover"
    "OCI_ROVER_COMPUTE_ENDPOINT" "";
  mcnflag.StringFlag "oci-rover-network-endpoint"
    "SSpecify network endpoint for rover"
    "OCI_ROVER_NETWORK_ENDPOINT" "";
  mcnflag.StringFlag "oci-rover-cert-path"
    "Specify rover cert key path for the specified OCI user, in PEM format"
    "OCI_ROVER_CERT_PATH" "";
  mcnflag.StringFlag "oci-rover-cert-content"
    "Specify rover cert key content for the specified OCI user, in PEM format"
    "OCI_ROVER_CERT_CONTENT" ""
].

Section DriverLifecycle.

Context {W : Type} (cloud : Cloud W).

(** GetSSHHostname returns hostname for use with ssh *)
Definition GetSSHHostname (d : Driver) : M W (Driver * (string * error)) :=
  GetIP cloud d.

(** Restart a host. This may just call Stop(); Start() if the provider
    does not have any special restart behaviour. *)
Definition Restart (d : Driver) : M W error :=
  '(oci, err) <- initOCIClient cloud d;;
  match err with
  | Some _ => ret err
  | None => RestartInstance cloud oci (InstanceID d)
  end.

(** Start a host *)
Definition Start (d : Driver) : M W error :=
  '(oci, err) <- initOCIClient cloud d;;
  match err with
  | Some _ => ret err
  | None => StartInstance cloud oci (InstanceID d)
  end.

(** Stop a host gracefully *)
Definition Stop (d : Driver) : M W error :=
  '(oci, err) <- initOCIClient cloud d;;
  match err with
  | Some _ => ret err
  | None => StopInstance cloud oci (InstanceID d)
  end.

End DriverLifecycle.

(** ** More notions used to state properties *)

(** Pages served without error, each with a next-page token.
    [served cloud c cid page w pages next w']: from the world [w], asking
    for [page] and then for each token in turn, the service answers with
    [pages]; the token of the last answer is [next] (it is [page] itself
    when [pages] is empty) and the world is left as [w']. *)
Inductive served {W : Type} (cloud : Cloud W) (c : Client) (compartmentID : string)
  : option string -> W -> list (option string * list core.Image)
    -> option string -> W -> Prop :=
| served_none page w :
    served cloud c compartmentID page w [] page w
| served_more page w items next w' pages last w'' :
    ListImages cloud (computeClient c) (listImagesRequest compartmentID page) w
      = (mkListImagesResponse items (Some next), None, w') ->
    served cloud c compartmentID (Some next) w' pages last w'' ->
    served cloud c compartmentID page w ((page, items) :: pages) last w''.

(** The flags [SetConfigFromFlags] consults, each with the accessor it
    uses, in the order of the reads. *)
Definition flagsRead : list (string * mcnflag.Kind) := [
  ("oci-vcn-id", mcnflag.KString);
  ("oci-subnet-id", mcnflag.KString);
  ("oci-tenancy-id", mcnflag.KString);
  ("oci-node-compartment-id", mcnflag.KString);
  ("oci-vcn-compartment-id", mcnflag.KString);
  ("oci-user-id", mcnflag.KString);
  ("oci-region", mcnflag.KString);
  ("oci-node-availability-domain", mcnflag.KString);
  ("oci-node-shape", mcnflag.KString);
  ("oci-fingerprint", mcnflag.KString);
  ("oci-private-key-path", mcnflag.KString);
  ("oci-private-key-contents", mcnflag.KString);
  ("oci-node-image", mcnflag.KString);
  ("oci-ssh-user", mcnflag.KString);
  ("oci-ssh-port", mcnflag.KInt);
  ("oci-is-rover", mcnflag.KBool);
  ("oci-rover-compute-endpoint", mcnflag.KString);
  ("oci-rover-network-endpoint", mcnflag.KString);
  ("oci-rover-cert-path", mcnflag.KString);
  ("oci-rover-cert-content", mcnflag.KString)
].

(** Two sets of parsed flags give the same value to a flag. *)
Definition flagAgrees (flags flags' : DriverOptions) (entry : string * mcnflag.Kind)
  : Prop :=
  match snd entry with
  | mcnflag.KString => flags_String flags (fst entry) = flags_String flags' (fst entry)
  | mcnflag.KInt => flags_Int flags (fst entry) = flags_Int flags' (fst entry)
  | mcnflag.KBool => flags_Bool flags (fst entry) = flags_Bool flags' (fst entry)
  end.

(** A flag is declared by [GetCreateFlags] with a given kind. *)
Definition declared (d : Driver) (entry : string * mcnflag.Kind) : bool :=
  existsb
    (fun f => (String.eqb (mcnflag.Name_of f) (fst entry)
               && mcnflag.Kind_eqb (mcnflag.Kind_of f) (snd entry))%bool)
    (GetCreateFlags d).

(** The flags that must not be empty, in the order they are checked,
    each with the message of its error. *)
Definition requiredFlags : list (string * string) := [
  ("oci-vcn-id", "no OCI VCNID specified (--oci-vcn-id)");
  ("oci-subnet-id", "no OCI subnetId specified (--oci-subnet-id)");
  ("oci-tenancy-id", "no OCI tenancy specified (--oci-tenancy-id)");
  ("oci-node-compartment-id",
   "no OCI compartment specified for node (--oci-node-compartment-id)");
  ("oci-vcn-compartment-id",
   "no OCI compartment specified for VCN (--oci-vcn-compartment-id)");
  ("oci-user-id", "no OCI user id specified (--oci-user-id)");
  ("oci-region", "no OCI oci-region specified (--oci-region)");
  ("oci-node-availability-domain",
   "no OCI node availability domain specified (--oci-node-availability-domain)");
  ("oci-node-shape", "no OCI node shape specified (--oci-node-shape)");
  ("oci-fingerprint", "no OCI oci-fingerprint specified (--oci-fingerprint)")
].

(** The first required flag that is empty, with its message. *)
Definition firstMissing (flags : DriverOptions) : option (string * string) :=
  find (fun entry => string_isEmpty (flags_String flags (fst entry))) requiredFlags.

Definition isReadFile (what : Call) : bool :=
  match what with
  | CallReadFile _ => true
  | _ => false
  end.

Definition isGetVnic (what : Call) : bool :=
  match what with
  | CallGetVnic _ => true
  | _ => false
  end.

(** ** More of the example environment *)

(** An environment with other answers about VNICs. *)
Definition withVnics {W : Type} (cloud : Cloud W)
    (attachments : list core.VnicAttachment * error)
    (vnic : GetVnicRequest -> core.Vnic * error) : Cloud W :=
  mkCloud W
    (NewComputeClientWithConfigurationProvider cloud)
    (NewVirtualNetworkClientWithConfigurationProvider cloud)
    (NewIdentityClientWithConfigurationProvider cloud)
    (ReadFile cloud) (LaunchInstance cloud) (GetInstance_op cloud)
    (InstanceAction cloud) (ListImages cloud) (ListAvailabilityDomains cloud)
    (fun _ _ w => (attachments, w))
    (fun _ r w => (vnic r, w)).

(** An environment with another file system. *)
Definition withReadFile {W : Type} (cloud : Cloud W)
    (read : string -> string * error) : Cloud W :=
  mkCloud W
    (NewComputeClientWithConfigurationProvider cloud)
    (NewVirtualNetworkClientWithConfigurationProvider cloud)
    (NewIdentityClientWithConfigurationProvider cloud)
    (fun path w => (read path, w))
    (LaunchInstance cloud) (GetInstance_op cloud)
    (InstanceAction cloud) (ListImages cloud) (ListAvailabilityDomains cloud)
    (ListVnicAttachments cloud) (GetVnic cloud).

(** An environment whose identity client cannot be constructed. *)
Definition withoutIdentity {W : Type} (cloud : Cloud W) (msg : string) : Cloud W :=
  mkCloud W
    (NewComputeClientWithConfigurationProvider cloud)
    (NewVirtualNetworkClientWithConfigurationProvider cloud)
    (fun _ => (common.ServiceClient_zero, Some msg))
    (ReadFile cloud) (LaunchInstance cloud) (GetInstance_op cloud)
    (InstanceAction cloud) (ListImages cloud) (ListAvailabilityDomains cloud)
    (ListVnicAttachments cloud) (GetVnic cloud).

(** Flags as a command line would give them: every required flag set,
    the private key given by path. *)
Definition exampleFlags : DriverOptions :=
  mkDriverOptions
    (fun name =>
       if String.eqb name "oci-vcn-id" then "ocid1.vcn.v"
       else if String.eqb name "oci-subnet-id" then "ocid1.subnet.s"
       else if String.eqb name "oci-tenancy-id" then "ocid1.tenancy.t"
       else if String.eqb name "oci-node-compartment-id" then "ocid1.compartment.c"
       else if String.eqb name "oci-vcn-compartment-id" then "ocid1.compartment.v"
       else if String.eqb name "oci-user-id" then "ocid1.user.u"
       else if String.eqb name "oci-region" then "us-phoenix-1"
       else if String.eqb name "oci-node-availability-domain" then "ad-1"
       else if String.eqb name "oci-node-shape" then "VM.Standard2.1"
       else if String.eqb name "oci-fingerprint" then "aa:bb"
       else if String.eqb name "oci-private-key-path" then "/home/u/.oci/key.pem"
       else if String.eqb name "oci-node-image" then defaultImage
       else if String.eqb name "oci-ssh-user" then "ubuntu"
       else if String.eqb name "oci-private-key-passphrase" then "secret"
       else "")
    (fun name =>
       if String.eqb name "oci-ssh-port" then 2222
       else if String.eqb name "oci-node-docker-port" then 9999
       else 0)
    (fun _ => false).

(** The same flags without a region. *)
Definition exampleFlagsNoRegion : DriverOptions :=
  mkDriverOptions
    (fun name => if String.eqb name "oci-region" then "" else flags_String exampleFlags name)
    (flags_Int exampleFlags)
    (flags_Bool exampleFlags).

(** A first page with a next-page token, then a failure. *)
Definition examplePagesThenError (page : option string) : ListImagesResponse * error :=
  match page with
  | None => (mkListImagesResponse [imageUbuntu] (Some "p2"), None)
  | Some _ => (mkListImagesResponse [] None, Some "500 InternalError")
  end.

Definition imageNameless : core.Image :=
  core.mkImage (Some "ocid1.image.nameless") None 40.

(** A page whose first image has no display name. *)
Definition examplePagesNameless (page : option string) : ListImagesResponse * error :=
  (mkListImagesResponse [imageNameless; imageOL77] None, None).

Definition exampleCloudWithImages (images : option string -> ListImagesResponse * error)
  : Cloud unit :=
  staticCloud images (exampleDomains ["xx-region-AD-1"; "xx-region-AD-2"])
    exampleLaunched exampleRunning exampleActionOk.

(** An instance whose VNIC has only a private address. *)
Definition exampleCloudPrivate : Cloud unit :=
  withVnics exampleCloud
    ([core.mkVnicAttachment (Some "ocid1.vnic.a");
      core.mkVnicAttachment (Some "ocid1.vnic.b")], None)
    (fun _ => (core.mkVnic None (Some "10.0.0.7"), None)).

(** An instance without VNIC attachments. *)
Definition exampleCloudNoVnic : Cloud unit :=
  withVnics exampleCloud ([], None)
    (fun _ => (core.mkVnic (Some "203.0.113.7") (Some "10.0.0.7"), None)).

(** A service whose instance reads fail. *)
Definition exampleCloudReadFails : Cloud unit :=
  staticCloud examplePages (exampleDomains ["xx-region-AD-1"; "xx-region-AD-2"])
    exampleLaunched exampleReadFails exampleActionOk.

(** A rover driver whose certificate is at "/etc/rover/ca.pem". *)
Definition exampleRoverDriver : Driver :=
  set_RoverCertPath
    (set_RoverNetworkEndpoint
       (set_RoverComputeEndpoint (exampleDriver defaultImage true)
          "https://rover.example:19060")
       "https://rover.example:19061")
    "/etc/rover/ca.pem".

(** A file system without that certificate. *)
Definition exampleCloudNoCert : Cloud unit :=
  withReadFile exampleCloud (fun _ => ("", Some "open /etc/rover/ca.pem: no such file or directory")).

(** A listing whose only Oracle-Linux-7.7 image has the empty ID. *)
Definition examplePagesEmptyID (page : option string) : ListImagesResponse * error :=
  (mkListImagesResponse
     [imageUbuntu; core.mkImage (Some "") (Some "Oracle-Linux-7.7") 5] None, None).

Definition isListAvailabilityDomains (what : Call) : bool :=
  match what with
  | CallListAvailabilityDomains _ => true
  | _ => false
  end.

(** An outcome that returns or panics has only added calls that satisfy
    [P] to the log of the state [s]. *)
Definition grows {W A : Type} (P : Call -> Prop) (s : St W) (o : outcome W A) : Prop :=
  match o with
  | Done _ s' => exists extra, calls s' = (calls s ++ extra)%list /\ Forall P extra
  | Panicked _ s' => exists extra, calls s' = (calls s ++ extra)%list /\ Forall P extra
  | OutOfFuel => True
  end.

(** A call is a [ListImages] request of [getImageID] for a compartment. *)
Definition listsImagesOf (compartmentID : string) (what : Call) : Prop :=
  exists page, what = CallListImages (listImagesRequest compartmentID page).

(** A service that refuses to list the availability domains. *)
Definition exampleCloudNoDomains : Cloud unit :=
  staticCloud examplePages
    (identity.mkListAvailabilityDomainsResponse [], Some "401 NotAuthenticated")
    exampleLaunchRejected exampleRunning exampleActionOk.

(** The environment variable that goes with a flag name: upper case,
    with underscores for hyphens. *)
Fixpoint underscored (name : string) : string :=
  match name with
  | EmptyString => EmptyString
  | String ch rest =>
      String (if Ascii.eqb ch "-"%char then "_"%char else ch) (underscored rest)
  end.

Definition envVarOf (name : string) : string :=
  strings.ToUpper (underscored name).

Definition EnvVar_of (f : mcnflag.Flag) : string :=
  match f with
  | mcnflag.StringFlag _ _ e _ => e
  | mcnflag.IntFlag _ _ e _ => e
  | mcnflag.BoolFlag _ _ e => e
  end.

(** The default a flag declares, shown as a string. *)
Definition Default_of (f : mcnflag.Flag) : string :=
  match f with
  | mcnflag.StringFlag _ _ _ v => v
  | mcnflag.IntFlag _ _ _ v => fmt.d v
  | mcnflag.BoolFlag _ _ _ => ""
  end.

(** The flags of [GetCreateFlags] that declare a default. *)
Definition declaredDefaults (d : Driver) : list (string * string) :=
  map (fun f => (mcnflag.Name_of f, Default_of f))
    (filter (fun f => negb (string_isEmpty (Default_of f))) (GetCreateFlags d)).

Fixpoint distinct (names : list string) : bool :=
  match names with
  | [] => true
  | name :: rest => (negb (existsb (String.eqb name) rest) && distinct rest)%bool
  end.

(** ** The lookups over Go's own string functions

    Go's [strings.EqualFold] and [strings.ToUpper] fold and map every
    Unicode letter; their tables belong to Go's library, not to this
    repository, and module [strings] above gives the two functions on
    ASCII only.  Here the loops of [getImageID] and [createReqForOCi]
    are written with the two functions as parameters, so that what is
    proved of them holds of the code whatever the strings are.
    [strings.Contains] compares bytes and is used as it is.  The
    definitions of the client above are these at the ASCII functions. *)
Module Go.

Section WithStrings.

Context {W : Type} (cloud : Cloud W).
Context (EqualFold : string -> string -> bool) (ToUpper : string -> string).

(** The inner loop of [getImageID]. *)
Fixpoint getImageID_items (items : list core.Image) (nodeImageName : string)
  : M W (option (option string)) :=
  match items with
  | [] => ret None
  | image :: rest =>
      name <- deref (core.Image_DisplayName image);;
      if EqualFold name nodeImageName
      then ret (Some (core.Image_Id image))
      else getImageID_items rest nodeImageName
  end.

(** The outer loop of [getImageID], one page per iteration. *)
Fixpoint getImageID_pages (fuel : nat) (c : Client)
    (compartmentID nodeImageName : string) (page : option string)
  : M W (option string * error) :=
  match fuel with
  | O => outOfFuel
  | S fuel' =>
      let request := listImagesRequest compartmentID page in
      '(r, err) <- call (CallListImages request)
                        (ListImages cloud (computeClient c) request);;
      match err with
      | Some _ => ret (None, err)
      | None =>
          found <- getImageID_items (ListImages_Items r) nodeImageName;;
          match found with
          | Some id => ret (id, None)
          | None =>
              match ListImages_OpcNextPage r with
              | None =>
                  ret (None,
                       Some ("could not retrieve image id for an image named "
                             ++ nodeImageName))
              | Some next =>
                  getImageID_pages fuel' c compartmentID nodeImageName (Some next)
              end
          end
      end
  end.

(** getImageID gets the most recent ImageId for the node image name *)
Definition getImageID (fuel : nat) (c : Client)
    (compartmentID nodeImageName : string) : M W (option string * error) :=
  if (string_isEmpty nodeImageName || string_isEmpty compartmentID)%bool
  then ret (None,
            errors_New "cannot retrieve image ID without a compartment and image name")
  else getImageID_pages fuel c compartmentID nodeImageName None.

(** The loop of [createReqForOCi] over [ads.Items]. *)
Fixpoint resolveAvailabilityDomain (items : list identity.AvailabilityDomain)
    (availabilityDomain : string) : M W string :=
  match items with
  | [] => ret availabilityDomain
  | ad :: rest =>
      name <- deref (identity.AvailabilityDomain_Name ad);;
      if strings.Contains name (ToUpper availabilityDomain)
      then resolveAvailabilityDomain rest name
      else resolveAvailabilityDomain rest availabilityDomain
  end.

Definition createReqForOCi (fuel : nat) (c : Client)
    (displayName availabilityDomain compartmentID nodeShape nodeImageName
       nodeSubnetID authorizedKeys : string)
  : M W (error * LaunchInstanceRequest) :=
  let req := identity.mkListAvailabilityDomainsRequest (Some compartmentID) in
  '(ads, err) <- call (CallListAvailabilityDomains req)
                      (ListAvailabilityDomains cloud (identityClient c) req);;
  match err with
  | Some _ => ret (None, LaunchInstanceRequest_zero)
  | None =>
      availabilityDomain <-
        resolveAvailabilityDomain (identity.ListADs_Items ads) availabilityDomain;;
      '(imageID, err) <- getImageID fuel c compartmentID nodeImageName;;
      match err with
      | Some _ => ret (None, LaunchInstanceRequest_zero)
      | None =>
          let request := mkLaunchInstanceRequest
            (mkLaunchInstanceDetails
               (Some availabilityDomain)
               (Some compartmentID)
               (Some nodeShape)
               (Some (mkCreateVnicDetails (Some nodeSubnetID) None))
               None
               (Some displayName)
               [("ssh_authorized_keys", authorizedKeys);
                ("user_data", base64.EncodeToString createCloudInitScript)]
               (Some (mkInstanceSourceViaImageDetails imageID None))
               None) in
          ret (err, request)
      end
  end.

End WithStrings.

(** The test of the inner loop, on an image that has a name. *)
Definition nameMatches (EqualFold : string -> string -> bool)
    (nodeImageName : string) (image : core.Image) : bool :=
  match core.Image_DisplayName image with
  | Some name => EqualFold name nodeImageName
  | None => false
  end.

(** What a scan of images in order meets first: an image whose name
    matches, an image without a name, or the end. *)
Inductive Scan : Type :=
| Found (image : core.Image)
| Nameless
| NoMatch.

Fixpoint scan (EqualFold : string -> string -> bool) (nodeImageName : string)
    (images : list core.Image) : Scan :=
  match images with
  | [] => NoMatch
  | image :: rest =>
      match core.Image_DisplayName image with
      | None => Nameless
      | Some name =>
          if EqualFold name nodeImageName then Found image
          else scan EqualFold nodeImageName rest
      end
  end.


(** Availability-domain resolution as the loop computes it. *)
Definition chainedMatch (ToUpper : string -> string) (names : list string)
    (requested : string) : string :=
  fold_left
    (fun current name =>
       if strings.Contains name (ToUpper current) then name else current)
    names requested.

End Go.


(** Availability domains of which the second has no name. *)
Definition exampleDomainsNameless : identity.ListAvailabilityDomainsResponse * error :=
  (identity.mkListAvailabilityDomainsResponse
     [identity.mkAvailabilityDomain (Some "xx-region-AD-1");
      identity.mkAvailabilityDomain None], None).

(** * Properties *)

(** ** The Go library functions on examples *)

Example base64_Man : base64.EncodeToString "Man" = "TWFu".
Proof. reflexivity. Qed.

Example base64_Ma : base64.EncodeToString "Ma" = "TWE=".
Proof. reflexivity. Qed.

Example base64_M : base64.EncodeToString "M" = "TQ==".
Proof. reflexivity. Qed.

Example fmt_d_port : fmt.d defaultDockerPort = "2376".
Proof. reflexivity. Qed.

Example ToUpper_ad : strings.ToUpper "xx-ad-1" = "XX-AD-1".
Proof. reflexivity. Qed.

Example EqualFold_image : strings.EqualFold "oracle-linux-7.7" defaultImage = true.
Proof. reflexivity. Qed.

Example Contains_ad : strings.Contains "xx-region-AD-1" "AD-1" = true.
Proof. reflexivity. Qed.

Example Contains_not_ad : strings.Contains "xx-region-AD-1" "AD-9" = false.
Proof. reflexivity. Qed.

(** ** Running monadic code *)

Section Running.

Context {W : Type}.

Lemma bind_Done {A B : Type} (m : M W A) (k : A -> M W B) s a s' :
  m s = Done a s' -> bind m k s = k a s'.
Proof. intros H. unfold bind. rewrite H. reflexivity. Qed.

Lemma bind_Panicked {A B : Type} (m : M W A) (k : A -> M W B) s msg s' :
  m s = Panicked msg s' -> bind m k s = Panicked msg s'.
Proof. intros H. unfold bind. rewrite H. reflexivity. Qed.

Lemma call_Done {A : Type} (what : Call) (op : W -> A * W) s a w' :
  op (world s) = (a, w') ->
  call what op s = Done a (mkSt w' (calls s ++ [what])).
Proof. intros H. unfold call. rewrite H. reflexivity. Qed.

Lemma deref_Some {A : Type} (a : A) (s : St W) : deref (Some a) s = Done a s.
Proof. reflexivity. Qed.

Lemma countCalls_app p (l1 l2 : list Call) :
  countCalls p (l1 ++ l2) = (countCalls p l1 + countCalls p l2)%nat.
Proof. unfold countCalls. rewrite filter_app, length_app. reflexivity. Qed.

End Running.

Lemma string_isEmpty_true (s : string) : string_isEmpty s = true <-> s = "".
Proof. destruct s; simpl; split; intros H; congruence. Qed.

Lemma string_isEmpty_false (s : string) : string_isEmpty s = false <-> s <> "".
Proof. destruct s; simpl; split; intros H; congruence. Qed.

(** ** Image resolution: validation of the input *)

(** C8: when the compartment ID or the image name is the empty string,
    [getImageID] fails at once with the validation error; the world and
    the call log are left as they were, so no [ListImages] request is
    issued, whatever the fuel. *)
Theorem getImageID_empty_input :
  forall (W : Type) (cloud : Cloud W) (fuel : nat) (c : Client)
         (compartmentID nodeImageName : string) (s : St W),
    compartmentID = "" \/ nodeImageName = "" ->
    getImageID cloud fuel c compartmentID nodeImageName s
      = Done (None, Some "cannot retrieve image ID without a compartment and image name") s
    /\ countCalls isListImages
         (finalCalls (getImageID cloud fuel c compartmentID nodeImageName s))
       = countCalls isListImages (calls s).
Proof.
  intros W cloud fuel c compartmentID nodeImageName s Hempty.
  assert (Hguard :
    (string_isEmpty nodeImageName || string_isEmpty compartmentID)%bool = true).
  { apply orb_true_iff. destruct Hempty as [-> | ->]; [right | left]; reflexivity. }
  unfold getImageID. rewrite Hguard. split; reflexivity.
Qed.

Lemma getImageID_empty_input_witness :
  getImageID exampleCloud 0 exampleClient "" defaultImage s0
    = Done (None, Some "cannot retrieve image ID without a compartment and image name") s0
  /\ countCalls isListImages
       (finalCalls (getImageID exampleCloud 0 exampleClient "" defaultImage s0))
     = countCalls isListImages (calls s0).
Proof.
  apply (getImageID_empty_input unit exampleCloud 0 exampleClient "" defaultImage s0).
  left. reflexivity.
Defined.

(** ** Lifecycle state mapping *)

(** C3: once the client is built and the instance read succeeds,
    [GetState] returns a state with a nil error for every lifecycle
    string: Running for RUNNING; Stopped for STOPPED and TERMINATED;
    Stopping for STOPPING and TERMINATING; Starting for STARTING,
    PROVISIONING and CREATING_IMAGE; None for any other string. *)
Theorem GetState_total :
  forall (W : Type) (cloud : Cloud W) (d : Driver) (s : St W)
         (oci : Client) (s1 : St W) (instance : core.Instance) (s2 : St W),
    initOCIClient cloud d s = Done (oci, None) s1 ->
    GetInstance cloud oci (InstanceID d) s1 = Done (instance, None) s2 ->
    exists st : state.State,
      GetState cloud d s = Done (st, None) s2
      /\ (core.Instance_LifecycleState instance = core.InstanceLifecycleStateRunning ->
          st = state.Running)
      /\ (core.Instance_LifecycleState instance = core.InstanceLifecycleStateStopped
          \/ core.Instance_LifecycleState instance = core.InstanceLifecycleStateTerminated ->
          st = state.Stopped)
      /\ (core.Instance_LifecycleState instance = core.InstanceLifecycleStateStopping
          \/ core.Instance_LifecycleState instance = core.InstanceLifecycleStateTerminating ->
          st = state.Stopping)
      /\ (core.Instance_LifecycleState instance = core.InstanceLifecycleStateStarting
          \/ core.Instance_LifecycleState instance = core.InstanceLifecycleStateProvisioning
          \/ core.Instance_LifecycleState instance = core.InstanceLifecycleStateCreatingImage ->
          st = state.Starting)
      /\ (~ In (core.Instance_LifecycleState instance)
              [core.InstanceLifecycleStateRunning;
               core.InstanceLifecycleStateStopped;
               core.InstanceLifecycleStateTerminated;
               core.InstanceLifecycleStateStopping;
               core.InstanceLifecycleStateTerminating;
               core.InstanceLifecycleStateStarting;
               core.InstanceLifecycleStateProvisioning;
               core.InstanceLifecycleStateCreatingImage] ->
          st = state.None).
Proof.
  intros W cloud d s oci s1 instance s2 Hinit Hget.
  unfold GetState.
  rewrite (bind_Done _ _ _ _ _ Hinit).
  rewrite (bind_Done _ _ _ _ _ Hget).
  unfold core.InstanceLifecycleStateRunning, core.InstanceLifecycleStateStopped,
    core.InstanceLifecycleStateTerminated, core.InstanceLifecycleStateStopping,
    core.InstanceLifecycleStateTerminating, core.InstanceLifecycleStateStarting,
    core.InstanceLifecycleStateProvisioning, core.InstanceLifecycleStateCreatingImage.
  generalize (core.Instance_LifecycleState instance) as ls. intros ls.
  repeat match goal with
         | |- context [String.eqb ls ?k] =>
             destruct (String.eqb_spec ls k) as [-> | ?]; cbn [orb]
         end;
    eexists; (split; [reflexivity |]);
    repeat split; intros H; try reflexivity;
    try (repeat destruct H as [H | H]; congruence);
    exfalso; apply H; cbn [In]; tauto.
Qed.

Lemma GetState_total_witness :
  exists st : state.State,
    GetState exampleCloud (exampleDriver defaultImage false) s0
      = Done (st, None) (mkSt tt [CallGetInstance
                                    (mkGetInstanceRequest (Some "ocid1.instance.i")
                                       common.NoRetryPolicy)])
    /\ st = state.Running.
Proof.
  destruct (GetState_total unit exampleCloud (exampleDriver defaultImage false) s0
              exampleClient s0
              (core.mkInstance (Some "ocid1.instance.n") "RUNNING")
              (mkSt tt [CallGetInstance
                          (mkGetInstanceRequest (Some "ocid1.instance.i")
                             common.NoRetryPolicy)])
              eq_refl eq_refl) as [st [Hrun [Hrunning _]]].
  exists st. split; [exact Hrun | apply Hrunning; reflexivity].
Defined.

(** ** Stop, start, restart *)

Section StopStart.

Context {W : Type} (cloud : Cloud W).

(** [StopInstance] always returns, and issues no Start action. *)
Lemma StopInstance_returns (c : Client) (id : string) (s : St W) :
  exists err s1,
    StopInstance cloud c id s = Done err s1
    /\ countCalls isStartAction (calls s1) = countCalls isStartAction (calls s).
Proof.
  unfold StopInstance, bind, call.
  destruct (InstanceAction cloud (computeClient c) _ (world s)) as [[stopResp err] w1].
  destruct err as [msg |]; cbn [world calls].
  - eexists _, _. split; [reflexivity |].
    cbn [calls]. rewrite countCalls_app. cbn. lia.
  - destruct (GetInstance_op cloud (computeClient c) _ w1) as [[resp err] w2].
    eexists _, _. split; [reflexivity |].
    cbn [calls]. rewrite !countCalls_app. cbn. lia.
Qed.

(** [StartInstance] always returns. *)
Lemma StartInstance_returns (c : Client) (id : string) (s : St W) :
  exists err s1, StartInstance cloud c id s = Done err s1.
Proof.
  unfold StartInstance, bind, call.
  destruct (InstanceAction cloud (computeClient c) _ (world s)) as [[startResp err] w1].
  destruct err as [msg |]; cbn [world calls].
  - eexists _, _. reflexivity.
  - destruct (GetInstance_op cloud (computeClient c) _ w1) as [[resp err] w2].
    eexists _, _. reflexivity.
Qed.

End StopStart.

(** C4: [RestartInstance] runs [StopInstance], which returns and issues
    no Start action.  When Stop's error is not nil, Restart returns that
    error in the state Stop left, so Start is not invoked; when it is
    nil, Restart is [StartInstance] run from the state Stop left. *)
Theorem RestartInstance_stop_then_start :
  forall (W : Type) (cloud : Cloud W) (c : Client) (id : string) (s : St W),
    exists (stopErr : error) (s1 : St W),
      StopInstance cloud c id s = Done stopErr s1
      /\ countCalls isStartAction (calls s1) = countCalls isStartAction (calls s)
      /\ (stopErr <> None -> RestartInstance cloud c id s = Done stopErr s1)
      /\ (stopErr = None ->
          RestartInstance cloud c id s = StartInstance cloud c id s1).
Proof.
  intros W cloud c id s.
  destruct (StopInstance_returns cloud c id s) as [stopErr [s1 [Hstop Hcount]]].
  exists stopErr, s1.
  repeat split; try assumption.
  - intros Herr. unfold RestartInstance. rewrite (bind_Done _ _ _ _ _ Hstop).
    destruct stopErr; [reflexivity | congruence].
  - intros ->. unfold RestartInstance. rewrite (bind_Done _ _ _ _ _ Hstop).
    reflexivity.
Qed.

Lemma RestartInstance_stop_then_start_witness :
  RestartInstance
    (staticCloud examplePages (exampleDomains []) exampleLaunched exampleRunning
       exampleStopFails)
    exampleClient "ocid1.instance.i" s0
  = StopInstance
      (staticCloud examplePages (exampleDomains []) exampleLaunched exampleRunning
         exampleStopFails)
      exampleClient "ocid1.instance.i" s0
  /\ countCalls isStartAction
       (finalCalls
          (RestartInstance
             (staticCloud examplePages (exampleDomains []) exampleLaunched
                exampleRunning exampleStopFails)
             exampleClient "ocid1.instance.i" s0))
     = 0%nat.
Proof.
  destruct (RestartInstance_stop_then_start unit
              (staticCloud examplePages (exampleDomains []) exampleLaunched
                 exampleRunning exampleStopFails)
              exampleClient "ocid1.instance.i" s0)
    as [stopErr [s1 [Hstop [Hcount [Hfail _]]]]].
  rewrite Hstop.
  assert (Herr : stopErr <> None).
  { injection Hstop as <- _. discriminate. }
  rewrite (Hfail Herr). split; [reflexivity | exact Hcount].
Defined.

(** A restart whose Stop is refused: one Stop action in the log, no
    Start action, and Stop's error as the result. *)
Example RestartInstance_failing_stop :
  RestartInstance
    (staticCloud examplePages (exampleDomains []) exampleLaunched exampleRunning
       exampleStopFails)
    exampleClient "ocid1.instance.i" s0
  = Done (Some "409 Conflict")
      (mkSt tt [CallInstanceAction
                  (mkInstanceActionRequest (Some "ocid1.instance.i")
                     InstanceActionActionStop)]).
Proof. reflexivity. Qed.

(** A restart whose Stop succeeds: Stop and its poll, then Start and its
    poll. *)
Example RestartInstance_both :
  RestartInstance exampleCloud exampleClient "ocid1.instance.i" s0
  = Done None
      (mkSt tt
         [CallInstanceAction
            (mkInstanceActionRequest (Some "ocid1.instance.i") InstanceActionActionStop);
          CallGetInstance
            (mkGetInstanceRequest (Some "ocid1.instance.i")
               (common.CustomizedRetryPolicy pollUntilStopped));
          CallInstanceAction
            (mkInstanceActionRequest (Some "ocid1.instance.i") InstanceActionActionStart);
          CallGetInstance
            (mkGetInstanceRequest (Some "ocid1.instance.i")
               (common.CustomizedRetryPolicy pollUntilRunning))]).
Proof. reflexivity. Qed.

(** ** Image resolution: the scan over pages *)

Lemma find_app_first {A : Type} (f : A -> bool) (l1 l2 : list A) :
  find f (l1 ++ l2)%list
  = match find f l1 with
    | Some x => Some x
    | None => find f l2
    end.
Proof.
  induction l1 as [| a l1 IH]; cbn [app find]; [reflexivity |].
  destruct (f a); [reflexivity | exact IH].
Qed.

Lemma find_first_split {A : Type} (f : A -> bool) (l : list A) (x : A) :
  find f l = Some x ->
  exists before after,
    l = (before ++ x :: after)%list
    /\ Forall (fun y => f y = false) before
    /\ f x = true.
Proof.
  induction l as [| a l IH]; cbn [find]; [discriminate |].
  destruct (f a) eqn:Ha.
  - intros [= ->]. exists [], l. repeat split; [constructor | exact Ha].
  - intros Hfind. destruct (IH Hfind) as [before [after [-> [Hbefore Hx]]]].
    exists (a :: before), after. repeat split; [constructor; assumption | exact Hx].
Qed.

Lemma find_none_Forall {A : Type} (f : A -> bool) (l : list A) :
  Forall (fun y => f y = false) l -> find f l = None.
Proof.
  induction 1 as [| a l Ha _ IH]; cbn [find]; [reflexivity |].
  rewrite Ha. exact IH.
Qed.

Lemma find_Exists {A : Type} (f : A -> bool) (l : list A) :
  Exists (fun y => f y = true) l -> exists x, find f l = Some x.
Proof.
  induction 1 as [a l Ha | a l _ IH]; cbn [find].
  - rewrite Ha. eexists. reflexivity.
  - destruct (f a); [eexists; reflexivity | exact IH].
Qed.


Section ImageResolution.

Context {W : Type} (cloud : Cloud W) (c : Client).
Context (compartmentID nodeImageName : string).

(** One page: the inner loop returns the ID of the first item whose name
    matches, when every item has a name. *)
Lemma getImageID_items_find (items : list core.Image) (s : St W) :
  Forall hasDisplayName items ->
  getImageID_items (W := W) items nodeImageName s
  = Done (option_map core.Image_Id (find (nameMatches nodeImageName) items)) s.
Proof.
  induction 1 as [| image items Hname _ IH]; cbn [getImageID_items find];
    [reflexivity |].
  unfold hasDisplayName in Hname. unfold nameMatches at 1.
  destruct (core.Image_DisplayName image) as [name |]; [| congruence].
  unfold bind. cbn [deref ret].
  destruct (strings.EqualFold name nodeImageName); [reflexivity | exact IH].
Qed.

(** All pages: with fuel for every page, the outer loop returns the ID
    of the first match of the whole listing, or the not-found error
    after the last page. *)
Lemma getImageID_pages_find page w pages w' :
  listing cloud c compartmentID page w pages w' ->
  Forall hasDisplayName (imagesOf pages) ->
  forall log,
    match find (nameMatches nodeImageName) (imagesOf pages) with
    | Some image =>
        exists s',
          forall fuel, (List.length pages <= fuel)%nat ->
            getImageID_pages cloud fuel c compartmentID nodeImageName page (mkSt w log)
            = Done (core.Image_Id image, None) s'
    | None =>
        forall fuel, (List.length pages <= fuel)%nat ->
          getImageID_pages cloud fuel c compartmentID nodeImageName page (mkSt w log)
          = Done (None,
                  Some ("could not retrieve image id for an image named "
                        ++ nodeImageName))
              (mkSt w' (log ++ listCalls compartmentID pages)%list)
    end.
Proof.
  induction 1 as [page w items w' Hcall
                 | page w items next w' pages w'' Hcall Hrest IH];
    intros Hnames log.
  - (* the last page *)
    unfold imagesOf in *. cbn [flat_map snd] in *. rewrite app_nil_r in *.
    destruct (find (nameMatches nodeImageName) items) as [image |] eqn:Hfind.
    + eexists. intros [| fuel] Hfuel; [cbn in Hfuel; lia |].
      cbn [getImageID_pages]. unfold bind at 1.
      rewrite (call_Done _ _ (mkSt w log) _ _ Hcall).
      cbn [ListImages_Items]. unfold bind.
      rewrite (getImageID_items_find items _ Hnames), Hfind. reflexivity.
    + intros [| fuel] Hfuel; [cbn in Hfuel; lia |].
      cbn [getImageID_pages]. unfold bind at 1.
      rewrite (call_Done _ _ (mkSt w log) _ _ Hcall).
      cbn [ListImages_Items]. unfold bind.
      rewrite (getImageID_items_find items _ Hnames), Hfind. reflexivity.
  - (* a page with a next-page token *)
    unfold imagesOf in *. cbn [flat_map snd] in *.
    apply Forall_app in Hnames. destruct Hnames as [Hitems Hothers].
    rewrite find_app_first.
    destruct (find (nameMatches nodeImageName) items) as [image |] eqn:Hfind.
    + eexists. intros [| fuel] Hfuel; [cbn in Hfuel; lia |].
      cbn [getImageID_pages]. unfold bind at 1.
      rewrite (call_Done _ _ (mkSt w log) _ _ Hcall).
      cbn [ListImages_Items]. unfold bind.
      rewrite (getImageID_items_find items _ Hitems), Hfind. reflexivity.
    + specialize (IH Hothers
                    (log ++ [CallListImages (listImagesRequest compartmentID page)])%list).
      destruct (find (nameMatches nodeImageName) (flat_map snd pages)) as [image |].
      * destruct IH as [s' IH]. exists s'.
        intros [| fuel] Hfuel; [cbn in Hfuel; lia |].
        cbn [getImageID_pages]. unfold bind at 1.
        rewrite (call_Done _ _ (mkSt w log) _ _ Hcall).
        cbn [ListImages_Items ListImages_OpcNextPage world calls]. unfold bind.
        rewrite (getImageID_items_find items _ Hitems), Hfind.
        cbn [option_map]. apply IH. cbn in Hfuel. lia.
      * intros [| fuel] Hfuel; [cbn in Hfuel; lia |].
        cbn [getImageID_pages]. unfold bind at 1.
        rewrite (call_Done _ _ (mkSt w log) _ _ Hcall).
        cbn [ListImages_Items ListImages_OpcNextPage world calls]. unfold bind.
        rewrite (getImageID_items_find items _ Hitems), Hfind.
        cbn [option_map]. rewrite IH by (cbn in Hfuel; lia).
        unfold listCalls. cbn [map fst]. rewrite <- app_assoc. reflexivity.
Qed.

End ImageResolution.

(** *** The scan over Go's own [strings.EqualFold] *)

Section GoImageResolution.

Context {W : Type} (cloud : Cloud W) (EqualFold : string -> string -> bool).
Context (c : Client) (compartmentID nodeImageName : string).

(** One page: the inner loop stops at what the scan of the items meets
    first. *)
Lemma Go_getImageID_items_scan (items : list core.Image) (s : St W) :
  Go.getImageID_items (W := W) EqualFold items nodeImageName s
  = match Go.scan EqualFold nodeImageName items with
    | Go.Found image => Done (Some (core.Image_Id image)) s
    | Go.Nameless => Panicked "invalid memory address or nil pointer dereference" s
    | Go.NoMatch => Done None s
    end.
Proof.
  induction items as [| image items IH]; cbn [Go.getImageID_items Go.scan];
    [reflexivity |].
  unfold bind.
  destruct (core.Image_DisplayName image) as [name |]; cbn [deref ret];
    [| reflexivity].
  destruct (EqualFold name nodeImageName); [reflexivity | exact IH].
Qed.

Lemma Go_scan_app (l1 l2 : list core.Image) :
  Go.scan EqualFold nodeImageName (l1 ++ l2)%list
  = match Go.scan EqualFold nodeImageName l1 with
    | Go.NoMatch => Go.scan EqualFold nodeImageName l2
    | met => met
    end.
Proof.
  induction l1 as [| image l1 IH]; cbn [app Go.scan]; [reflexivity |].
  destruct (core.Image_DisplayName image) as [name |]; [| reflexivity].
  destruct (EqualFold name nodeImageName); [reflexivity | exact IH].
Qed.



Lemma Go_scan_NoMatch (l : list core.Image) :
  Forall hasDisplayName l ->
  Forall (fun image => Go.nameMatches EqualFold nodeImageName image = false) l ->
  Go.scan EqualFold nodeImageName l = Go.NoMatch.
Proof.
  induction l as [| a l IH]; intros Hnames Hnone; [reflexivity |].
  apply Forall_cons_iff in Hnames. destruct Hnames as [Ha Hnames].
  apply Forall_cons_iff in Hnone. destruct Hnone as [Hna Hnone].
  unfold hasDisplayName in Ha. unfold Go.nameMatches in Hna. cbn [Go.scan].
  destruct (core.Image_DisplayName a) as [name |]; [| congruence].
  rewrite Hna. apply IH; assumption.
Qed.

Lemma Go_scan_Found (before after : list core.Image) (image : core.Image) :
  Forall hasDisplayName before ->
  Forall (fun other => Go.nameMatches EqualFold nodeImageName other = false) before ->
  Go.nameMatches EqualFold nodeImageName image = true ->
  Go.scan EqualFold nodeImageName (before ++ image :: after)%list = Go.Found image.
Proof.
  intros Hnames Hnone Himage.
  rewrite Go_scan_app, (Go_scan_NoMatch before Hnames Hnone). cbn [Go.scan].
  unfold Go.nameMatches in Himage.
  destruct (core.Image_DisplayName image) as [name |]; [| discriminate].
  rewrite Himage. reflexivity.
Qed.

Lemma Go_scan_Nameless (before after : list core.Image) (image : core.Image) :
  Forall hasDisplayName before ->
  Forall (fun other => Go.nameMatches EqualFold nodeImageName other = false) before ->
  core.Image_DisplayName image = None ->
  Go.scan EqualFold nodeImageName (before ++ image :: after)%list = Go.Nameless.
Proof.
  intros Hnames Hnone Hnil.
  rewrite Go_scan_app, (Go_scan_NoMatch before Hnames Hnone). cbn [Go.scan].
  rewrite Hnil. reflexivity.
Qed.


(** Pages without a match are fetched one by one; the loop then stands
    at the token of the last of them. *)
Lemma Go_getImageID_pages_served page w pages last w1 :
  served cloud c compartmentID page w pages last w1 ->
  Forall hasDisplayName (imagesOf pages) ->
  Forall (fun image => Go.nameMatches EqualFold nodeImageName image = false)
    (imagesOf pages) ->
  forall fuel log,
    Go.getImageID_pages cloud EqualFold (List.length pages + fuel) c compartmentID
      nodeImageName page (mkSt w log)
    = Go.getImageID_pages cloud EqualFold fuel c compartmentID nodeImageName last
        (mkSt w1 (log ++ listCalls compartmentID pages)).
Proof.
  induction 1 as [page w | page w items next w' pages last w'' Hcall Hrest IH];
    intros Hnames Hnone fuel log.
  - cbn [List.length Nat.add listCalls map]. rewrite app_nil_r. reflexivity.
  - unfold imagesOf in *. cbn [flat_map snd] in *.
    apply Forall_app in Hnames. destruct Hnames as [Hitems Hothers].
    apply Forall_app in Hnone. destruct Hnone as [Hnone_items Hnone_others].
    cbn [List.length Nat.add Go.getImageID_pages]. unfold bind at 1.
    rewrite (call_Done _ _ (mkSt w log) _ _ Hcall).
    cbn [ListImages_Items ListImages_OpcNextPage world calls]. unfold bind.
    rewrite Go_getImageID_items_scan, (Go_scan_NoMatch items Hitems Hnone_items).
    rewrite (IH Hothers Hnone_others).
    unfold listCalls. cbn [map fst]. rewrite <- app_assoc. reflexivity.
Qed.

Lemma Go_getImageID_nonempty fuel (s : St W) :
  compartmentID <> "" ->
  nodeImageName <> "" ->
  Go.getImageID cloud EqualFold fuel c compartmentID nodeImageName s
  = Go.getImageID_pages cloud EqualFold fuel c compartmentID nodeImageName None s.
Proof.
  intros Hcid Hname. unfold Go.getImageID.
  apply string_isEmpty_false in Hcid. apply string_isEmpty_false in Hname.
  rewrite Hcid, Hname. reflexivity.
Qed.

End GoImageResolution.

(** The client's lookup above is the one over the ASCII
    [strings.EqualFold]. *)
Lemma getImageID_items_Go {W : Type} (items : list core.Image)
    (nodeImageName : string) (s : St W) :
  getImageID_items items nodeImageName s
  = Go.getImageID_items strings.EqualFold items nodeImageName s.
Proof. reflexivity. Qed.

Lemma getImageID_pages_Go {W : Type} (cloud : Cloud W) (fuel : nat) (c : Client)
    (compartmentID nodeImageName : string) (page : option string) (s : St W) :
  getImageID_pages cloud fuel c compartmentID nodeImageName page s
  = Go.getImageID_pages cloud strings.EqualFold fuel c compartmentID nodeImageName
      page s.
Proof. reflexivity. Qed.

Lemma getImageID_Go {W : Type} (cloud : Cloud W) (fuel : nat) (c : Client)
    (compartmentID nodeImageName : string) (s : St W) :
  getImageID cloud fuel c compartmentID nodeImageName s
  = Go.getImageID cloud strings.EqualFold fuel c compartmentID nodeImageName s.
Proof. reflexivity. Qed.







(** The run behind the example: the newer of the two images named
    Oracle-Linux-7.7 is returned after one [ListImages] call. *)
Example getImageID_example_newest :
  getImageID exampleCloud 2 exampleClient "ocid1.compartment.c" "oracle-linux-7.7" s0
  = Done (Some "ocid1.image.new", None)
      (mkSt tt [CallListImages (listImagesRequest "ocid1.compartment.c" None)]).
Proof. reflexivity. Qed.




(** ** Availability-domain resolution *)

Section GoAvailabilityDomain.

Context {W : Type} (ToUpper : string -> string).





End GoAvailabilityDomain.

(** The client's request builder above is the one over the ASCII
    [strings.EqualFold] and [strings.ToUpper]. *)
Lemma createReqForOCi_Go {W : Type} (cloud : Cloud W) (fuel : nat) (c : Client)
    (displayName availabilityDomain compartmentID nodeShape nodeImageName
       nodeSubnetID authorizedKeys : string) (s : St W) :
  createReqForOCi cloud fuel c displayName availabilityDomain compartmentID
    nodeShape nodeImageName nodeSubnetID authorizedKeys s
  = Go.createReqForOCi cloud strings.EqualFold strings.ToUpper fuel c displayName
      availabilityDomain compartmentID nodeShape nodeImageName nodeSubnetID
      authorizedKeys s.
Proof. reflexivity. Qed.

Lemma chainedMatch_Go (names : list string) (requested : string) :
  chainedMatch names requested = Go.chainedMatch strings.ToUpper names requested.
Proof. reflexivity. Qed.



(** A listing whose second domain has no name: the request builder
    panics after the one call that lists the domains. *)
Example createReqForOCi_nameless_domain :
  createReqForOCi
    (staticCloud examplePages exampleDomainsNameless exampleLaunched exampleRunning
       exampleActionOk)
    2 exampleClient "oci-node-driver-node1" "AD-1" "ocid1.compartment.c"
    "VM.Standard2.1" defaultImage "ocid1.subnet.s" "ssh-rsa AAAA" s0
  = Panicked "invalid memory address or nil pointer dereference"
      (mkSt tt [CallListAvailabilityDomains
                  (identity.mkListAvailabilityDomainsRequest
                     (Some "ocid1.compartment.c"))]).
Proof. reflexivity. Qed.


(** The specification's two examples hold on the code. *)
Example chainedMatch_AD1 :
  chainedMatch ["xx-region-AD-1"; "xx-region-AD-2"] "AD-1" = "xx-region-AD-1".
Proof. reflexivity. Qed.

Example chainedMatch_AD9 :
  chainedMatch ["xx-region-AD-1"; "xx-region-AD-2"] "AD-9" = "AD-9".
Proof. reflexivity. Qed.

(** A later name replaces the first match when it contains the first
    match's uppercase form. *)
Example chainedMatch_chain :
  chainedMatch ["PHX-AD-1"; "PHX-AD-10"] "ad-1" = "PHX-AD-10".
Proof. reflexivity. Qed.

(** ** Instance launch *)

Section Launch.

Context {W : Type} (cloud : Cloud W).

(** On the rover path, a failed image resolution is not passed on: the
    zero request goes to [LaunchInstance]. *)
Lemma CreateInstance_rover_launches_zero_request
    (fuel : nat) (c : Client) (d : Driver) (authorizedKeys : string) (s : St W)
    (imageID : option string) (msg : string) (s1 : St W) :
  IsRover d = true ->
  getImageID cloud fuel c (NodeCompartmentID d) (Image d) s
  = Done (imageID, Some msg) s1 ->
  In (CallLaunchInstance LaunchInstanceRequest_zero)
     (finalCalls (CreateInstance cloud fuel c d authorizedKeys s)).
Proof.
  intros Hrover Hresolve.
  assert (Hrequest :
    createReqForRover cloud fuel c (defaultNodeNamePfx ++ MachineName_of d)
      (AvailabilityDomain d) (NodeCompartmentID d) (Shape d) (Image d)
      (SubnetID d) authorizedKeys s
    = Done (None, LaunchInstanceRequest_zero) s1).
  { unfold createReqForRover. rewrite (bind_Done _ _ _ _ _ Hresolve). reflexivity. }
  unfold CreateInstance. rewrite Hrover.
  rewrite (bind_Done _ _ _ _ _ Hrequest). unfold bind, ret, call.
  destruct (LaunchInstance cloud (computeClient c) LaunchInstanceRequest_zero (world s1))
    as [[createResp err] w2].
  destruct err as [e |]; cbn [finalCalls calls world].
  - apply in_or_app. right. left. reflexivity.
  - destruct (GetInstance_op cloud (computeClient c) _ w2) as [[resp pollError] w3].
    destruct pollError as [e |]; cbn [finalCalls calls].
    + apply in_or_app. left. apply in_or_app. right. left. reflexivity.
    + destruct (core.Instance_Id (core.GetResp_Instance resp));
        cbn [deref ret panic finalCalls calls];
        apply in_or_app; left; apply in_or_app; right; left; reflexivity.
Qed.

(** When the request is built, the launch is accepted and the polling
    read fails, the result is the empty ID with the error variable of
    the launch, which is nil. *)
Lemma CreateInstance_poll_error_dropped
    (fuel : nat) (c : Client) (d : Driver) (authorizedKeys : string) (s : St W)
    (request : LaunchInstanceRequest) (s1 : St W)
    (createResp : LaunchInstanceResponse) (w2 : W)
    (resp : core.GetInstanceResponse) (msg : string) (w3 : W) :
  (if IsRover d
   then createReqForRover cloud fuel c (defaultNodeNamePfx ++ MachineName_of d)
          (AvailabilityDomain d) (NodeCompartmentID d) (Shape d) (Image d)
          (SubnetID d) authorizedKeys
   else createReqForOCi cloud fuel c (defaultNodeNamePfx ++ MachineName_of d)
          (AvailabilityDomain d) (NodeCompartmentID d) (Shape d) (Image d)
          (SubnetID d) authorizedKeys) s
  = Done (None, request) s1 ->
  LaunchInstance cloud (computeClient c) request (world s1) = (createResp, None, w2) ->
  GetInstance_op cloud (computeClient c)
    (mkGetInstanceRequest (core.Instance_Id (LaunchResp_Instance createResp))
       (common.CustomizedRetryPolicy pollUntilRunning)) w2
  = (resp, Some msg, w3) ->
  CreateInstance cloud fuel c d authorizedKeys s
  = Done ("", None)
      (mkSt w3
         (calls s1 ++
          [CallLaunchInstance request;
           CallGetInstance
             (mkGetInstanceRequest (core.Instance_Id (LaunchResp_Instance createResp))
                (common.CustomizedRetryPolicy pollUntilRunning))])).
Proof.
  intros Hrequest Hlaunch Hpoll. unfold CreateInstance.
  rewrite (bind_Done _ _ _ _ _ Hrequest).
  rewrite (bind_Done _ _ _ _ _ (call_Done _ _ s1 _ _ Hlaunch)).
  unfold bind, call. cbn [world calls]. rewrite Hpoll.
  rewrite <- app_assoc. reflexivity.
Qed.

End Launch.

(** C1 fails on the code.  In rover mode, with an image name that no
    listed image carries, [getImageID] fails with its not-found error;
    [CreateInstance] then submits the zero launch request, polls, and
    returns the new instance's ID with a nil error. *)
Theorem CreateInstance_failed_resolution_still_launches :
  getImageID exampleCloud 2 exampleClient "ocid1.compartment.c" "CentOS-7" s0
  = Done (None, Some "could not retrieve image id for an image named CentOS-7")
      (mkSt tt [CallListImages (listImagesRequest "ocid1.compartment.c" None);
                CallListImages (listImagesRequest "ocid1.compartment.c" (Some "p2"))])
  /\ CreateInstance exampleCloud 2 exampleClient (exampleDriver "CentOS-7" true)
       "ssh-rsa AAAA" s0
     = Done ("ocid1.instance.n", None)
         (mkSt tt [CallListImages (listImagesRequest "ocid1.compartment.c" None);
                   CallListImages (listImagesRequest "ocid1.compartment.c" (Some "p2"));
                   CallLaunchInstance LaunchInstanceRequest_zero;
                   CallGetInstance
                     (mkGetInstanceRequest (Some "ocid1.instance.n")
                        (common.CustomizedRetryPolicy pollUntilRunning))]).
Proof. split; reflexivity. Qed.

(** The same outside rover mode, after the availability domains are
    listed. *)
Example CreateInstance_failed_resolution_still_launches_oci :
  CreateInstance exampleCloud 2 exampleClient (exampleDriver "CentOS-7" false)
    "ssh-rsa AAAA" s0
  = Done ("ocid1.instance.n", None)
      (mkSt tt [CallListAvailabilityDomains
                  (identity.mkListAvailabilityDomainsRequest (Some "ocid1.compartment.c"));
                CallListImages (listImagesRequest "ocid1.compartment.c" None);
                CallListImages (listImagesRequest "ocid1.compartment.c" (Some "p2"));
                CallLaunchInstance LaunchInstanceRequest_zero;
                CallGetInstance
                  (mkGetInstanceRequest (Some "ocid1.instance.n")
                     (common.CustomizedRetryPolicy pollUntilRunning))]).
Proof. reflexivity. Qed.

(** Against a service that rejects the zero request, the error returned
    is the service's, not the resolution error; the launch was still
    submitted. *)
Example CreateInstance_failed_resolution_rejected_launch :
  CreateInstance
    (staticCloud examplePages (exampleDomains []) exampleLaunchRejected exampleRunning
       exampleActionOk)
    2 exampleClient (exampleDriver "CentOS-7" true) "ssh-rsa AAAA" s0
  = Done ("", Some "400 InvalidParameter")
      (mkSt tt [CallListImages (listImagesRequest "ocid1.compartment.c" None);
                CallListImages (listImagesRequest "ocid1.compartment.c" (Some "p2"));
                CallLaunchInstance LaunchInstanceRequest_zero]).
Proof. reflexivity. Qed.

(** The empty image name fails validation, and the launch is submitted
    all the same. *)
Example CreateInstance_empty_image_still_launches :
  CreateInstance exampleCloud 0 exampleClient (exampleDriver "" true) "ssh-rsa AAAA" s0
  = Done ("ocid1.instance.n", None)
      (mkSt tt [CallLaunchInstance LaunchInstanceRequest_zero;
                CallGetInstance
                  (mkGetInstanceRequest (Some "ocid1.instance.n")
                     (common.CustomizedRetryPolicy pollUntilRunning))]).
Proof. reflexivity. Qed.

(** C2 fails on the code.  The image resolves, the launch is accepted
    and the polling read fails with "503 Service Unavailable";
    [CreateInstance] returns the empty ID with a nil error, after one
    launch. *)
Theorem CreateInstance_poll_failure_returns_nil_error :
  exists s' : St unit,
    CreateInstance
      (staticCloud examplePages (exampleDomains ["xx-region-AD-1"; "xx-region-AD-2"])
         exampleLaunched exampleReadFails exampleActionOk)
      2 exampleClient (exampleDriver defaultImage true) "ssh-rsa AAAA" s0
    = Done ("", None) s'
    /\ List.map isLaunchInstance (calls s') = [false; true; false]
    /\ last (calls s') (CallReadFile "")
       = CallGetInstance
           (mkGetInstanceRequest (Some "ocid1.instance.n")
              (common.CustomizedRetryPolicy pollUntilRunning))
    /\ snd (exampleReadFails
              (mkGetInstanceRequest (Some "ocid1.instance.n")
                 (common.CustomizedRetryPolicy pollUntilRunning)))
       = Some "503 Service Unavailable".
Proof.
  eexists. split; [vm_compute; reflexivity |].
  repeat split; reflexivity.
Qed.

(** ** Pre-create check *)

(** C9: in rover mode [PreCreateCheck] returns nil at once and leaves
    the world and the call log as they were.  The image name configured
    in the driver has no influence on the check.  Outside rover mode,
    once the client is built, the check looks up the name
    "Oracle-Linux-7.7" in the node compartment: it returns the error of
    that lookup when there is one, and nil when the lookup gives a
    non-empty image ID. *)
Theorem PreCreateCheck_default_image :
  forall (W : Type) (cloud : Cloud W) (fuel : nat) (d : Driver) (s : St W),
    (IsRover d = true -> PreCreateCheck cloud fuel d s = Done None s)
    /\ (forall image : string,
           PreCreateCheck cloud fuel (set_Image d image) s
           = PreCreateCheck cloud fuel d s)
    /\ (IsRover d = false ->
        forall (oci : Client) (s1 : St W),
          initOCIClient cloud d s = Done (oci, None) s1 ->
          (forall imageID msg s2,
              getImageID cloud fuel oci (NodeCompartmentID d) "Oracle-Linux-7.7" s1
              = Done (imageID, Some msg) s2 ->
              PreCreateCheck cloud fuel d s = Done (Some msg) s2)
          /\ (forall imageID s2,
                 getImageID cloud fuel oci (NodeCompartmentID d) "Oracle-Linux-7.7" s1
                 = Done (Some imageID, None) s2 ->
                 imageID <> "" ->
                 PreCreateCheck cloud fuel d s = Done None s2)).
Proof.
  intros W cloud fuel d s. split; [| split].
  - intros Hrover. unfold PreCreateCheck. rewrite Hrover. reflexivity.
  - intros image. reflexivity.
  - intros Hrover oci s1 Hinit. unfold PreCreateCheck. rewrite Hrover.
    rewrite (bind_Done _ _ _ _ _ Hinit). unfold defaultImage. split.
    + intros imageID msg s2 Hlookup. rewrite (bind_Done _ _ _ _ _ Hlookup).
      reflexivity.
    + intros imageID s2 Hlookup Hid. rewrite (bind_Done _ _ _ _ _ Hlookup).
      unfold bind. cbn [deref ret].
      destruct imageID as [| ch rest]; [congruence | reflexivity].
Qed.

Lemma PreCreateCheck_default_image_witness :
  PreCreateCheck exampleCloud 2 (exampleDriver "CentOS-7" false) s0
  = Done None (mkSt tt [CallListImages (listImagesRequest "ocid1.compartment.c" None)])
  /\ PreCreateCheck exampleCloud 2 (exampleDriver "CentOS-7" true) s0 = Done None s0.
Proof.
  split.
  - destruct (PreCreateCheck_default_image unit exampleCloud 2
                (exampleDriver "CentOS-7" false) s0) as [_ [_ Hcheck]].
    destruct (Hcheck eq_refl exampleClient s0 eq_refl) as [_ Hfound].
    apply (Hfound "ocid1.image.new"); [reflexivity | discriminate].
  - destruct (PreCreateCheck_default_image unit exampleCloud 2
                (exampleDriver "CentOS-7" true) s0) as [Hrover _].
    apply Hrover. reflexivity.
Defined.

(** A driver configured with an image the compartment does not list
    passes the check, because "Oracle-Linux-7.7" is listed. *)
Example PreCreateCheck_ignores_configured_image :
  PreCreateCheck exampleCloud 2 (exampleDriver "CentOS-7" false) s0
  = Done None (mkSt tt [CallListImages (listImagesRequest "ocid1.compartment.c" None)]).
Proof. reflexivity. Qed.

(** A driver configured with a listed image fails the check when
    "Oracle-Linux-7.7" is not listed. *)
Example PreCreateCheck_fails_without_default_image :
  PreCreateCheck
    (staticCloud (fun _ => (mkListImagesResponse [imageUbuntu] None, None))
       (exampleDomains []) exampleLaunched exampleRunning exampleActionOk)
    2 (exampleDriver "Canonical-Ubuntu-18.04" false) s0
  = Done (Some "could not retrieve image id for an image named Oracle-Linux-7.7")
      (mkSt tt [CallListImages (listImagesRequest "ocid1.compartment.c" None)]).
Proof. reflexivity. Qed.

Example PreCreateCheck_rover :
  PreCreateCheck exampleCloud 0 (exampleDriver "CentOS-7" true) s0 = Done None s0.
Proof. reflexivity. Qed.

(** ** SSH port, SSH user and URL *)

Section Flags.

Context {W : Type} (cloud : Cloud W).

(** What [SetConfigFromFlags] leaves in the driver when it succeeds. *)
Lemma SetConfigFromFlags_ssh (d0 : Driver) (flags : DriverOptions) (s0' : St W)
    (d : Driver) (s : St W) :
  SetConfigFromFlags cloud d0 flags s0' = Done (d, None) s ->
  SSHPort (BaseDriver_ d) = flags_Int flags "oci-ssh-port"
  /\ SSHUser (BaseDriver_ d) = flags_String flags "oci-ssh-user"
  /\ Image d = flags_String flags "oci-node-image".
Proof.
  unfold SetConfigFromFlags, errors_New.
  repeat match goal with
         | |- context [if string_isEmpty ?x then ret (_, Some _) else _] =>
             destruct (string_isEmpty x); [unfold ret; intros H; discriminate H |]
         | |- context [if (string_isEmpty ?x && string_isEmpty ?y)%bool
                       then ret (_, Some _) else _] =>
             destruct (string_isEmpty x && string_isEmpty y)%bool;
             [unfold ret; intros H; discriminate H |]
         end.
  unfold bind, call, ret.
  repeat match goal with
         | |- context [if ?b then _ else _] => destruct b
         | |- context [ReadFile cloud ?p ?w] =>
             destruct (ReadFile cloud p w) as [[? [? |]] ?]
         end.
  all: intros [= <- <-]; repeat split; reflexivity.
Qed.

(** The address [GetIP] returns without error is the one the driver
    holds afterwards. *)
Lemma GetIP_cached (d : Driver) (s : St W) (d1 : Driver) (ip : string) (s1 : St W) :
  GetIP cloud d s = Done (d1, (ip, None)) s1 -> ip = IPAddress_of d1.
Proof.
  unfold GetIP.
  destruct (string_isEmpty (IPAddress_of d)).
  - unfold bind at 1.
    destruct (initOCIClient cloud d s) as [[oci [e |]] s2 | msg s2 |];
      try (intros H; discriminate H).
    unfold bind at 1.
    destruct (GetInstanceIP cloud oci (InstanceID d) (NodeCompartmentID d) s2)
      as [[ip' [e |]] s3 | msg s3 |]; try (intros H; discriminate H).
    intros [= <- <- <-]. reflexivity.
  - intros [= <- <- <-]. reflexivity.
Qed.

(** [GetIP] neither reads nor writes the DockerPort field. *)
Lemma GetIP_DockerPort (d : Driver) (port : Z) (s : St W) :
  GetIP cloud (set_DockerPort d port) s
  = match GetIP cloud d s with
    | Done (d', result) s' => Done (set_DockerPort d' port, result) s'
    | Panicked msg s' => Panicked msg s'
    | OutOfFuel => OutOfFuel
    end.
Proof.
  unfold GetIP.
  change (IPAddress_of (set_DockerPort d port)) with (IPAddress_of d).
  destruct (string_isEmpty (IPAddress_of d)); [| reflexivity].
  change (initOCIClient cloud (set_DockerPort d port)) with (initOCIClient cloud d).
  change (InstanceID (set_DockerPort d port)) with (InstanceID d).
  change (NodeCompartmentID (set_DockerPort d port)) with (NodeCompartmentID d).
  unfold bind.
  destruct (initOCIClient cloud d s) as [[oci [e |]] s1 | msg s1 |]; try reflexivity.
  destruct (GetInstanceIP cloud oci (InstanceID d) (NodeCompartmentID d) s1)
    as [[ip [e |]] s2 | msg s2 |]; reflexivity.
Qed.

End Flags.

(** C10: whatever the driver holds, [GetSSHPort] returns 22 with a nil
    error and [GetSSHUsername] returns "opc", also after the fields
    SSHPort and SSHUser have been assigned and after a successful
    [SetConfigFromFlags] has stored the flags' values in them.  A URL
    that [GetURL] returns is "tcp://", the driver's IP address and
    ":2376"; assigning the DockerPort field changes nothing but that
    field in the driver handed back.  [GetURL] does return that URL:
    when [GetIP] gives an address that is not empty, and so whenever the
    driver holds one, the result is "tcp://", the address and ":2376"
    with a nil error, whatever the DockerPort field is; when [GetIP]
    fails the result is the empty string with its error, and when it
    gives the empty address the result is the empty string with a nil
    error. *)
Theorem ssh_and_url_constants :
  forall (W : Type) (cloud : Cloud W) (d : Driver) (s : St W),
    GetSSHPort d = (22, None)
    /\ GetSSHUsername d = "opc"
    /\ (forall port user,
           GetSSHPort (set_SSHPort d port) = (22, None)
           /\ GetSSHUsername (set_SSHUser d user) = "opc")
    /\ (forall flags s' d' s'',
           SetConfigFromFlags cloud d flags s' = Done (d', None) s'' ->
           SSHPort (BaseDriver_ d') = flags_Int flags "oci-ssh-port"
           /\ SSHUser (BaseDriver_ d') = flags_String flags "oci-ssh-user"
           /\ GetSSHPort d' = (22, None)
           /\ GetSSHUsername d' = "opc")
    /\ (forall d' url s',
           GetURL cloud d s = Done (d', (url, None)) s' ->
           url <> "" ->
           url = "tcp://" ++ IPAddress_of d' ++ ":2376")
    /\ (forall port,
           GetURL cloud (set_DockerPort d port) s
           = match GetURL cloud d s with
             | Done (d', result) s' => Done (set_DockerPort d' port, result) s'
             | Panicked msg s' => Panicked msg s'
             | OutOfFuel => OutOfFuel
             end)
    /\ (forall d1 ip s1,
           GetIP cloud d s = Done (d1, (ip, None)) s1 ->
           ip <> "" ->
           GetURL cloud d s = Done (d1, ("tcp://" ++ ip ++ ":2376", None)) s1)
    /\ (forall port,
           IPAddress_of d <> "" ->
           GetURL cloud (set_DockerPort d port) s
           = Done (set_DockerPort d port,
                   ("tcp://" ++ IPAddress_of d ++ ":2376", None)) s)
    /\ (forall d1 ip e s1,
           GetIP cloud d s = Done (d1, (ip, Some e)) s1 ->
           GetURL cloud d s = Done (d1, ("", Some e)) s1)
    /\ (forall d1 s1,
           GetIP cloud d s = Done (d1, ("", None)) s1 ->
           GetURL cloud d s = Done (d1, ("", None)) s1).
Proof.
  intros W cloud d s.
  split; [reflexivity |]. split; [reflexivity |].
  split; [intros port user; split; reflexivity |].
  split.
  { intros flags s' d' s'' Hset.
    destruct (SetConfigFromFlags_ssh cloud d flags s' d' s'' Hset) as [Hport [Huser _]].
    repeat split; assumption. }
  split.
  { intros d' url s' Hrun Hurl. unfold GetURL in Hrun. unfold bind in Hrun.
    destruct (GetIP cloud d s) as [[d1 [ip [e |]]] s1 | msg s1 |] eqn:Hip;
      try discriminate Hrun.
    apply GetIP_cached in Hip. cbn [ret] in Hrun.
    destruct (string_isEmpty ip); injection Hrun as <- <- <-;
      [congruence | rewrite Hip; reflexivity]. }
  split.
  { intros port. unfold GetURL. unfold bind at 1 2.
    rewrite GetIP_DockerPort.
    destruct (GetIP cloud d s) as [[d1 [ip [e |]]] s1 | msg s1 |]; try reflexivity.
    cbn [ret]. destruct (string_isEmpty ip); reflexivity. }
  assert (Hbuilt : forall (d0 d1 : Driver) (ip : string) (s1 : St W),
            GetIP cloud d0 s = Done (d1, (ip, None)) s1 ->
            ip <> "" ->
            GetURL cloud d0 s = Done (d1, ("tcp://" ++ ip ++ ":2376", None)) s1).
  { intros d0 d1 ip s1 Hip Hne. unfold GetURL.
    rewrite (bind_Done _ _ _ _ _ Hip).
    apply string_isEmpty_false in Hne. rewrite Hne. reflexivity. }
  split; [exact (Hbuilt d) |].
  split.
  { intros port Hne. apply (Hbuilt (set_DockerPort d port)); [| exact Hne].
    unfold GetIP. change (IPAddress_of (set_DockerPort d port)) with (IPAddress_of d).
    apply string_isEmpty_false in Hne. rewrite Hne. reflexivity. }
  split.
  { intros d1 ip e s1 Hip. unfold GetURL.
    rewrite (bind_Done _ _ _ _ _ Hip). reflexivity. }
  intros d1 s1 Hip. unfold GetURL.
  rewrite (bind_Done _ _ _ _ _ Hip). reflexivity.
Qed.

(** On the example: the SSH port and user are the constants after the
    fields were assigned 2222 and "ubuntu", and with DockerPort set to
    9999 [GetURL] looks the address up and returns it with port 2376. *)
Lemma ssh_and_url_constants_witness :
  GetSSHPort (set_SSHPort (exampleDriver defaultImage false) 2222) = (22, None)
  /\ GetSSHUsername (set_SSHUser (exampleDriver defaultImage false) "ubuntu") = "opc"
  /\ snd (GetSSHPort (exampleDriver defaultImage false)) = None
  /\ GetURL exampleCloud (set_DockerPort (exampleDriver defaultImage false) 9999) s0
     = Done (set_IPAddress (set_DockerPort (exampleDriver defaultImage false) 9999)
               "203.0.113.7",
             ("tcp://203.0.113.7:2376", None))
         (mkSt tt [CallListVnicAttachments
                     (mkListVnicAttachmentsRequest (Some "ocid1.instance.i")
                        (Some "ocid1.compartment.c"));
                   CallGetVnic (mkGetVnicRequest (Some "ocid1.vnic.a"))])
  /\ GetURL exampleCloud
       (set_DockerPort (set_IPAddress (exampleDriver defaultImage false) "198.51.100.4")
          9999) s0
     = Done (set_DockerPort
               (set_IPAddress (exampleDriver defaultImage false) "198.51.100.4") 9999,
             ("tcp://198.51.100.4:2376", None)) s0.
Proof.
  destruct (ssh_and_url_constants unit exampleCloud (exampleDriver defaultImage false) s0)
    as [Hport [_ [Hset _]]].
  destruct (Hset 2222 "ubuntu") as [Hport' Huser'].
  split; [exact Hport' |]. split; [exact Huser' |].
  split; [rewrite Hport; reflexivity |].
  split.
  - destruct (ssh_and_url_constants unit exampleCloud
                (set_DockerPort (exampleDriver defaultImage false) 9999) s0)
      as [_ [_ [_ [_ [_ [_ [Hurl _]]]]]]].
    apply (Hurl (set_IPAddress (set_DockerPort (exampleDriver defaultImage false) 9999)
                   "203.0.113.7")
             "203.0.113.7"
             (mkSt tt [CallListVnicAttachments
                         (mkListVnicAttachmentsRequest (Some "ocid1.instance.i")
                            (Some "ocid1.compartment.c"));
                       CallGetVnic (mkGetVnicRequest (Some "ocid1.vnic.a"))])).
    + vm_compute. reflexivity.
    + discriminate.
  - destruct (ssh_and_url_constants unit exampleCloud
                (set_IPAddress (exampleDriver defaultImage false) "198.51.100.4") s0)
      as [_ [_ [_ [_ [_ [_ [_ [Hheld _]]]]]]]].
    apply (Hheld 9999). discriminate.
Defined.

Example GetURL_example :
  exists d' : Driver,
    GetURL exampleCloud (set_DockerPort (exampleDriver defaultImage false) 9999) s0
    = Done (d', ("tcp://203.0.113.7:2376", None))
        (mkSt tt [CallListVnicAttachments
                    (mkListVnicAttachmentsRequest (Some "ocid1.instance.i")
                       (Some "ocid1.compartment.c"));
                  CallGetVnic (mkGetVnicRequest (Some "ocid1.vnic.a"))])
    /\ DockerPort d' = 9999.
Proof. eexists. split; reflexivity. Qed.

(** * Further properties of the code *)

(** ** Image resolution: errors, early stop, nameless images *)

Lemma getImageID_nonempty {W : Type} (cloud : Cloud W) fuel c
    (compartmentID nodeImageName : string) (s : St W) :
  compartmentID <> "" ->
  nodeImageName <> "" ->
  getImageID cloud fuel c compartmentID nodeImageName s
  = getImageID_pages cloud fuel c compartmentID nodeImageName None s.
Proof.
  intros Hcid Hname. unfold getImageID.
  apply string_isEmpty_false in Hcid. apply string_isEmpty_false in Hname.
  rewrite Hcid, Hname. reflexivity.
Qed.

(** X1: whatever [strings.EqualFold] does, when the pages before it were
    served without error, each of their images with a display name that
    does not match, and a [ListImages] call fails, [getImageID] returns
    the error of that call with a nil ID; the failed call is the last
    one it makes. *)
Theorem getImageID_list_error :
  forall (W : Type) (cloud : Cloud W) (EqualFold : string -> string -> bool)
         (c : Client) (compartmentID nodeImageName : string) (s : St W)
         (pages : list (option string * list core.Image)) (page : option string)
         (w1 : W) (r : ListImagesResponse) (msg : string) (w2 : W),
    compartmentID <> "" ->
    nodeImageName <> "" ->
    served cloud c compartmentID None (world s) pages page w1 ->
    Forall hasDisplayName (imagesOf pages) ->
    Forall (fun image => Go.nameMatches EqualFold nodeImageName image = false)
      (imagesOf pages) ->
    ListImages cloud (computeClient c) (listImagesRequest compartmentID page) w1
      = (r, Some msg, w2) ->
    forall fuel, (List.length pages < fuel)%nat ->
      Go.getImageID cloud EqualFold fuel c compartmentID nodeImageName s
      = Done (None, Some msg)
          (mkSt w2 (calls s ++ listCalls compartmentID pages
                    ++ [CallListImages (listImagesRequest compartmentID page)])%list).
Proof.
  intros W cloud EqualFold c compartmentID nodeImageName s pages page w1 r msg w2
    Hcid Hname Hserved Hnames Hnone Hcall fuel Hfuel.
  rewrite (Go_getImageID_nonempty cloud EqualFold c _ _ fuel s Hcid Hname).
  destruct s as [w log]. cbn [world calls] in *.
  replace fuel with (List.length pages + S (fuel - S (List.length pages)))%nat by lia.
  rewrite (Go_getImageID_pages_served cloud EqualFold c compartmentID nodeImageName
             None w pages page w1 Hserved Hnames Hnone).
  cbn [Go.getImageID_pages]. unfold bind.
  rewrite (call_Done _ _ (mkSt w1 _) _ _ Hcall).
  cbn [calls]. rewrite <- app_assoc. reflexivity.
Qed.

Lemma examplePagesThenError_served :
  served (exampleCloudWithImages examplePagesThenError) exampleClient
    "ocid1.compartment.c" None tt [(None, [imageUbuntu])] (Some "p2") tt.
Proof.
  eapply served_more; [reflexivity |]. apply served_none.
Defined.

Lemma getImageID_list_error_witness :
  Go.getImageID (exampleCloudWithImages examplePagesThenError) strings.EqualFold 2
    exampleClient "ocid1.compartment.c" defaultImage s0
  = Done (None, Some "500 InternalError")
      (mkSt tt [CallListImages (listImagesRequest "ocid1.compartment.c" None);
                CallListImages (listImagesRequest "ocid1.compartment.c" (Some "p2"))]).
Proof.
  apply (getImageID_list_error unit (exampleCloudWithImages examplePagesThenError)
           strings.EqualFold exampleClient "ocid1.compartment.c" defaultImage s0
           [(None, [imageUbuntu])] (Some "p2") tt (mkListImagesResponse [] None)
           "500 InternalError" tt).
  - discriminate.
  - discriminate.
  - exact examplePagesThenError_served.
  - repeat constructor; discriminate.
  - repeat constructor.
  - reflexivity.
  - cbn. lia.
Defined.

(** X2: whatever [strings.EqualFold] does, when the pages before it were
    served without error, each of their images with a display name that
    does not match, and on the next page an image matches after images
    that have display names, none matching, [getImageID] returns the ID
    of that image; that page is the last it asks for, whether or not the
    answer carries a next-page token, and what follows the image on the
    page is not looked at. *)
Theorem getImageID_stops_at_match :
  forall (W : Type) (cloud : Cloud W) (EqualFold : string -> string -> bool)
         (c : Client) (compartmentID nodeImageName : string) (s : St W)
         (pages : list (option string * list core.Image)) (page : option string)
         (w1 : W) (before : list core.Image) (image : core.Image)
         (after : list core.Image) (next : option string) (w2 : W),
    compartmentID <> "" ->
    nodeImageName <> "" ->
    served cloud c compartmentID None (world s) pages page w1 ->
    Forall hasDisplayName (imagesOf pages) ->
    Forall (fun other => Go.nameMatches EqualFold nodeImageName other = false)
      (imagesOf pages) ->
    ListImages cloud (computeClient c) (listImagesRequest compartmentID page) w1
      = (mkListImagesResponse (before ++ image :: after) next, None, w2) ->
    Forall hasDisplayName before ->
    Forall (fun other => Go.nameMatches EqualFold nodeImageName other = false) before ->
    Go.nameMatches EqualFold nodeImageName image = true ->
    forall fuel, (List.length pages < fuel)%nat ->
      Go.getImageID cloud EqualFold fuel c compartmentID nodeImageName s
      = Done (core.Image_Id image, None)
          (mkSt w2 (calls s ++ listCalls compartmentID pages
                    ++ [CallListImages (listImagesRequest compartmentID page)])%list).
Proof.
  intros W cloud EqualFold c compartmentID nodeImageName s pages page w1 before image
    after next w2 Hcid Hname Hserved Hnames Hnone Hcall Hbefore Hnone_before Himage
    fuel Hfuel.
  rewrite (Go_getImageID_nonempty cloud EqualFold c _ _ fuel s Hcid Hname).
  destruct s as [w log]. cbn [world calls] in *.
  replace fuel with (List.length pages + S (fuel - S (List.length pages)))%nat by lia.
  rewrite (Go_getImageID_pages_served cloud EqualFold c compartmentID nodeImageName
             None w pages page w1 Hserved Hnames Hnone).
  cbn [Go.getImageID_pages]. unfold bind at 1.
  rewrite (call_Done _ _ (mkSt w1 _) _ _ Hcall).
  cbn [ListImages_Items calls]. unfold bind.
  rewrite Go_getImageID_items_scan.
  rewrite (Go_scan_Found EqualFold nodeImageName before after image
             Hbefore Hnone_before Himage).
  rewrite <- app_assoc. reflexivity.
Qed.

Lemma getImageID_stops_at_match_witness :
  Go.getImageID exampleCloud strings.EqualFold 1 exampleClient "ocid1.compartment.c"
    "oracle-linux-7.7" s0
  = Done (Some "ocid1.image.new", None)
      (mkSt tt [CallListImages (listImagesRequest "ocid1.compartment.c" None)]).
Proof.
  apply (getImageID_stops_at_match unit exampleCloud strings.EqualFold exampleClient
           "ocid1.compartment.c" "oracle-linux-7.7" s0 [] None tt
           [] imageOL77 [imageUbuntu] (Some "p2") tt).
  - discriminate.
  - discriminate.
  - apply served_none.
  - constructor.
  - constructor.
  - reflexivity.
  - constructor.
  - constructor.
  - reflexivity.
  - cbn. lia.
Defined.

(** X3: whatever [strings.EqualFold] does, when the pages before it were
    served without error, each of their images with a display name that
    does not match, and the next page holds an image without a display
    name after images that have display names, none matching,
    [getImageID] panics on the nil pointer after the call that fetched
    that page. *)
Theorem getImageID_nameless_image_panics :
  forall (W : Type) (cloud : Cloud W) (EqualFold : string -> string -> bool)
         (c : Client) (compartmentID nodeImageName : string) (s : St W)
         (pages : list (option string * list core.Image)) (page : option string)
         (w1 : W) (before : list core.Image) (image : core.Image)
         (after : list core.Image) (next : option string) (w2 : W),
    compartmentID <> "" ->
    nodeImageName <> "" ->
    served cloud c compartmentID None (world s) pages page w1 ->
    Forall hasDisplayName (imagesOf pages) ->
    Forall (fun other => Go.nameMatches EqualFold nodeImageName other = false)
      (imagesOf pages) ->
    ListImages cloud (computeClient c) (listImagesRequest compartmentID page) w1
      = (mkListImagesResponse (before ++ image :: after) next, None, w2) ->
    Forall hasDisplayName before ->
    Forall (fun other => Go.nameMatches EqualFold nodeImageName other = false) before ->
    core.Image_DisplayName image = None ->
    forall fuel, (List.length pages < fuel)%nat ->
      Go.getImageID cloud EqualFold fuel c compartmentID nodeImageName s
      = Panicked "invalid memory address or nil pointer dereference"
          (mkSt w2 (calls s ++ listCalls compartmentID pages
                    ++ [CallListImages (listImagesRequest compartmentID page)])%list).
Proof.
  intros W cloud EqualFold c compartmentID nodeImageName s pages page w1 before image
    after next w2 Hcid Hname Hserved Hnames Hnone Hcall Hbefore Hnone_before Hnil
    fuel Hfuel.
  rewrite (Go_getImageID_nonempty cloud EqualFold c _ _ fuel s Hcid Hname).
  destruct s as [w log]. cbn [world calls] in *.
  replace fuel with (List.length pages + S (fuel - S (List.length pages)))%nat by lia.
  rewrite (Go_getImageID_pages_served cloud EqualFold c compartmentID nodeImageName
             None w pages page w1 Hserved Hnames Hnone).
  cbn [Go.getImageID_pages]. unfold bind at 1.
  rewrite (call_Done _ _ (mkSt w1 _) _ _ Hcall).
  cbn [ListImages_Items calls]. unfold bind.
  rewrite Go_getImageID_items_scan.
  rewrite (Go_scan_Nameless EqualFold nodeImageName before after image
             Hbefore Hnone_before Hnil).
  rewrite <- app_assoc. reflexivity.
Qed.

Lemma getImageID_nameless_image_panics_witness :
  Go.getImageID (exampleCloudWithImages examplePagesNameless) strings.EqualFold 1
    exampleClient "ocid1.compartment.c" defaultImage s0
  = Panicked "invalid memory address or nil pointer dereference"
      (mkSt tt [CallListImages (listImagesRequest "ocid1.compartment.c" None)]).
Proof.
  apply (getImageID_nameless_image_panics unit
           (exampleCloudWithImages examplePagesNameless) strings.EqualFold exampleClient
           "ocid1.compartment.c" defaultImage s0 [] None tt
           [] imageNameless [imageOL77] None tt).
  - discriminate.
  - discriminate.
  - apply served_none.
  - constructor.
  - constructor.
  - reflexivity.
  - constructor.
  - constructor.
  - reflexivity.
  - cbn. lia.
Defined.

(** ** Addresses and state *)

(** X4: when listing the VNIC attachments fails, or gives none,
    [GetInstanceIP] returns the empty address with an error (the error of
    the listing, or "instance does not have any configured VNICs") and
    makes no [GetVnic] call. *)
Theorem GetInstanceIP_without_vnic :
  forall (W : Type) (cloud : Cloud W) (c : Client) (id compartmentID : string)
         (s : St W) (attachments : list core.VnicAttachment) (err : error) (w1 : W),
    ListVnicAttachments cloud (computeClient c)
      (mkListVnicAttachmentsRequest (Some id) (Some compartmentID)) (world s)
    = (attachments, err, w1) ->
    err <> None \/ attachments = [] ->
    GetInstanceIP cloud c id compartmentID s
    = Done ("", match err with
                | Some _ => err
                | None => Some "instance does not have any configured VNICs"
                end)
        (mkSt w1 (calls s ++ [CallListVnicAttachments
                                (mkListVnicAttachmentsRequest (Some id)
                                   (Some compartmentID))])).
Proof.
  intros W cloud c id compartmentID s attachments err w1 Hlist Hnone.
  unfold GetInstanceIP.
  rewrite (bind_Done _ _ _ _ _ (call_Done _ _ s _ _ Hlist)).
  destruct err as [msg |]; [reflexivity |].
  destruct Hnone as [Herr | ->]; [congruence | reflexivity].
Qed.

Lemma GetInstanceIP_without_vnic_witness :
  GetInstanceIP exampleCloudNoVnic exampleClient "ocid1.instance.i"
    "ocid1.compartment.c" s0
  = Done ("", Some "instance does not have any configured VNICs")
      (mkSt tt [CallListVnicAttachments
                  (mkListVnicAttachmentsRequest (Some "ocid1.instance.i")
                     (Some "ocid1.compartment.c"))]).
Proof.
  apply (GetInstanceIP_without_vnic unit exampleCloudNoVnic exampleClient
           "ocid1.instance.i" "ocid1.compartment.c" s0 [] None tt eq_refl).
  right. reflexivity.
Defined.

(** X5: when the attachments are listed and the VNIC of the first one is
    read, [GetInstanceIP] returns that VNIC's public address when it has
    one, else its private address, and panics when it has neither; the
    other attachments are not looked at. *)
Theorem GetInstanceIP_first_vnic :
  forall (W : Type) (cloud : Cloud W) (c : Client) (id compartmentID : string)
         (s : St W) (first : core.VnicAttachment) (others : list core.VnicAttachment)
         (w1 : W) (vnic : core.Vnic) (w2 : W),
    ListVnicAttachments cloud (computeClient c)
      (mkListVnicAttachmentsRequest (Some id) (Some compartmentID)) (world s)
    = (first :: others, None, w1) ->
    GetVnic cloud (virtualNetworkClient c)
      (mkGetVnicRequest (core.VnicAttachment_VnicId first)) w1
    = (vnic, None, w2) ->
    exists s2 : St W,
      s2 = mkSt w2 (calls s ++
                    [CallListVnicAttachments
                       (mkListVnicAttachmentsRequest (Some id) (Some compartmentID));
                     CallGetVnic (mkGetVnicRequest (core.VnicAttachment_VnicId first))])
      /\ (forall public,
             core.Vnic_PublicIp vnic = Some public ->
             GetInstanceIP cloud c id compartmentID s = Done (public, None) s2)
      /\ (forall private,
             core.Vnic_PublicIp vnic = None ->
             core.Vnic_PrivateIp vnic = Some private ->
             GetInstanceIP cloud c id compartmentID s = Done (private, None) s2)
      /\ (core.Vnic_PublicIp vnic = None ->
          core.Vnic_PrivateIp vnic = None ->
          GetInstanceIP cloud c id compartmentID s
          = Panicked "invalid memory address or nil pointer dereference" s2).
Proof.
  intros W cloud c id compartmentID s first others w1 vnic w2 Hlist Hvnic.
  eexists. split; [reflexivity |].
  assert (Hrun :
    GetInstanceIP cloud c id compartmentID s
    = match core.Vnic_PublicIp vnic with
      | None => bind (deref (core.Vnic_PrivateIp vnic)) (fun ip => ret (ip, None))
      | Some ip => ret (ip, None)
      end
        (mkSt w2 (calls s ++
                  [CallListVnicAttachments
                     (mkListVnicAttachmentsRequest (Some id) (Some compartmentID));
                   CallGetVnic (mkGetVnicRequest (core.VnicAttachment_VnicId first))]))).
  { unfold GetInstanceIP.
    rewrite (bind_Done _ _ _ _ _ (call_Done _ _ s _ _ Hlist)).
    rewrite (bind_Done _ _ _ _ _ (call_Done _ _ (mkSt w1 _) _ _ Hvnic)).
    cbn [calls]. rewrite <- app_assoc. reflexivity. }
  rewrite Hrun. repeat split.
  - intros public ->. reflexivity.
  - intros private -> ->. reflexivity.
  - intros -> ->. reflexivity.
Qed.

Lemma GetInstanceIP_first_vnic_witness :
  GetInstanceIP exampleCloudPrivate exampleClient "ocid1.instance.i"
    "ocid1.compartment.c" s0
  = Done ("10.0.0.7", None)
      (mkSt tt [CallListVnicAttachments
                  (mkListVnicAttachmentsRequest (Some "ocid1.instance.i")
                     (Some "ocid1.compartment.c"));
                CallGetVnic (mkGetVnicRequest (Some "ocid1.vnic.a"))]).
Proof.
  destruct (GetInstanceIP_first_vnic unit exampleCloudPrivate exampleClient
              "ocid1.instance.i" "ocid1.compartment.c" s0
              (core.mkVnicAttachment (Some "ocid1.vnic.a"))
              [core.mkVnicAttachment (Some "ocid1.vnic.b")] tt
              (core.mkVnic None (Some "10.0.0.7")) tt eq_refl eq_refl)
    as [s2 [-> [_ [Hprivate _]]]].
  apply Hprivate; reflexivity.
Defined.

Section Addresses.

Context {W : Type} (cloud : Cloud W).

(** [GetIP] hands back the driver unchanged, with the empty address,
    when it returns an error. *)
Lemma GetIP_error (d : Driver) (s : St W) d1 ip msg s1 :
  GetIP cloud d s = Done (d1, (ip, Some msg)) s1 -> d1 = d /\ ip = "".
Proof.
  unfold GetIP.
  destruct (string_isEmpty (IPAddress_of d)).
  - unfold bind at 1.
    destruct (initOCIClient cloud d s) as [[oci [e |]] s2 | m s2 |];
      try (intros H; discriminate H).
    + intros [= <- <- _ _]. split; reflexivity.
    + unfold bind at 1.
      destruct (GetInstanceIP cloud oci (InstanceID d) (NodeCompartmentID d) s2)
        as [[ip' [e |]] s3 | m s3 |]; try (intros H; discriminate H).
      intros [= <- <- _ _]. split; reflexivity.
  - intros H. discriminate H.
Qed.

End Addresses.

(** X6: [GetIP] answers from the driver when it holds an address,
    without building a client or calling the service.  An address it
    obtained is stored in the driver it hands back, so that a later
    [GetIP] on that driver returns the same address and leaves the state
    as it is.  On an error the driver is handed back unchanged. *)
Theorem GetIP_caches :
  forall (W : Type) (cloud : Cloud W) (d : Driver) (s : St W),
    (IPAddress_of d <> "" -> GetIP cloud d s = Done (d, (IPAddress_of d, None)) s)
    /\ (forall d1 ip s1,
           GetIP cloud d s = Done (d1, (ip, None)) s1 ->
           ip <> "" ->
           forall s2, GetIP cloud d1 s2 = Done (d1, (ip, None)) s2)
    /\ (forall d1 ip msg s1,
           GetIP cloud d s = Done (d1, (ip, Some msg)) s1 -> d1 = d /\ ip = "").
Proof.
  intros W cloud d s. split; [| split].
  - intros Hheld. apply string_isEmpty_false in Hheld.
    unfold GetIP. rewrite Hheld. reflexivity.
  - intros d1 ip s1 Hrun Hip s2.
    apply GetIP_cached in Hrun. subst ip.
    apply string_isEmpty_false in Hip.
    unfold GetIP. rewrite Hip. reflexivity.
  - intros d1 ip msg s1 Hrun. exact (GetIP_error cloud d s d1 ip msg s1 Hrun).
Qed.

Lemma GetIP_caches_witness :
  exists d1 : Driver,
    GetIP exampleCloud (exampleDriver defaultImage false) s0
    = Done (d1, ("203.0.113.7", None))
        (mkSt tt [CallListVnicAttachments
                    (mkListVnicAttachmentsRequest (Some "ocid1.instance.i")
                       (Some "ocid1.compartment.c"));
                  CallGetVnic (mkGetVnicRequest (Some "ocid1.vnic.a"))])
    /\ GetIP exampleCloudNoVnic d1 s0 = Done (d1, ("203.0.113.7", None)) s0.
Proof.
  eexists. split; [reflexivity |].
  destruct (GetIP_caches unit exampleCloudNoVnic
              (set_IPAddress (exampleDriver defaultImage false) "203.0.113.7") s0)
    as [Hheld _].
  apply Hheld. discriminate.
Defined.

(** X7: [GetURL] makes the calls of [GetIP] and no other.  With an error
    it returns the empty URL and the driver unchanged; without one the
    URL is empty exactly when the address is. *)
Theorem GetURL_follows_GetIP :
  forall (W : Type) (cloud : Cloud W) (d : Driver) (s : St W)
         (d' : Driver) (url : string) (err : error) (s' : St W),
    GetURL cloud d s = Done (d', (url, err)) s' ->
    exists ip : string,
      GetIP cloud d s = Done (d', (ip, err)) s'
      /\ (err <> None -> url = "" /\ d' = d)
      /\ (err = None -> (url = "" <-> ip = "")).
Proof.
  intros W cloud d s d' url err s' Hrun.
  unfold GetURL in Hrun. unfold bind in Hrun.
  destruct (GetIP cloud d s) as [[d1 [ip [msg |]]] s1 | m s1 |] eqn:Hip;
    try discriminate Hrun.
  - cbn [ret] in Hrun. injection Hrun as <- <- <- <-.
    exists ip. split; [reflexivity |]. split.
    + intros _. split; [reflexivity |].
      exact (proj1 (GetIP_error cloud d s d1 ip msg s1 Hip)).
    + intros H. discriminate H.
  - cbn [ret] in Hrun. exists ip.
    destruct (string_isEmpty ip) eqn:Hempty; injection Hrun as <- <- <- <-.
    + apply string_isEmpty_true in Hempty.
      split; [reflexivity |]. split; [congruence |].
      intros _. split; intros _; [exact Hempty | reflexivity].
    + apply string_isEmpty_false in Hempty.
      split; [reflexivity |]. split; [congruence |].
      intros _. split; [intros H; discriminate H | intros H; congruence].
Qed.

Lemma GetURL_follows_GetIP_witness :
  GetURL exampleCloudNoVnic (exampleDriver defaultImage false) s0
  = Done (exampleDriver defaultImage false,
          ("", Some "instance does not have any configured VNICs"))
      (mkSt tt [CallListVnicAttachments
                  (mkListVnicAttachmentsRequest (Some "ocid1.instance.i")
                     (Some "ocid1.compartment.c"))])
  /\ exists ip : string,
       GetIP exampleCloudNoVnic (exampleDriver defaultImage false) s0
       = Done (exampleDriver defaultImage false,
               (ip, Some "instance does not have any configured VNICs"))
           (mkSt tt [CallListVnicAttachments
                       (mkListVnicAttachmentsRequest (Some "ocid1.instance.i")
                          (Some "ocid1.compartment.c"))]).
Proof.
  split; [reflexivity |].
  destruct (GetURL_follows_GetIP unit exampleCloudNoVnic
              (exampleDriver defaultImage false) s0
              (exampleDriver defaultImage false) ""
              (Some "instance does not have any configured VNICs")
              (mkSt tt [CallListVnicAttachments
                          (mkListVnicAttachmentsRequest (Some "ocid1.instance.i")
                             (Some "ocid1.compartment.c"))])
              eq_refl) as [ip [Hip _]].
  exists ip. exact Hip.
Defined.

(** X8: whenever [GetState] returns an error, the state it returns with
    it is None. *)
Theorem GetState_error_state :
  forall (W : Type) (cloud : Cloud W) (d : Driver) (s : St W)
         (st : state.State) (msg : string) (s' : St W),
    GetState cloud d s = Done (st, Some msg) s' ->
    st = state.None.
Proof.
  intros W cloud d s st msg s' Hrun.
  unfold GetState in Hrun. unfold bind at 1 in Hrun.
  destruct (initOCIClient cloud d s) as [[oci [e |]] s1 | m s1 |];
    try discriminate Hrun.
  - injection Hrun as <- _ _. reflexivity.
  - unfold bind at 1 in Hrun.
    destruct (GetInstance cloud oci (InstanceID d) s1) as [[instance [e |]] s2 | m s2 |];
      try discriminate Hrun.
    + injection Hrun as <- _ _. reflexivity.
    + repeat match type of Hrun with
             | context [if ?b then _ else _] => destruct b
             end; discriminate Hrun.
Qed.

Lemma GetState_error_state_witness :
  exists st : state.State,
    GetState exampleCloudReadFails (exampleDriver defaultImage false) s0
    = Done (st, Some "503 Service Unavailable")
        (mkSt tt [CallGetInstance
                    (mkGetInstanceRequest (Some "ocid1.instance.i")
                       common.NoRetryPolicy)])
    /\ st = state.None.
Proof.
  eexists. split; [reflexivity |].
  exact (GetState_error_state unit exampleCloudReadFails
           (exampleDriver defaultImage false) s0 state.None
           "503 Service Unavailable"
           (mkSt tt [CallGetInstance
                       (mkGetInstanceRequest (Some "ocid1.instance.i")
                          common.NoRetryPolicy)])
           eq_refl).
Defined.

(** ** Building the client *)

(** X9: outside rover mode [initOCIClient] reads no file and cannot
    panic: it returns in the state it started from.  Its error is the
    first one among the constructors of the compute, the virtual network
    and the identity client, in that order; without an error the client
    holds the three constructed clients, the configuration made of the
    driver's tenancy, user, region, fingerprint, private key and
    passphrase, and the sleep duration 5. *)
Theorem initOCIClient_outside_rover :
  forall (W : Type) (cloud : Cloud W) (d : Driver) (s : St W),
    IsRover d = false ->
    exists (c : Client) (err : error),
      initOCIClient cloud d s = Done (c, err) s
      /\ err = match snd (NewComputeClientWithConfigurationProvider cloud
                            (common.mkConfigurationProvider (TenancyID d) (UserID d)
                               (Region d) (Fingerprint d) (PrivateKeyContents d)
                               (PrivateKeyPassphrase d))) with
               | Some msg => Some msg
               | None =>
                   match snd (NewVirtualNetworkClientWithConfigurationProvider cloud
                                (common.mkConfigurationProvider (TenancyID d) (UserID d)
                                   (Region d) (Fingerprint d) (PrivateKeyContents d)
                                   (PrivateKeyPassphrase d))) with
                   | Some msg => Some msg
                   | None =>
                       snd (NewIdentityClientWithConfigurationProvider cloud
                              (common.mkConfigurationProvider (TenancyID d) (UserID d)
                                 (Region d) (Fingerprint d) (PrivateKeyContents d)
                                 (PrivateKeyPassphrase d)))
                   end
               end
      /\ (err <> None -> c = Client_zero)
      /\ (err = None ->
          c = mkClient
                (common.mkConfigurationProvider (TenancyID d) (UserID d)
                   (Region d) (Fingerprint d) (PrivateKeyContents d)
                   (PrivateKeyPassphrase d))
                (fst (NewComputeClientWithConfigurationProvider cloud
                        (common.mkConfigurationProvider (TenancyID d) (UserID d)
                           (Region d) (Fingerprint d) (PrivateKeyContents d)
                           (PrivateKeyPassphrase d))))
                (fst (NewVirtualNetworkClientWithConfigurationProvider cloud
                        (common.mkConfigurationProvider (TenancyID d) (UserID d)
                           (Region d) (Fingerprint d) (PrivateKeyContents d)
                           (PrivateKeyPassphrase d))))
                (fst (NewIdentityClientWithConfigurationProvider cloud
                        (common.mkConfigurationProvider (TenancyID d) (UserID d)
                           (Region d) (Fingerprint d) (PrivateKeyContents d)
                           (PrivateKeyPassphrase d))))
                5).
Proof.
  intros W cloud d s Hrover.
  unfold initOCIClient, newClient. rewrite Hrover.
  generalize (common.mkConfigurationProvider (TenancyID d) (UserID d)
                (Region d) (Fingerprint d) (PrivateKeyContents d)
                (PrivateKeyPassphrase d)) as cfg.
  intros cfg.
  destruct (NewComputeClientWithConfigurationProvider cloud cfg) as [cc [e1 |]].
  - eexists _, _. split; [reflexivity |]. cbn [snd fst].
    repeat split; congruence.
  - destruct (NewVirtualNetworkClientWithConfigurationProvider cloud cfg) as [vc [e2 |]].
    + eexists _, _. split; [reflexivity |]. cbn [snd fst].
      repeat split; congruence.
    + destruct (NewIdentityClientWithConfigurationProvider cloud cfg) as [ic [e3 |]].
      * eexists _, _. split; [reflexivity |]. cbn [snd fst].
        repeat split; congruence.
      * eexists _, _. split; [reflexivity |]. cbn [snd fst].
        repeat split; congruence.
Qed.

Lemma initOCIClient_outside_rover_witness :
  exists c : Client,
    initOCIClient (withoutIdentity exampleCloud "can not create client, bad configuration")
      (exampleDriver defaultImage false) s0
    = Done (c, Some "can not create client, bad configuration") s0
    /\ c = Client_zero.
Proof.
  destruct (initOCIClient_outside_rover unit
              (withoutIdentity exampleCloud "can not create client, bad configuration")
              (exampleDriver defaultImage false) s0 eq_refl)
    as [c [err [Hrun [Herr [Hzero _]]]]].
  cbn in Herr. subst err.
  exists c. split; [exact Hrun | apply Hzero; discriminate].
Defined.

(** X10: in rover mode, once the compute and the virtual network client
    are constructed, [initOCIClient] reads the file at RoverCertPath, the
    only call it makes.  When the read fails it panics with "can not read
    cert " and the message.  When the read succeeds, both dispatchers are
    [*http.Client] and the identity client is constructed, the compute
    and network clients it returns have the rover endpoints as hosts and
    the file's content as trust roots. *)
Theorem initOCIClient_rover :
  forall (W : Type) (cloud : Cloud W) (d : Driver) (s : St W)
         (cc vc : common.ServiceClient) (pem : string) (rerr : error) (w1 : W),
    IsRover d = true ->
    NewComputeClientWithConfigurationProvider cloud
      (common.mkConfigurationProvider (TenancyID d) (UserID d) (Region d)
         (Fingerprint d) (PrivateKeyContents d) (PrivateKeyPassphrase d))
    = (cc, None) ->
    NewVirtualNetworkClientWithConfigurationProvider cloud
      (common.mkConfigurationProvider (TenancyID d) (UserID d) (Region d)
         (Fingerprint d) (PrivateKeyContents d) (PrivateKeyPassphrase d))
    = (vc, None) ->
    ReadFile cloud (RoverCertPath d) (world s) = (pem, rerr, w1) ->
    (forall msg,
        rerr = Some msg ->
        initOCIClient cloud d s
        = Panicked ("can not read cert " ++ msg)
            (mkSt w1 (calls s ++ [CallReadFile (RoverCertPath d)])))
    /\ (forall ic,
           rerr = None ->
           common.HTTPClient_isHTTPClient cc = true ->
           common.HTTPClient_isHTTPClient vc = true ->
           NewIdentityClientWithConfigurationProvider cloud
             (common.mkConfigurationProvider (TenancyID d) (UserID d) (Region d)
                (Fingerprint d) (PrivateKeyContents d) (PrivateKeyPassphrase d))
           = (ic, None) ->
           exists c : Client,
             initOCIClient cloud d s
             = Done (c, None) (mkSt w1 (calls s ++ [CallReadFile (RoverCertPath d)]))
             /\ common.Host (computeClient c) = RoverComputeEndpoint d
             /\ common.Host (virtualNetworkClient c) = RoverNetworkEndpoint d
             /\ common.Transport_RootCAs (computeClient c) = Some pem
             /\ common.Transport_RootCAs (virtualNetworkClient c) = Some pem
             /\ identityClient c = ic).
Proof.
  intros W cloud d s cc vc pem rerr w1 Hrover Hcc Hvc Hread.
  unfold initOCIClient, newClient. rewrite Hrover, Hcc, Hvc. split.
  - intros msg ->.
    unfold bind at 1. unfold bind at 1.
    rewrite (bind_Done _ _ _ _ _ (call_Done _ _ s _ _ Hread)).
    reflexivity.
  - intros ic -> Hhttp_cc Hhttp_vc Hic.
    unfold bind at 1. unfold bind at 1.
    rewrite (bind_Done _ _ _ _ _ (call_Done _ _ s _ _ Hread)).
    cbn [common.set_Host common.HTTPClient_isHTTPClient].
    rewrite Hhttp_cc, Hhttp_vc. cbn [ret]. rewrite Hic.
    eexists. split; [reflexivity |].
    repeat split.
Qed.

Lemma initOCIClient_rover_witness :
  initOCIClient exampleCloudNoCert exampleRoverDriver s0
  = Panicked "can not read cert open /etc/rover/ca.pem: no such file or directory"
      (mkSt tt [CallReadFile "/etc/rover/ca.pem"]).
Proof.
  destruct (initOCIClient_rover unit exampleCloudNoCert exampleRoverDriver s0
              exampleServiceClient exampleServiceClient ""
              (Some "open /etc/rover/ca.pem: no such file or directory") tt
              eq_refl eq_refl eq_refl eq_refl) as [Hpanic _].
  exact (Hpanic _ eq_refl).
Defined.

Example initOCIClient_rover_example :
  exists c : Client,
    initOCIClient exampleCloud exampleRoverDriver s0
    = Done (c, None) (mkSt tt [CallReadFile "/etc/rover/ca.pem"])
    /\ common.Host (computeClient c) = "https://rover.example:19060"
    /\ common.Host (identityClient c) = "https://iaas.example".
Proof. eexists. repeat split. Qed.

(** ** Pre-create check against a listing *)

(** X11: outside rover mode, once the client is built, for a non-empty
    node compartment whose Available images are served without error
    over finitely many pages, each image with a display name, and with
    fuel for every page: when no image is named "Oracle-Linux-7.7"
    (case-insensitively) [PreCreateCheck] returns the not-found error of
    the lookup after fetching every page; otherwise it looks at the ID of
    the first such image, returns nil when that ID is not empty,
    the error "could not retrieve node image ID from OCI" when it is
    empty, and panics when it is nil. *)
Theorem PreCreateCheck_against_listing :
  forall (W : Type) (cloud : Cloud W) (d : Driver) (s : St W)
         (oci : Client) (s1 : St W)
         (pages : list (option string * list core.Image)) (w' : W),
    IsRover d = false ->
    initOCIClient cloud d s = Done (oci, None) s1 ->
    NodeCompartmentID d <> "" ->
    listing cloud oci (NodeCompartmentID d) None (world s1) pages w' ->
    Forall hasDisplayName (imagesOf pages) ->
    (Forall (fun image => nameMatches "Oracle-Linux-7.7" image = false) (imagesOf pages) ->
     forall fuel, (List.length pages <= fuel)%nat ->
       PreCreateCheck cloud fuel d s
       = Done (Some "could not retrieve image id for an image named Oracle-Linux-7.7")
           (mkSt w' (calls s1 ++ listCalls (NodeCompartmentID d) pages)%list))
    /\ (forall image,
           find (nameMatches "Oracle-Linux-7.7") (imagesOf pages) = Some image ->
           exists s2 : St W,
             forall fuel, (List.length pages <= fuel)%nat ->
               PreCreateCheck cloud fuel d s
               = match core.Image_Id image with
                 | Some id =>
                     if string_isEmpty id
                     then Done (Some "could not retrieve node image ID from OCI") s2
                     else Done None s2
                 | None =>
                     Panicked "invalid memory address or nil pointer dereference" s2
                 end).
Proof.
  intros W cloud d s oci s1 pages w' Hrover Hinit Hcid Hlisting Hnames.
  assert (Hcheck : forall fuel,
    PreCreateCheck cloud fuel d s
    = bind (getImageID_pages cloud fuel oci (NodeCompartmentID d) defaultImage None)
        (fun '(image, err) =>
           match err with
           | Some _ => ret err
           | None =>
               bind (deref image)
                 (fun image =>
                    if (Z.of_nat (String.length image) =? 0)
                    then ret (Some "could not retrieve node image ID from OCI")
                    else ret None)
           end) s1).
  { intros fuel. unfold PreCreateCheck. rewrite Hrover.
    rewrite (bind_Done _ _ _ _ _ Hinit).
    unfold bind at 1 3.
    rewrite (getImageID_nonempty cloud fuel oci _ _ s1 Hcid); [reflexivity |].
    discriminate. }
  pose proof (getImageID_pages_find cloud oci (NodeCompartmentID d) defaultImage
                None (world s1) pages w' Hlisting Hnames (calls s1)) as Hrun.
  unfold defaultImage in *. split.
  - intros Hnone fuel Hfuel.
    rewrite (find_none_Forall _ _ Hnone) in Hrun.
    rewrite Hcheck. destruct s1 as [w1 log1]. cbn [world calls] in *.
    rewrite (bind_Done _ _ _ _ _ (Hrun fuel Hfuel)). reflexivity.
  - intros image Hfind. rewrite Hfind in Hrun. destruct Hrun as [s2 Hrun].
    exists s2. intros fuel Hfuel.
    rewrite Hcheck. destruct s1 as [w1 log1]. cbn [world calls] in *.
    rewrite (bind_Done _ _ _ _ _ (Hrun fuel Hfuel)).
    destruct (core.Image_Id image) as [id |]; [| reflexivity].
    unfold bind. cbn [deref ret].
    destruct id; reflexivity.
Qed.

Lemma examplePagesEmptyID_listing :
  listing (exampleCloudWithImages examplePagesEmptyID) exampleClient
    "ocid1.compartment.c" None tt
    [(None, [imageUbuntu; core.mkImage (Some "") (Some "Oracle-Linux-7.7") 5])] tt.
Proof. apply listing_last. reflexivity. Defined.

Lemma PreCreateCheck_against_listing_witness :
  exists s2 : St unit,
    forall fuel, (1 <= fuel)%nat ->
      PreCreateCheck (exampleCloudWithImages examplePagesEmptyID) fuel
        (exampleDriver "CentOS-7" false) s0
      = Done (Some "could not retrieve node image ID from OCI") s2.
Proof.
  destruct (PreCreateCheck_against_listing unit
              (exampleCloudWithImages examplePagesEmptyID)
              (exampleDriver "CentOS-7" false) s0 exampleClient s0
              [(None, [imageUbuntu; core.mkImage (Some "") (Some "Oracle-Linux-7.7") 5])]
              tt eq_refl eq_refl) as [_ Hfound].
  - discriminate.
  - exact examplePagesEmptyID_listing.
  - repeat constructor; discriminate.
  - destruct (Hfound (core.mkImage (Some "") (Some "Oracle-Linux-7.7") 5) eq_refl)
      as [s2 Hrun].
    exists s2. exact Hrun.
Defined.

(** ** Configuration from flags *)

Section FlagsMore.

Context {W : Type} (cloud : Cloud W).

(** Every way [SetConfigFromFlags] can run, with what it leaves. *)
Ltac run_SetConfigFromFlags :=
  unfold SetConfigFromFlags, errors_New;
  cbn [VCNID SubnetID TenancyID NodeCompartmentID VCNCompartmentID UserID Region
       AvailabilityDomain Shape Fingerprint PrivateKeyPath PrivateKeyContents
       IsRover RoverCertContent RoverCertPath
       set_VCNID set_SubnetID set_TenancyID set_NodeCompartmentID
       set_VCNCompartmentID set_UserID set_Region set_AvailabilityDomain
       set_Shape set_Fingerprint set_PrivateKeyPath set_PrivateKeyContents
       set_Image set_SSHUser set_SSHPort set_IsRover set_RoverComputeEndpoint
       set_RoverNetworkEndpoint set_RoverCertPath set_RoverCertContent
       set_BaseDriver BaseDriver_ BaseDriver_set_SSHUser BaseDriver_set_SSHPort].

Lemma SetConfigFromFlags_missing (d : Driver) (flags : DriverOptions) (s : St W)
    (name msg : string) :
  firstMissing flags = Some (name, msg) ->
  exists d', SetConfigFromFlags cloud d flags s = Done (d', Some msg) s.
Proof.
  unfold firstMissing, requiredFlags. cbn [find fst].
  run_SetConfigFromFlags.
  repeat match goal with
         | |- context [string_isEmpty (flags_String flags ?n)] =>
             destruct (string_isEmpty (flags_String flags n));
             [intros [= <- <-]; eexists; reflexivity |]
         end.
  intros H. discriminate H.
Qed.

Lemma SetConfigFromFlags_error_state (d : Driver) (flags : DriverOptions) (s : St W)
    d' msg s' :
  SetConfigFromFlags cloud d flags s = Done (d', Some msg) s' -> s' = s.
Proof.
  run_SetConfigFromFlags.
  repeat match goal with
         | |- context [if string_isEmpty (flags_String flags ?n)
                       then ret (_, Some _) else _] =>
             destruct (string_isEmpty (flags_String flags n));
             [intros [= _ _ <-]; reflexivity |]
         end.
  destruct (string_isEmpty (flags_String flags "oci-private-key-path")
            && string_isEmpty (flags_String flags "oci-private-key-contents"))%bool;
    [intros [= _ _ <-]; reflexivity |].
  unfold bind, call, ret.
  repeat match goal with
         | |- context [if ?b then _ else _] => destruct b
         | |- context [ReadFile cloud ?p ?w] =>
             destruct (ReadFile cloud p w) as [[? [? |]] ?]
         end.
  all: intros H; discriminate H.
Qed.

End FlagsMore.

(** X12: [SetConfigFromFlags] checks the ten required flags in a fixed
    order and fails with the message of the first one that is empty.
    When none is empty and neither the private key path nor its contents
    are given, it fails with the private key message.  Whenever it
    returns an error it has read no file: the state is the one it started
    from. *)
Theorem SetConfigFromFlags_errors :
  forall (W : Type) (cloud : Cloud W) (d : Driver) (flags : DriverOptions) (s : St W),
    (forall name msg,
        firstMissing flags = Some (name, msg) ->
        exists d', SetConfigFromFlags cloud d flags s = Done (d', Some msg) s)
    /\ (firstMissing flags = None ->
        flags_String flags "oci-private-key-path" = "" ->
        flags_String flags "oci-private-key-contents" = "" ->
        exists d',
          SetConfigFromFlags cloud d flags s
          = Done (d', Some "no private key path or content specified (--oci-private-key-path || --oci-private-key-contents)") s)
    /\ (forall d' msg s',
           SetConfigFromFlags cloud d flags s = Done (d', Some msg) s' -> s' = s).
Proof.
  intros W cloud d flags s. split; [| split].
  - intros name msg. apply SetConfigFromFlags_missing.
  - unfold firstMissing, requiredFlags. cbn [find fst].
    intros Hnone Hpath Hcontents.
    unfold SetConfigFromFlags, errors_New.
    cbn [VCNID SubnetID TenancyID NodeCompartmentID VCNCompartmentID UserID Region
         AvailabilityDomain Shape Fingerprint PrivateKeyPath PrivateKeyContents
         set_VCNID set_SubnetID set_TenancyID set_NodeCompartmentID
         set_VCNCompartmentID set_UserID set_Region set_AvailabilityDomain
         set_Shape set_Fingerprint set_PrivateKeyPath set_PrivateKeyContents].
    rewrite Hpath, Hcontents.
    repeat match goal with
           | H : context [string_isEmpty (flags_String flags ?n)] |- _ =>
               destruct (string_isEmpty (flags_String flags n));
               [discriminate H |]
           end.
    eexists. reflexivity.
  - intros d' msg s'. apply SetConfigFromFlags_error_state.
Qed.

Lemma SetConfigFromFlags_errors_witness :
  exists d' : Driver,
    SetConfigFromFlags exampleCloud (NewDriver "node1" "/tmp/store")
      exampleFlagsNoRegion s0
    = Done (d', Some "no OCI oci-region specified (--oci-region)") s0.
Proof.
  destruct (SetConfigFromFlags_errors unit exampleCloud (NewDriver "node1" "/tmp/store")
              exampleFlagsNoRegion s0) as [Hmissing _].
  exact (Hmissing "oci-region" "no OCI oci-region specified (--oci-region)" eq_refl).
Defined.

(** X13: when [SetConfigFromFlags] returns nil, none of the ten required
    flags is empty, the private key path or its contents are given, and
    the driver handed back holds the flags' values in VCNID, SubnetID,
    TenancyID, NodeCompartmentID, VCNCompartmentID, UserID, Region,
    AvailabilityDomain, Shape, Fingerprint, PrivateKeyPath, IsRover and
    the rover endpoints and certificate path. *)
Theorem SetConfigFromFlags_success :
  forall (W : Type) (cloud : Cloud W) (d : Driver) (flags : DriverOptions) (s : St W)
         (d' : Driver) (s' : St W),
    SetConfigFromFlags cloud d flags s = Done (d', None) s' ->
    firstMissing flags = None
    /\ (flags_String flags "oci-private-key-path" <> ""
        \/ flags_String flags "oci-private-key-contents" <> "")
    /\ VCNID d' = flags_String flags "oci-vcn-id"
    /\ SubnetID d' = flags_String flags "oci-subnet-id"
    /\ TenancyID d' = flags_String flags "oci-tenancy-id"
    /\ NodeCompartmentID d' = flags_String flags "oci-node-compartment-id"
    /\ VCNCompartmentID d' = flags_String flags "oci-vcn-compartment-id"
    /\ UserID d' = flags_String flags "oci-user-id"
    /\ Region d' = flags_String flags "oci-region"
    /\ AvailabilityDomain d' = flags_String flags "oci-node-availability-domain"
    /\ Shape d' = flags_String flags "oci-node-shape"
    /\ Fingerprint d' = flags_String flags "oci-fingerprint"
    /\ PrivateKeyPath d' = flags_String flags "oci-private-key-path"
    /\ IsRover d' = flags_Bool flags "oci-is-rover"
    /\ RoverComputeEndpoint d' = flags_String flags "oci-rover-compute-endpoint"
    /\ RoverNetworkEndpoint d' = flags_String flags "oci-rover-network-endpoint"
    /\ RoverCertPath d' = flags_String flags "oci-rover-cert-path".
Proof.
  intros W cloud d flags s d' s'.
  unfold firstMissing, requiredFlags. cbn [find fst].
  unfold SetConfigFromFlags, errors_New.
  cbn [VCNID SubnetID TenancyID NodeCompartmentID VCNCompartmentID UserID Region
       AvailabilityDomain Shape Fingerprint PrivateKeyPath PrivateKeyContents
       set_VCNID set_SubnetID set_TenancyID set_NodeCompartmentID
       set_VCNCompartmentID set_UserID set_Region set_AvailabilityDomain
       set_Shape set_Fingerprint set_PrivateKeyPath set_PrivateKeyContents].
  repeat match goal with
         | |- context [if string_isEmpty (flags_String flags ?n)
                       then ret (_, Some _) else _] =>
             destruct (string_isEmpty (flags_String flags n));
             [intros H; discriminate H |]
         end.
  destruct (string_isEmpty (flags_String flags "oci-private-key-path")) eqn:Hpath;
    destruct (string_isEmpty (flags_String flags "oci-private-key-contents"))
      eqn:Hcontents;
    cbn [andb negb]; try (intros H; discriminate H).
  all: try apply string_isEmpty_false in Hpath.
  all: try apply string_isEmpty_false in Hcontents.
  all: unfold bind, call, ret.
  all: repeat match goal with
              | |- context [if ?b then _ else _] => destruct b
              | |- context [ReadFile ?c ?p ?w] =>
                  destruct (ReadFile c p w) as [[? [? |]] ?]
              end.
  all: intros [= <- <-].
  all: repeat split; try reflexivity; auto.
Qed.

Lemma SetConfigFromFlags_success_witness :
  exists (d' : Driver) (s' : St unit),
    SetConfigFromFlags exampleCloud (NewDriver "node1" "/tmp/store") exampleFlags s0
    = Done (d', None) s'
    /\ Region d' = "us-phoenix-1"
    /\ NodeCompartmentID d' = "ocid1.compartment.c"
    /\ IsRover d' = false.
Proof.
  eexists _, _. split; [vm_compute; reflexivity |].
  destruct (SetConfigFromFlags_success unit exampleCloud
              (NewDriver "node1" "/tmp/store") exampleFlags s0 _ _
              ltac:(vm_compute; reflexivity))
    as [_ [_ [_ [_ [_ [Hcompartment [_ [_ [Hregion [_ [_ [_ [_ [Hrover _]]]]]]]]]]]]]].
  split; [exact Hregion |]. split; [exact Hcompartment | exact Hrover].
Defined.

(** X14: [SetConfigFromFlags] always returns, and whatever the flags
    hold, with or without an error, it leaves DockerPort,
    PrivateKeyPassphrase, InstanceID, the machine name, the cached IP
    address and the store path of the driver as they were. *)
Theorem SetConfigFromFlags_leaves_fields :
  forall (W : Type) (cloud : Cloud W) (d : Driver) (flags : DriverOptions) (s : St W),
    exists (d' : Driver) (err : error) (s' : St W),
      SetConfigFromFlags cloud d flags s = Done (d', err) s'
      /\ DockerPort d' = DockerPort d
      /\ PrivateKeyPassphrase d' = PrivateKeyPassphrase d
      /\ InstanceID d' = InstanceID d
      /\ MachineName_of d' = MachineName_of d
      /\ IPAddress_of d' = IPAddress_of d
      /\ StorePath (BaseDriver_ d') = StorePath (BaseDriver_ d).
Proof.
  intros W cloud d flags s.
  unfold SetConfigFromFlags, errors_New.
  repeat match goal with
         | |- context [if string_isEmpty ?x then ret (_, Some _) else _] =>
             destruct (string_isEmpty x);
             [eexists _, _, _; split; [reflexivity | repeat split] |]
         | |- context [if (string_isEmpty ?x && string_isEmpty ?y)%bool
                       then ret (_, Some _) else _] =>
             destruct (string_isEmpty x && string_isEmpty y)%bool;
             [eexists _, _, _; split; [reflexivity | repeat split] |]
         end.
  unfold bind, call, ret.
  repeat match goal with
         | |- context [if ?b then _ else _] => destruct b
         | |- context [ReadFile ?c ?p ?w] =>
             destruct (ReadFile c p w) as [[? [? |]] ?]
         end.
  all: eexists _, _, _; split; [reflexivity | repeat split].
Qed.

(** A fresh driver configured from flags that set the Docker port and a
    passphrase: neither reaches the driver. *)
Example SetConfigFromFlags_docker_port_unread :
  exists (d' : Driver) (s' : St unit),
    SetConfigFromFlags exampleCloud (NewDriver "node1" "/tmp/store") exampleFlags s0
    = Done (d', None) s'
    /\ flags_Int exampleFlags "oci-node-docker-port" = 9999
    /\ DockerPort d' = 0
    /\ flags_String exampleFlags "oci-private-key-passphrase" = "secret"
    /\ PrivateKeyPassphrase d' = "".
Proof.
  eexists _, _. split; [vm_compute; reflexivity |].
  repeat split.
Qed.

(** X15: the outcome of [SetConfigFromFlags] depends on the flags only
    through the twenty values of [flagsRead]: two sets of flags that
    agree on them give the same outcome.  Each of the twenty is declared
    by [GetCreateFlags] with the kind of the accessor that reads it.  Of
    the declared flags, four are never read: oci-node-docker-port,
    oci-node-public-key-contents, oci-node-public-key-path and
    oci-private-key-passphrase. *)
Theorem SetConfigFromFlags_reads_declared_flags :
  forall (W : Type) (cloud : Cloud W) (d : Driver),
    (forall (flags flags' : DriverOptions) (s : St W),
        Forall (flagAgrees flags flags') flagsRead ->
        SetConfigFromFlags cloud d flags s = SetConfigFromFlags cloud d flags' s)
    /\ forallb (declared d) flagsRead = true
    /\ filter (fun name => negb (existsb (String.eqb name) (map fst flagsRead)))
         (map mcnflag.Name_of (GetCreateFlags d))
       = ["oci-node-docker-port"; "oci-node-public-key-contents";
          "oci-node-public-key-path"; "oci-private-key-passphrase"].
Proof.
  intros W cloud d. split; [| split; reflexivity].
  intros flags flags' s Hagree. unfold flagsRead in Hagree.
  repeat match type of Hagree with
         | Forall _ (_ :: _) =>
             let Hhead := fresh "Hhead" in
             apply Forall_cons_iff in Hagree; destruct Hagree as [Hhead Hagree];
             unfold flagAgrees in Hhead; cbn [fst snd] in Hhead
         end.
  unfold SetConfigFromFlags.
  repeat match goal with
         | H : flags_String flags ?n = _ |- _ => rewrite H; clear H
         | H : flags_Int flags ?n = _ |- _ => rewrite H; clear H
         | H : flags_Bool flags ?n = _ |- _ => rewrite H; clear H
         end.
  reflexivity.
Qed.

(** X16: after a successful [SetConfigFromFlags], the private key of the
    driver is the flag oci-private-key-contents when that is given, and
    then, outside rover mode, no file was read.  When it is not given,
    the file at oci-private-key-path is read: the key is the file's
    content, or stays empty when the read fails, and no error is
    reported for it. *)
Theorem SetConfigFromFlags_private_key :
  forall (W : Type) (cloud : Cloud W) (d : Driver) (flags : DriverOptions) (s : St W)
         (d' : Driver) (s' : St W),
    SetConfigFromFlags cloud d flags s = Done (d', None) s' ->
    (flags_String flags "oci-private-key-contents" <> "" ->
     PrivateKeyContents d' = flags_String flags "oci-private-key-contents"
     /\ (flags_Bool flags "oci-is-rover" = false -> s' = s))
    /\ (flags_String flags "oci-private-key-contents" = "" ->
        forall bytes rerr w1,
          ReadFile cloud (flags_String flags "oci-private-key-path") (world s)
          = (bytes, rerr, w1) ->
          PrivateKeyContents d' = match rerr with
                                  | None => bytes
                                  | Some _ => ""
                                  end
          /\ In (CallReadFile (flags_String flags "oci-private-key-path")) (calls s')).
Proof.
  intros W cloud d flags s d' s'.
  unfold SetConfigFromFlags, errors_New.
  cbn [VCNID SubnetID TenancyID NodeCompartmentID VCNCompartmentID UserID Region
       AvailabilityDomain Shape Fingerprint PrivateKeyPath PrivateKeyContents
       IsRover RoverCertContent RoverCertPath
       set_VCNID set_SubnetID set_TenancyID set_NodeCompartmentID
       set_VCNCompartmentID set_UserID set_Region set_AvailabilityDomain
       set_Shape set_Fingerprint set_PrivateKeyPath set_PrivateKeyContents].
  repeat match goal with
         | |- context [if string_isEmpty (flags_String flags ?n)
                       then ret (_, Some _) else _] =>
             destruct (string_isEmpty (flags_String flags n));
             [intros H; discriminate H |]
         end.
  destruct (string_isEmpty (flags_String flags "oci-private-key-path")) eqn:Hpath;
    destruct (string_isEmpty (flags_String flags "oci-private-key-contents"))
      eqn:Hcontents;
    cbn [andb negb]; try (intros H; discriminate H).
  all: unfold bind, call, ret; cbn [world calls].
  all: try (destruct (ReadFile cloud (flags_String flags "oci-private-key-path")
                        (world s)) as [[key [kerr |]] w2] eqn:Hkey).
  all: cbn [IsRover RoverCertContent RoverCertPath PrivateKeyContents
            set_Image set_SSHUser set_SSHPort set_IsRover set_RoverComputeEndpoint
            set_RoverNetworkEndpoint set_RoverCertPath set_RoverCertContent
            set_PrivateKeyContents set_BaseDriver world calls].
  all: destruct (flags_Bool flags "oci-is-rover" &&
                 string_isEmpty (flags_String flags "oci-rover-cert-content") &&
                 negb (string_isEmpty (flags_String flags "oci-rover-cert-path")))%bool
         eqn:Hcert.
  all: try match goal with
           | |- context [ReadFile ?c ?p ?w] =>
               match goal with
               | |- context [let (_, _) := ReadFile c p w in _] =>
                   destruct (ReadFile c p w) as [[cert [cerr |]] w3]
               end
           end.
  all: intros [= <- <-].
  all: try apply string_isEmpty_false in Hcontents.
  all: try apply string_isEmpty_true in Hcontents.
  all: split; intros Hc; try congruence.
  all: match goal with
       | |- _ /\ _ =>
           split;
           [ reflexivity
           | intros Hr; first [reflexivity | rewrite Hr in Hcert; discriminate Hcert] ]
       | |- forall _, _ =>
           intros bytes rerr w1 Hread; injection Hread as <- <- <-;
           split;
           [ first [reflexivity | exact Hc]
           | cbn [calls]; rewrite ?in_app_iff; cbn [In]; tauto ]
       end.
Qed.

(** The key file cannot be read: configuration succeeds with an empty
    private key. *)
Lemma SetConfigFromFlags_private_key_witness :
  exists (d' : Driver) (s' : St unit),
    SetConfigFromFlags exampleCloudNoCert (NewDriver "node1" "/tmp/store")
      exampleFlags s0
    = Done (d', None) s'
    /\ PrivateKeyContents d' = ""
    /\ In (CallReadFile "/home/u/.oci/key.pem") (calls s').
Proof.
  eexists _, _. split; [vm_compute; reflexivity |].
  destruct (SetConfigFromFlags_private_key unit exampleCloudNoCert
              (NewDriver "node1" "/tmp/store") exampleFlags s0 _ _
              ltac:(vm_compute; reflexivity)) as [_ Hread].
  exact (Hread eq_refl "" (Some "open /etc/rover/ca.pem: no such file or directory")
           tt eq_refl).
Defined.

(** ** What the calls of a launch can be *)

Section Logs.

Context {W : Type} (cloud : Cloud W).

Lemma grows_ret {A : Type} (P : Call -> Prop) (a : A) (s : St W) :
  grows P s (ret a s).
Proof. exists []. split; [symmetry; apply app_nil_r | constructor]. Qed.

Lemma grows_panic {A : Type} (P : Call -> Prop) (msg : string) (s : St W) :
  grows (A := A) P s (panic msg s).
Proof. exists []. split; [symmetry; apply app_nil_r | constructor]. Qed.

Lemma grows_call {A : Type} (P : Call -> Prop) (what : Call) (op : W -> A * W)
    (s : St W) :
  P what -> grows P s (call what op s).
Proof.
  intros Hwhat. unfold call. destruct (op (world s)) as [a w'].
  exists [what]. split; [reflexivity | repeat constructor; exact Hwhat].
Qed.

Lemma grows_bind {A B : Type} (P : Call -> Prop) (m : M W A) (k : A -> M W B)
    (s : St W) :
  grows P s (m s) ->
  (forall a s1, m s = Done a s1 -> grows P s1 (k a s1)) ->
  grows P s (bind m k s).
Proof.
  intros Hm Hk. unfold bind.
  destruct (m s) as [a s1 | msg s1 |] eqn:Hrun; [| exact Hm | exact I].
  destruct Hm as [extra [Hcalls Hextra]].
  specialize (Hk a s1 eq_refl).
  destruct (k a s1) as [b s2 | msg s2 |]; [| | exact I];
    destruct Hk as [extra' [Hcalls' Hextra']];
    exists (extra ++ extra')%list;
    (split; [rewrite Hcalls', Hcalls, app_assoc; reflexivity
            | apply Forall_app; split; assumption]).
Qed.

Lemma grows_weaken {A : Type} (P Q : Call -> Prop) (s : St W) (o : outcome W A) :
  (forall what, P what -> Q what) -> grows P s o -> grows Q s o.
Proof.
  intros Himp. destruct o as [a s' | msg s' |]; cbn [grows]; [| | exact id];
    intros [extra [Hcalls Hextra]]; exists extra;
    (split; [exact Hcalls | exact (Forall_impl _ Himp Hextra)]).
Qed.

Lemma getImageID_items_grows (P : Call -> Prop) items nodeImageName (s : St W) :
  grows P s (getImageID_items (W := W) items nodeImageName s).
Proof.
  induction items as [| image items IH]; cbn [getImageID_items].
  - apply grows_ret.
  - apply grows_bind.
    + destruct (core.Image_DisplayName image); [apply grows_ret | apply grows_panic].
    + intros name s1 Hname.
      destruct (core.Image_DisplayName image); [| discriminate Hname].
      injection Hname as <- <-.
      destruct (strings.EqualFold _ nodeImageName); [apply grows_ret | exact IH].
Qed.

Lemma getImageID_pages_grows fuel c compartmentID nodeImageName page (s : St W) :
  grows (listsImagesOf compartmentID) s
    (getImageID_pages cloud fuel c compartmentID nodeImageName page s).
Proof.
  revert page s. induction fuel as [| fuel IH]; intros page s; [exact I |].
  cbn [getImageID_pages]. apply grows_bind.
  - apply grows_call. exists page. reflexivity.
  - intros [r [e |]] s1 _; [apply grows_ret |].
    apply grows_bind; [apply getImageID_items_grows |].
    intros [id |] s2 _; [apply grows_ret |].
    destruct (ListImages_OpcNextPage r); [apply IH | apply grows_ret].
Qed.

Lemma getImageID_grows fuel c compartmentID nodeImageName (s : St W) :
  grows (listsImagesOf compartmentID) s
    (getImageID cloud fuel c compartmentID nodeImageName s).
Proof.
  unfold getImageID.
  destruct (string_isEmpty nodeImageName || string_isEmpty compartmentID)%bool;
    [apply grows_ret | apply getImageID_pages_grows].
Qed.

Lemma resolveAvailabilityDomain_grows (P : Call -> Prop) items availabilityDomain
    (s : St W) :
  grows P s (resolveAvailabilityDomain (W := W) items availabilityDomain s).
Proof.
  revert availabilityDomain.
  induction items as [| ad items IH]; intros availabilityDomain;
    cbn [resolveAvailabilityDomain]; [apply grows_ret |].
  apply grows_bind.
  - destruct (identity.AvailabilityDomain_Name ad);
      [apply grows_ret | apply grows_panic].
  - intros name s1 Hname.
    destruct (identity.AvailabilityDomain_Name ad); [| discriminate Hname].
    injection Hname as <- <-.
    destruct (strings.Contains _ _); apply IH.
Qed.

(** The builders only look things up, and never hand back an error. *)
Lemma createReqForRover_grows fuel c displayName availabilityDomain compartmentID
    nodeShape nodeImageName nodeSubnetID authorizedKeys (s : St W) :
  grows (listsImagesOf compartmentID) s
    (createReqForRover cloud fuel c displayName availabilityDomain compartmentID
       nodeShape nodeImageName nodeSubnetID authorizedKeys s).
Proof.
  unfold createReqForRover. apply grows_bind; [apply getImageID_grows |].
  intros [imageID [e |]] s1 _; apply grows_ret.
Qed.

Lemma createReqForOCi_grows fuel c displayName availabilityDomain compartmentID
    nodeShape nodeImageName nodeSubnetID authorizedKeys (s : St W) :
  grows (fun what => isListAvailabilityDomains what = true
                     \/ listsImagesOf compartmentID what) s
    (createReqForOCi cloud fuel c displayName availabilityDomain compartmentID
       nodeShape nodeImageName nodeSubnetID authorizedKeys s).
Proof.
  unfold createReqForOCi. apply grows_bind.
  - apply grows_call. left. reflexivity.
  - intros [ads [e |]] s1 _; [apply grows_ret |].
    apply grows_bind; [apply resolveAvailabilityDomain_grows |].
    intros resolved s2 _. apply grows_bind.
    + eapply grows_weaken; [| apply getImageID_grows]. intros what H. right. exact H.
    + intros [imageID [e |]] s3 _; apply grows_ret.
Qed.

Lemma createReqForRover_nil_error fuel c displayName availabilityDomain compartmentID
    nodeShape nodeImageName nodeSubnetID authorizedKeys (s : St W) err request s' :
  createReqForRover cloud fuel c displayName availabilityDomain compartmentID
    nodeShape nodeImageName nodeSubnetID authorizedKeys s = Done (err, request) s' ->
  err = None.
Proof.
  unfold createReqForRover, bind.
  destruct (getImageID cloud fuel c compartmentID nodeImageName s)
    as [[imageID [e |]] s1 | msg s1 |]; intros H; try discriminate H;
    injection H as <- _ _; reflexivity.
Qed.

Lemma createReqForOCi_nil_error fuel c displayName availabilityDomain compartmentID
    nodeShape nodeImageName nodeSubnetID authorizedKeys (s : St W) err request s' :
  createReqForOCi cloud fuel c displayName availabilityDomain compartmentID
    nodeShape nodeImageName nodeSubnetID authorizedKeys s = Done (err, request) s' ->
  err = None.
Proof.
  unfold createReqForOCi. unfold bind at 1. unfold call.
  destruct (ListAvailabilityDomains cloud (identityClient c) _ (world s))
    as [[ads [e |]] w1].
  - intros H. injection H as <- _ _. reflexivity.
  - unfold bind at 1.
    destruct (resolveAvailabilityDomain _ availabilityDomain _)
      as [resolved s2 | msg s2 |]; try (intros H; discriminate H).
    unfold bind.
    destruct (getImageID cloud fuel c compartmentID nodeImageName s2)
      as [[imageID [e |]] s3 | msg s3 |]; intros H; try discriminate H;
      injection H as <- _ _; reflexivity.
Qed.

End Logs.

(** X17: whenever [getImageID] returns or panics, the calls it has added
    to the log are [ListImages] requests for the given compartment,
    sorted by creation time descending, restricted to Available images,
    with the three-attempt retry policy; it reaches no other operation
    of the service. *)
Theorem getImageID_only_lists_images :
  forall (W : Type) (cloud : Cloud W) (fuel : nat) (c : Client)
         (compartmentID nodeImageName : string) (s : St W),
    grows (listsImagesOf compartmentID) s
      (getImageID cloud fuel c compartmentID nodeImageName s).
Proof.
  intros W cloud fuel c compartmentID nodeImageName s.
  unfold getImageID.
  destruct (string_isEmpty nodeImageName || string_isEmpty compartmentID)%bool.
  - apply grows_ret.
  - apply getImageID_pages_grows.
Qed.

(** X18: neither request builder ever hands back an error: whatever
    happens while the availability domains are listed or the image is
    resolved, the error that [createReqForOCi] and [createReqForRover]
    return is nil. *)
Theorem createReq_error_is_nil :
  forall (W : Type) (cloud : Cloud W) (fuel : nat) (c : Client)
         (displayName availabilityDomain compartmentID nodeShape nodeImageName
            nodeSubnetID authorizedKeys : string)
         (s : St W) (err : error) (request : LaunchInstanceRequest) (s' : St W),
    createReqForOCi cloud fuel c displayName availabilityDomain compartmentID
      nodeShape nodeImageName nodeSubnetID authorizedKeys s = Done (err, request) s'
    \/ createReqForRover cloud fuel c displayName availabilityDomain compartmentID
         nodeShape nodeImageName nodeSubnetID authorizedKeys s = Done (err, request) s' ->
    err = None.
Proof.
  intros W cloud fuel c displayName availabilityDomain compartmentID nodeShape
    nodeImageName nodeSubnetID authorizedKeys s err request s' [Hoci | Hrover].
  - exact (createReqForOCi_nil_error cloud _ _ _ _ _ _ _ _ _ _ _ _ _ Hoci).
  - exact (createReqForRover_nil_error cloud _ _ _ _ _ _ _ _ _ _ _ _ _ Hrover).
Qed.

Lemma createReq_error_is_nil_witness :
  exists (err : error) (request : LaunchInstanceRequest) (s' : St unit),
    createReqForOCi exampleCloudNoDomains 2 exampleClient "oci-node-driver-node1"
      "ad-1" "ocid1.compartment.c" "VM.Standard2.1" defaultImage "ocid1.subnet.s"
      "ssh-rsa AAAA" s0
    = Done (err, request) s'
    /\ snd (fst (ListAvailabilityDomains exampleCloudNoDomains exampleServiceClient
                   (identity.mkListAvailabilityDomainsRequest
                      (Some "ocid1.compartment.c")) tt))
       = Some "401 NotAuthenticated"
    /\ err = None.
Proof.
  eexists _, _, _. split; [reflexivity |]. split; [reflexivity |].
  apply (createReq_error_is_nil unit exampleCloudNoDomains 2 exampleClient
           "oci-node-driver-node1" "ad-1" "ocid1.compartment.c" "VM.Standard2.1"
           defaultImage "ocid1.subnet.s" "ssh-rsa AAAA" s0 None
           LaunchInstanceRequest_zero
           (mkSt tt [CallListAvailabilityDomains
                       (identity.mkListAvailabilityDomainsRequest
                          (Some "ocid1.compartment.c"))])).
  left. reflexivity.
Defined.

(** X19: whenever [CreateInstance] returns, it has submitted exactly one
    launch request: the log holds one [LaunchInstance] call more than
    before. *)
Theorem CreateInstance_launches_once :
  forall (W : Type) (cloud : Cloud W) (fuel : nat) (c : Client) (d : Driver)
         (authorizedKeys : string) (s : St W)
         (id : string) (err : error) (s' : St W),
    CreateInstance cloud fuel c d authorizedKeys s = Done (id, err) s' ->
    countCalls isLaunchInstance (calls s')
    = S (countCalls isLaunchInstance (calls s)).
Proof.
  intros W cloud fuel c d authorizedKeys s id err s' Hrun.
  unfold CreateInstance in Hrun.
  set (build := if IsRover d then _ else _) in Hrun.
  assert (Hbuild : grows (fun what => isLaunchInstance what = false) s (build s)).
  { subst build. destruct (IsRover d).
    - eapply grows_weaken; [| apply createReqForRover_grows].
      intros what [page ->]. reflexivity.
    - eapply grows_weaken; [| apply createReqForOCi_grows].
      intros what [Hlist | [page ->]]; [| reflexivity].
      destruct what; try discriminate Hlist; reflexivity. }
  unfold bind at 1 in Hrun.
  destruct (build s) as [[berr request] s1 | msg s1 |] eqn:Hbuilt;
    try discriminate Hrun.
  destruct Hbuild as [extra [Hcalls Hextra]].
  assert (Hnone : countCalls isLaunchInstance extra = 0%nat).
  { clear - Hextra. unfold countCalls.
    induction Hextra as [| what extra Hwhat _ IH]; [reflexivity |].
    cbn [filter]. rewrite Hwhat. exact IH. }
  assert (Hberr : berr = None).
  { subst build. destruct (IsRover d).
    - exact (createReqForRover_nil_error cloud _ _ _ _ _ _ _ _ _ _ _ _ _ Hbuilt).
    - exact (createReqForOCi_nil_error cloud _ _ _ _ _ _ _ _ _ _ _ _ _ Hbuilt). }
  subst berr. unfold bind, call in Hrun. cbn [world calls] in Hrun.
  destruct (LaunchInstance cloud (computeClient c) request (world s1))
    as [[createResp [lerr |]] w2].
  - injection Hrun as _ _ <-. cbn [calls].
    rewrite Hcalls, !countCalls_app, Hnone. cbn. lia.
  - cbn [world calls] in Hrun.
    destruct (GetInstance_op cloud (computeClient c) _ w2) as [[resp [perr |]] w3].
    + injection Hrun as _ _ <-. cbn [calls].
      rewrite Hcalls, !countCalls_app, Hnone. cbn. lia.
    + destruct (core.Instance_Id (core.GetResp_Instance resp));
        cbn [deref ret panic] in Hrun; [| discriminate Hrun].
      injection Hrun as _ _ <-. cbn [calls].
      rewrite Hcalls, !countCalls_app, Hnone. cbn. lia.
Qed.

Lemma CreateInstance_launches_once_witness :
  exists s' : St unit,
    CreateInstance exampleCloudNoDomains 2 exampleClient
      (exampleDriver defaultImage false) "ssh-rsa AAAA" s0
    = Done ("", Some "400 InvalidParameter") s'
    /\ countCalls isLaunchInstance (calls s') = 1%nat.
Proof.
  eexists. split; [reflexivity |].
  exact (CreateInstance_launches_once unit exampleCloudNoDomains 2 exampleClient
           (exampleDriver defaultImage false) "ssh-rsa AAAA" s0 ""
           (Some "400 InvalidParameter")
           (mkSt tt [CallListAvailabilityDomains
                       (identity.mkListAvailabilityDomainsRequest
                          (Some "ocid1.compartment.c"));
                     CallLaunchInstance LaunchInstanceRequest_zero])
           eq_refl).
Defined.

Section LaunchMore.

Context {W : Type} (cloud : Cloud W).

(** The shape of the log of a [CreateInstance] that returns: the
    builder's lookups, the launch, and at most one polling read. *)
Lemma CreateInstance_log (fuel : nat) (c : Client) (d : Driver)
    (authorizedKeys : string) (s : St W) (result : string * error) (s' : St W) :
  CreateInstance cloud fuel c d authorizedKeys s = Done result s' ->
  exists (request : LaunchInstanceRequest) (s1 : St W) (tail : list Call),
    (if IsRover d
     then createReqForRover cloud fuel c (defaultNodeNamePfx ++ MachineName_of d)
            (AvailabilityDomain d) (NodeCompartmentID d) (Shape d) (Image d)
            (SubnetID d) authorizedKeys
     else createReqForOCi cloud fuel c (defaultNodeNamePfx ++ MachineName_of d)
            (AvailabilityDomain d) (NodeCompartmentID d) (Shape d) (Image d)
            (SubnetID d) authorizedKeys) s
    = Done (None, request) s1
    /\ calls s' = (calls s1 ++ CallLaunchInstance request :: tail)%list
    /\ (tail = [] \/ exists poll, tail = [CallGetInstance poll]).
Proof.
  intros Hrun. unfold CreateInstance in Hrun.
  set (build := if IsRover d then _ else _) in *.
  unfold bind at 1 in Hrun.
  destruct (build s) as [[berr request] s1 | msg s1 |] eqn:Hbuilt;
    try discriminate Hrun.
  assert (Hberr : berr = None).
  { subst build. destruct (IsRover d).
    - exact (createReqForRover_nil_error cloud _ _ _ _ _ _ _ _ _ _ _ _ _ Hbuilt).
    - exact (createReqForOCi_nil_error cloud _ _ _ _ _ _ _ _ _ _ _ _ _ Hbuilt). }
  subst berr. exists request, s1.
  unfold bind, call in Hrun. cbn [world calls] in Hrun.
  destruct (LaunchInstance cloud (computeClient c) request (world s1))
    as [[createResp [lerr |]] w2].
  - injection Hrun as _ <-. exists []. repeat split. left. reflexivity.
  - cbn [world calls] in Hrun.
    destruct (GetInstance_op cloud (computeClient c) _ w2) as [[resp [perr |]] w3].
    + injection Hrun as _ <-. eexists. split; [reflexivity |]. split.
      * cbn [calls]. rewrite <- app_assoc. reflexivity.
      * right. eexists. reflexivity.
    + destruct (core.Instance_Id (core.GetResp_Instance resp));
        cbn [deref ret panic] in Hrun; [| discriminate Hrun].
      injection Hrun as _ <-. eexists. split; [reflexivity |]. split.
      * cbn [calls]. rewrite <- app_assoc. reflexivity.
      * right. eexists. reflexivity.
Qed.

End LaunchMore.

(** X20: in rover mode the availability domain of the driver plays no
    part in [CreateInstance], and the identity service is not called.
    The launch request it submits is the zero request or names the
    availability domain "OREI-1-AD-1" and the fault domain
    "FAULT-DOMAIN-1", asks for a public IP and a 50 GB boot volume,
    disables monitoring, and carries the node compartment, shape, subnet
    and authorized keys of the call and the display name
    "oci-node-driver-" followed by the machine name. *)
Theorem CreateInstance_rover_request :
  forall (W : Type) (cloud : Cloud W) (fuel : nat) (c : Client) (d : Driver)
         (authorizedKeys : string) (s : St W),
    IsRover d = true ->
    (forall domain,
        CreateInstance cloud fuel c (set_AvailabilityDomain d domain) authorizedKeys s
        = CreateInstance cloud fuel c d authorizedKeys s)
    /\ (forall result s',
           CreateInstance cloud fuel c d authorizedKeys s = Done result s' ->
           countCalls isListAvailabilityDomains (calls s')
           = countCalls isListAvailabilityDomains (calls s)
           /\ exists request before tail,
                calls s' = (before ++ CallLaunchInstance request :: tail)%list
                /\ (request = LaunchInstanceRequest_zero
                    \/ exists imageID,
                         request
                         = mkLaunchInstanceRequest
                             (mkLaunchInstanceDetails
                                (Some "OREI-1-AD-1")
                                (Some (NodeCompartmentID d))
                                (Some (Shape d))
                                (Some (mkCreateVnicDetails (Some (SubnetID d))
                                         (Some true)))
                                (Some "FAULT-DOMAIN-1")
                                (Some ("oci-node-driver-" ++ MachineName_of d))
                                [("ssh_authorized_keys", authorizedKeys);
                                 ("user_data",
                                  base64.EncodeToString createCloudInitScript)]
                                (Some (mkInstanceSourceViaImageDetails imageID
                                         (Some 50)))
                                (Some (mkLaunchInstanceAgentConfigDetails
                                         (Some true)))))).
Proof.
  intros W cloud fuel c d authorizedKeys s Hrover. split.
  - intros domain. unfold CreateInstance.
    change (IsRover (set_AvailabilityDomain d domain)) with (IsRover d).
    rewrite Hrover. reflexivity.
  - intros result s' Hrun.
    destruct (CreateInstance_log cloud fuel c d authorizedKeys s result s' Hrun)
      as [request [s1 [tail [Hbuilt [Hcalls Htail]]]]].
    rewrite Hrover in Hbuilt.
    pose proof (createReqForRover_grows cloud fuel c
                  (defaultNodeNamePfx ++ MachineName_of d) (AvailabilityDomain d)
                  (NodeCompartmentID d) (Shape d) (Image d) (SubnetID d)
                  authorizedKeys s) as Hgrows.
    rewrite Hbuilt in Hgrows. destruct Hgrows as [extra [Hs1 Hextra]].
    split.
    + rewrite Hcalls, Hs1, !countCalls_app.
      assert (Hnone : countCalls isListAvailabilityDomains extra = 0%nat).
      { clear - Hextra. unfold countCalls.
        induction Hextra as [| what extra [page ->] _ IH]; [reflexivity | exact IH]. }
      rewrite Hnone.
      destruct Htail as [-> | [poll ->]]; cbn; lia.
    + exists request, (calls s1), tail. split; [exact Hcalls |].
      unfold createReqForRover, bind in Hbuilt.
      destruct (getImageID cloud fuel c (NodeCompartmentID d) (Image d) s)
        as [[imageID [e |]] s2 | msg s2 |]; try discriminate Hbuilt.
      * injection Hbuilt as <- _. left. reflexivity.
      * injection Hbuilt as <- _. right. exists imageID. reflexivity.
Qed.

Lemma CreateInstance_rover_request_witness :
  CreateInstance exampleCloud 2 exampleClient
    (set_AvailabilityDomain (exampleDriver defaultImage true) "no-such-domain")
    "ssh-rsa AAAA" s0
  = CreateInstance exampleCloud 2 exampleClient (exampleDriver defaultImage true)
      "ssh-rsa AAAA" s0.
Proof.
  destruct (CreateInstance_rover_request unit exampleCloud 2 exampleClient
              (exampleDriver defaultImage true) "ssh-rsa AAAA" s0 eq_refl)
    as [Hdomain _].
  exact (Hdomain "no-such-domain").
Defined.

(** X21: once the launch request is built, a launch that is refused
    makes [CreateInstance] return the empty ID with the error of the
    launch and no polling read; after a launch that is accepted and a
    polling read that succeeds, it returns the ID of the instance that
    the read reports. *)
Theorem CreateInstance_after_launch :
  forall (W : Type) (cloud : Cloud W) (fuel : nat) (c : Client) (d : Driver)
         (authorizedKeys : string) (s : St W)
         (request : LaunchInstanceRequest) (s1 : St W)
         (createResp : LaunchInstanceResponse) (lerr : error) (w2 : W),
    (if IsRover d
     then createReqForRover cloud fuel c (defaultNodeNamePfx ++ MachineName_of d)
            (AvailabilityDomain d) (NodeCompartmentID d) (Shape d) (Image d)
            (SubnetID d) authorizedKeys
     else createReqForOCi cloud fuel c (defaultNodeNamePfx ++ MachineName_of d)
            (AvailabilityDomain d) (NodeCompartmentID d) (Shape d) (Image d)
            (SubnetID d) authorizedKeys) s
    = Done (None, request) s1 ->
    LaunchInstance cloud (computeClient c) request (world s1)
    = (createResp, lerr, w2) ->
    (lerr <> None ->
     CreateInstance cloud fuel c d authorizedKeys s
     = Done ("", lerr) (mkSt w2 (calls s1 ++ [CallLaunchInstance request])))
    /\ (lerr = None ->
        forall resp w3 id,
          GetInstance_op cloud (computeClient c)
            (mkGetInstanceRequest (core.Instance_Id (LaunchResp_Instance createResp))
               (common.CustomizedRetryPolicy pollUntilRunning)) w2
          = (resp, None, w3) ->
          core.Instance_Id (core.GetResp_Instance resp) = Some id ->
          CreateInstance cloud fuel c d authorizedKeys s
          = Done (id, None)
              (mkSt w3
                 (calls s1 ++
                  [CallLaunchInstance request;
                   CallGetInstance
                     (mkGetInstanceRequest
                        (core.Instance_Id (LaunchResp_Instance createResp))
                        (common.CustomizedRetryPolicy pollUntilRunning))]))).
Proof.
  intros W cloud fuel c d authorizedKeys s request s1 createResp lerr w2
    Hbuilt Hlaunch.
  unfold CreateInstance. rewrite (bind_Done _ _ _ _ _ Hbuilt).
  rewrite (bind_Done _ _ _ _ _ (call_Done _ _ s1 _ _ Hlaunch)). split.
  - intros Herr. destruct lerr as [msg |]; [reflexivity | congruence].
  - intros -> resp w3 id Hpoll Hid.
    rewrite (bind_Done _ _ _ _ _ (call_Done _ _ (mkSt w2 _) _ _ Hpoll)).
    rewrite Hid. cbn [calls]. rewrite <- app_assoc. reflexivity.
Qed.

Lemma CreateInstance_after_launch_witness :
  exists s' : St unit,
    CreateInstance exampleCloud 2 exampleClient (exampleDriver defaultImage true)
      "ssh-rsa AAAA" s0
    = Done ("ocid1.instance.n", None) s'
    /\ List.map isLaunchInstance (calls s') = [false; true; false].
Proof.
  eexists. split.
  - destruct (CreateInstance_after_launch unit exampleCloud 2 exampleClient
                (exampleDriver defaultImage true) "ssh-rsa AAAA" s0 _ _
                (fst exampleLaunched) None tt
                ltac:(vm_compute; reflexivity) eq_refl) as [_ Haccepted].
    exact (Haccepted eq_refl
             (core.mkGetInstanceResponse
                (core.mkInstance (Some "ocid1.instance.n") "RUNNING"))
             tt "ocid1.instance.n" eq_refl eq_refl).
  - reflexivity.
Defined.

(** ** The facade without a client, and a full restart *)

(** X22: when the client cannot be constructed, every operation of the
    facade that needs it returns the construction error in the state the
    construction left, without calling the service: [Start], [Stop],
    [Restart], [GetState] (with the state None), [PreCreateCheck]
    outside rover mode, and [GetIP], [GetSSHHostname] and [GetURL] for a
    driver without a cached address (with the empty string and the
    driver unchanged). *)
Theorem facade_without_client :
  forall (W : Type) (cloud : Cloud W) (fuel : nat) (d : Driver) (s : St W)
         (oci : Client) (msg : string) (s1 : St W),
    initOCIClient cloud d s = Done (oci, Some msg) s1 ->
    Start cloud d s = Done (Some msg) s1
    /\ Stop cloud d s = Done (Some msg) s1
    /\ Restart cloud d s = Done (Some msg) s1
    /\ GetState cloud d s = Done (state.None, Some msg) s1
    /\ (IsRover d = false -> PreCreateCheck cloud fuel d s = Done (Some msg) s1)
    /\ (IPAddress_of d = "" ->
        GetIP cloud d s = Done (d, ("", Some msg)) s1
        /\ GetSSHHostname cloud d s = Done (d, ("", Some msg)) s1
        /\ GetURL cloud d s = Done (d, ("", Some msg)) s1).
Proof.
  intros W cloud fuel d s oci msg s1 Hinit.
  repeat match goal with |- _ /\ _ => split end.
  - unfold Start. rewrite (bind_Done _ _ _ _ _ Hinit). reflexivity.
  - unfold Stop. rewrite (bind_Done _ _ _ _ _ Hinit). reflexivity.
  - unfold Restart. rewrite (bind_Done _ _ _ _ _ Hinit). reflexivity.
  - unfold GetState. rewrite (bind_Done _ _ _ _ _ Hinit). reflexivity.
  - intros Hrover. unfold PreCreateCheck. rewrite Hrover.
    rewrite (bind_Done _ _ _ _ _ Hinit). reflexivity.
  - intros Hnone.
    assert (Hip : GetIP cloud d s = Done (d, ("", Some msg)) s1).
    { unfold GetIP. rewrite Hnone. cbn [string_isEmpty].
      rewrite (bind_Done _ _ _ _ _ Hinit). reflexivity. }
    split; [exact Hip |]. split; [exact Hip |].
    unfold GetURL. rewrite (bind_Done _ _ _ _ _ Hip). reflexivity.
Qed.

Lemma facade_without_client_witness :
  Restart (withoutIdentity exampleCloud "can not create client, bad configuration")
    (exampleDriver defaultImage false) s0
  = Done (Some "can not create client, bad configuration") s0
  /\ GetURL (withoutIdentity exampleCloud "can not create client, bad configuration")
       (exampleDriver defaultImage false) s0
     = Done (exampleDriver defaultImage false,
             ("", Some "can not create client, bad configuration")) s0.
Proof.
  destruct (facade_without_client unit
              (withoutIdentity exampleCloud "can not create client, bad configuration")
              0 (exampleDriver defaultImage false) s0 Client_zero
              "can not create client, bad configuration" s0 eq_refl)
    as [_ [_ [Hrestart [_ [_ Haddress]]]]].
  split; [exact Hrestart |].
  destruct (Haddress eq_refl) as [_ [_ Hurl]]. exact Hurl.
Defined.

(** X23: a restart through the facade, once the client is built, the
    stop action is accepted and the wait for Stopped succeeds: the start
    action is sent for the driver's instance ID; when it is refused its
    error is the result and nothing more is called; when it is accepted
    the result is that of the wait for Running, which reads the instance
    the start action reported.  The log holds the four calls in that
    order. *)
Theorem Restart_sequence :
  forall (W : Type) (cloud : Cloud W) (d : Driver) (s : St W)
         (oci : Client) (s1 : St W)
         (stopResp : InstanceActionResponse) (w2 : W)
         (stopped : core.GetInstanceResponse) (w3 : W)
         (startResp : InstanceActionResponse) (serr : error) (w4 : W),
    initOCIClient cloud d s = Done (oci, None) s1 ->
    InstanceAction cloud (computeClient oci)
      (mkInstanceActionRequest (Some (InstanceID d)) InstanceActionActionStop)
      (world s1)
    = (stopResp, None, w2) ->
    GetInstance_op cloud (computeClient oci)
      (mkGetInstanceRequest (core.Instance_Id (ActionResp_Instance stopResp))
         (common.CustomizedRetryPolicy pollUntilStopped)) w2
    = (stopped, None, w3) ->
    InstanceAction cloud (computeClient oci)
      (mkInstanceActionRequest (Some (InstanceID d)) InstanceActionActionStart) w3
    = (startResp, serr, w4) ->
    (serr <> None ->
     Restart cloud d s
     = Done serr
         (mkSt w4
            (calls s1 ++
             [CallInstanceAction
                (mkInstanceActionRequest (Some (InstanceID d)) InstanceActionActionStop);
              CallGetInstance
                (mkGetInstanceRequest (core.Instance_Id (ActionResp_Instance stopResp))
                   (common.CustomizedRetryPolicy pollUntilStopped));
              CallInstanceAction
                (mkInstanceActionRequest (Some (InstanceID d))
                   InstanceActionActionStart)])))
    /\ (serr = None ->
        forall running perr w5,
          GetInstance_op cloud (computeClient oci)
            (mkGetInstanceRequest (core.Instance_Id (ActionResp_Instance startResp))
               (common.CustomizedRetryPolicy pollUntilRunning)) w4
          = (running, perr, w5) ->
          Restart cloud d s
          = Done perr
              (mkSt w5
                 (calls s1 ++
                  [CallInstanceAction
                     (mkInstanceActionRequest (Some (InstanceID d))
                        InstanceActionActionStop);
                   CallGetInstance
                     (mkGetInstanceRequest
                        (core.Instance_Id (ActionResp_Instance stopResp))
                        (common.CustomizedRetryPolicy pollUntilStopped));
                   CallInstanceAction
                     (mkInstanceActionRequest (Some (InstanceID d))
                        InstanceActionActionStart);
                   CallGetInstance
                     (mkGetInstanceRequest
                        (core.Instance_Id (ActionResp_Instance startResp))
                        (common.CustomizedRetryPolicy pollUntilRunning))]))).
Proof.
  intros W cloud d s oci s1 stopResp w2 stopped w3 startResp serr w4
    Hinit Hstop Hstopped Hstart.
  assert (Hstopping :
    StopInstance cloud oci (InstanceID d) s1
    = Done None
        (mkSt w3
           (calls s1 ++
            [CallInstanceAction
               (mkInstanceActionRequest (Some (InstanceID d)) InstanceActionActionStop);
             CallGetInstance
               (mkGetInstanceRequest (core.Instance_Id (ActionResp_Instance stopResp))
                  (common.CustomizedRetryPolicy pollUntilStopped))]))).
  { unfold StopInstance.
    rewrite (bind_Done _ _ _ _ _ (call_Done _ _ s1 _ _ Hstop)).
    rewrite (bind_Done _ _ _ _ _ (call_Done _ _ (mkSt w2 _) _ _ Hstopped)).
    cbn [calls]. rewrite <- app_assoc. reflexivity. }
  unfold Restart. rewrite (bind_Done _ _ _ _ _ Hinit).
  unfold RestartInstance. rewrite (bind_Done _ _ _ _ _ Hstopping).
  unfold StartInstance.
  rewrite (bind_Done _ _ _ _ _ (call_Done _ _ (mkSt w3 _) _ _ Hstart)).
  cbn [calls]. split.
  - intros Herr. destruct serr as [msg |]; [| congruence].
    rewrite <- app_assoc. reflexivity.
  - intros -> running perr w5 Hrunning.
    rewrite (bind_Done _ _ _ _ _ (call_Done _ _ (mkSt w4 _) _ _ Hrunning)).
    cbn [calls]. rewrite <- !app_assoc. reflexivity.
Qed.

Lemma Restart_sequence_witness :
  exists s' : St unit,
    Restart exampleCloud (exampleDriver defaultImage false) s0 = Done None s'
    /\ List.map isStartAction (calls s') = [false; false; true; false].
Proof.
  eexists. split.
  - destruct (Restart_sequence unit exampleCloud (exampleDriver defaultImage false) s0
                exampleClient s0
                (mkInstanceActionResponse (core.mkInstance (Some "ocid1.instance.i") "STOPPING"))
                tt
                (core.mkGetInstanceResponse
                   (core.mkInstance (Some "ocid1.instance.n") "RUNNING"))
                tt
                (mkInstanceActionResponse (core.mkInstance (Some "ocid1.instance.i") "STOPPING"))
                None tt eq_refl eq_refl eq_refl eq_refl) as [_ Hstarted].
    exact (Hstarted eq_refl
             (core.mkGetInstanceResponse
                (core.mkInstance (Some "ocid1.instance.n") "RUNNING"))
             None tt eq_refl).
  - reflexivity.
Defined.

(** ** Stop and start on their own *)

(** X24: [StopInstance] and [StartInstance] send one action for the
    given instance ID.  When the action is refused they return its error
    without reading the instance; when it is accepted they read the
    instance the action reported, with the retry predicate of their
    target state, and return the error of that read, nil or not. *)
Theorem StopInstance_StartInstance_results :
  forall (W : Type) (cloud : Cloud W) (c : Client) (id : string) (s : St W),
    (forall resp aerr w1,
        InstanceAction cloud (computeClient c)
          (mkInstanceActionRequest (Some id) InstanceActionActionStop) (world s)
        = (resp, aerr, w1) ->
        (aerr <> None ->
         StopInstance cloud c id s
         = Done aerr
             (mkSt w1 (calls s ++
                       [CallInstanceAction
                          (mkInstanceActionRequest (Some id) InstanceActionActionStop)])))
        /\ (aerr = None ->
            forall read perr w2,
              GetInstance_op cloud (computeClient c)
                (mkGetInstanceRequest (core.Instance_Id (ActionResp_Instance resp))
                   (common.CustomizedRetryPolicy pollUntilStopped)) w1
              = (read, perr, w2) ->
              StopInstance cloud c id s
              = Done perr
                  (mkSt w2 (calls s ++
                            [CallInstanceAction
                               (mkInstanceActionRequest (Some id)
                                  InstanceActionActionStop);
                             CallGetInstance
                               (mkGetInstanceRequest
                                  (core.Instance_Id (ActionResp_Instance resp))
                                  (common.CustomizedRetryPolicy pollUntilStopped))]))))
    /\ (forall resp aerr w1,
           InstanceAction cloud (computeClient c)
             (mkInstanceActionRequest (Some id) InstanceActionActionStart) (world s)
           = (resp, aerr, w1) ->
           (aerr <> None ->
            StartInstance cloud c id s
            = Done aerr
                (mkSt w1 (calls s ++
                          [CallInstanceAction
                             (mkInstanceActionRequest (Some id)
                                InstanceActionActionStart)])))
           /\ (aerr = None ->
               forall read perr w2,
                 GetInstance_op cloud (computeClient c)
                   (mkGetInstanceRequest (core.Instance_Id (ActionResp_Instance resp))
                      (common.CustomizedRetryPolicy pollUntilRunning)) w1
                 = (read, perr, w2) ->
                 StartInstance cloud c id s
                 = Done perr
                     (mkSt w2 (calls s ++
                               [CallInstanceAction
                                  (mkInstanceActionRequest (Some id)
                                     InstanceActionActionStart);
                                CallGetInstance
                                  (mkGetInstanceRequest
                                     (core.Instance_Id (ActionResp_Instance resp))
                                     (common.CustomizedRetryPolicy
                                        pollUntilRunning))])))).
Proof.
  intros W cloud c id s. split.
  - intros resp aerr w1 Haction. unfold StopInstance.
    rewrite (bind_Done _ _ _ _ _ (call_Done _ _ s _ _ Haction)). split.
    + intros Herr. destruct aerr as [msg |]; [reflexivity | congruence].
    + intros -> read perr w2 Hread.
      rewrite (bind_Done _ _ _ _ _ (call_Done _ _ (mkSt w1 _) _ _ Hread)).
      cbn [calls]. rewrite <- app_assoc. reflexivity.
  - intros resp aerr w1 Haction. unfold StartInstance.
    rewrite (bind_Done _ _ _ _ _ (call_Done _ _ s _ _ Haction)). split.
    + intros Herr. destruct aerr as [msg |]; [reflexivity | congruence].
    + intros -> read perr w2 Hread.
      rewrite (bind_Done _ _ _ _ _ (call_Done _ _ (mkSt w1 _) _ _ Hread)).
      cbn [calls]. rewrite <- app_assoc. reflexivity.
Qed.

(** A stop whose wait fails: the error of the read is the result. *)
Lemma StopInstance_StartInstance_results_witness :
  StopInstance exampleCloudReadFails exampleClient "ocid1.instance.i" s0
  = Done (Some "503 Service Unavailable")
      (mkSt tt [CallInstanceAction
                  (mkInstanceActionRequest (Some "ocid1.instance.i")
                     InstanceActionActionStop);
                CallGetInstance
                  (mkGetInstanceRequest (Some "ocid1.instance.i")
                     (common.CustomizedRetryPolicy pollUntilStopped))]).
Proof.
  destruct (StopInstance_StartInstance_results unit exampleCloudReadFails
              exampleClient "ocid1.instance.i" s0) as [Hstop _].
  destruct (Hstop (mkInstanceActionResponse
                     (core.mkInstance (Some "ocid1.instance.i") "STOPPING"))
              None tt eq_refl) as [_ Haccepted].
  exact (Haccepted eq_refl (core.mkGetInstanceResponse core.Instance_zero)
           (Some "503 Service Unavailable") tt eq_refl).
Defined.

(** ** The retry policy of the image listing *)

Lemma quot_100_is_2 (n : Z) : Z.quot n 100 = 2 <-> 200 <= n <= 299.
Proof.
  pose proof (Z.quot_rem' n 100) as Hsplit.
  destruct (Z_lt_le_dec n 0) as [Hneg | Hpos].
  - pose proof (Z.rem_bound_abs n 100 ltac:(lia)) as Hrem. lia.
  - pose proof (Z.rem_bound_pos n 100 Hpos ltac:(lia)) as Hrem. lia.
Qed.

(** X25: every [ListImages] request of [getImageID] allows three
    attempts, waits three seconds before each further one, and asks for
    another attempt unless the response came without an error and with
    an HTTP status from 200 to 299. *)
Theorem listImagesRequest_retry_policy :
  forall (compartmentID : string) (page : option string),
    exists (shouldRetry : common.OCIOperationResponse -> bool)
           (nextDuration : common.OCIOperationResponse -> Z),
      ListImages_RequestMetadata (listImagesRequest compartmentID page)
      = common.RetryPolicy 3 shouldRetry nextDuration
      /\ (forall r, nextDuration r = 3)
      /\ (forall r,
             shouldRetry r = false
             <-> common.Response_Error r = None
                 /\ 200 <= common.Response_StatusCode r <= 299).
Proof.
  intros compartmentID page. eexists _, _. split; [reflexivity |].
  split; [reflexivity |].
  intros r. cbn beta. rewrite negb_false_iff, andb_true_iff, Z.eqb_eq, quot_100_is_2.
  destruct (common.Response_Error r); cbn [isNil]; split; intros [H1 H2];
    split; congruence || assumption || reflexivity.
Qed.

(** ** The table of flags *)

(** X26: the flags that [GetCreateFlags] declares have pairwise distinct
    names and pairwise distinct environment variables; the environment
    variable of each is its name in upper case with underscores for
    hyphens; and the defaults declared are those of oci-node-docker-port
    (2376), oci-node-image (Oracle-Linux-7.7), oci-ssh-port (22) and
    oci-ssh-user (opc), the last two being the values [GetSSHPort] and
    [GetSSHUsername] return. *)
Theorem GetCreateFlags_table :
  forall d : Driver,
    distinct (map mcnflag.Name_of (GetCreateFlags d)) = true
    /\ distinct (map EnvVar_of (GetCreateFlags d)) = true
    /\ map EnvVar_of (GetCreateFlags d)
       = map (fun f => envVarOf (mcnflag.Name_of f)) (GetCreateFlags d)
    /\ declaredDefaults d
       = [("oci-node-docker-port", "2376"); ("oci-node-image", "Oracle-Linux-7.7");
          ("oci-ssh-port", "22"); ("oci-ssh-user", "opc")]
    /\ In ("oci-ssh-port", fmt.d (fst (GetSSHPort d))) (declaredDefaults d)
    /\ In ("oci-ssh-user", GetSSHUsername d) (declaredDefaults d).
Proof.
  intros d. repeat split.
  - right. right. left. reflexivity.
  - right. right. right. left. reflexivity.
Qed.
